(** * The spaced-repetition scheduler of [spaced-repetition.js]

    A shallow embedding of the class [SpacedRepetitionSystem] and the
    properties its specification states about it.

    The class keeps no state of its own besides two constants: every method
    reads the whole store from [localStorage], works on the parsed JavaScript
    object and writes the whole object back.  The embedding follows that
    shape:

    - the values the program handles are JSON trees ([json]) and the few
      JavaScript values that are not JSON ([value]);
    - a method is a computation in a small state and exception monad [M]
      over the browser state the class touches: the [localStorage] entry,
      the console, the alert boxes and the clock;
    - what ECMAScript leaves to the implementation, and the conversions this
      development does not describe, end a computation in [Unmodelled]; a
      theorem never concludes anything from such a run. *)

From Stdlib Require Import ZArith List String Ascii Bool Lia.
From Stdlib Require Import Permutation Sorted.
From Stdlib Require Import DecimalString DecimalPos DecimalZ.
Import ListNotations.

Set Warnings "-register-all".

Local Open Scope string_scope.
Local Open Scope list_scope.
Local Open Scope Z_scope.

(** ** JavaScript values *)

(** A number is an integer or NaN.  JavaScript numbers are binary64 floats,
    which hold every integer of magnitude up to 2^53 exactly; fractions and
    the infinities are not represented. *)
Inductive number : Type :=
| Num (z : Z)
| NaN.

(** The trees [JSON.parse] returns.  An object is the list of its own
    properties in the order [for ... in] and [JSON.stringify] enumerate them;
    for the property names of this program, none of which is an array index,
    that is the order of creation. *)
Inductive json : Type :=
| JNull
| JBool (b : bool)
| JNum (z : Z)
| JStr (s : string)
| JArr (elems : list json)
| JObj (props : list (string * json)).

Definition object : Type := list (string * json).

(** What an expression of the program can evaluate to: a JSON tree, or one
    of [undefined], [NaN] and a built-in object reached through
    [Object.prototype]. *)
Inductive value : Type :=
| Undefined
| NotANumber
| Builtin (name : string)
| Json (j : json).

Coercion Json : json >-> value.

(** *** Own properties of an object *)

Fixpoint obj_lookup (k : string) (o : object) : option json :=
  match o with
  | [] => None
  | (k', v) :: o' => if String.eqb k' k then Some v else obj_lookup k o'
  end.

Fixpoint obj_replace (k : string) (v : json) (o : object) : object :=
  match o with
  | [] => []
  | (k', v') :: o' =>
      if String.eqb k' k then (k', v) :: o' else (k', v') :: obj_replace k v o'
  end.

(** [o[k] = v]: an existing property keeps its place, a new one is created
    after the others. *)
Definition obj_set (k : string) (v : json) (o : object) : object :=
  match obj_lookup k o with
  | Some _ => obj_replace k v o
  | None => o ++ [(k, v)]
  end.

(** [delete o[k]]. *)
Definition obj_delete (k : string) (o : object) : object :=
  filter (fun p => negb (String.eqb (fst p) k)) o.

(** [{key: key, ...item}]: the new object starts with [key]; a property
    [key] of [item] itself then overwrites the value and stays in front. *)
Definition spread_with_key (key : string) (item : object) : object :=
  match obj_lookup "key" item with
  | Some v => ("key", v) :: obj_delete "key" item
  | None => ("key", JStr key) :: item
  end.

(** The properties every object inherits from [Object.prototype].  All of
    them are functions, but [__proto__], which reads as the prototype
    object.  The built-in objects are taken as the engine creates them. *)
Definition Object_prototype : list string :=
  [ "constructor"; "__defineGetter__"; "__defineSetter__"; "hasOwnProperty";
    "__lookupGetter__"; "__lookupSetter__"; "isPrototypeOf";
    "propertyIsEnumerable"; "toString"; "valueOf"; "__proto__";
    "toLocaleString" ].

Definition inherited (k : string) : bool :=
  existsb (String.eqb k) Object_prototype.

(** [o[k]] on an object: the own property, else the inherited one, else
    [undefined]. *)
Definition obj_get (o : object) (k : string) : value :=
  match obj_lookup k o with
  | Some v => Json v
  | None => if inherited k then Builtin k else Undefined
  end.

(** *** Conversions and operators *)

(** ToBoolean. *)
Definition truthy (v : value) : bool :=
  match v with
  | Undefined => false
  | NotANumber => false
  | Builtin _ => true
  | Json JNull => false
  | Json (JBool b) => b
  | Json (JNum z) => negb (z =? 0)
  | Json (JStr s) => negb (String.eqb s "")
  | Json (JArr _) => true
  | Json (JObj _) => true
  end.

(** [a === b].  Primitives compare by value and NaN differs from itself.
    Two objects are equal when they are the same object: an object inside a
    freshly parsed store is never the object a caller holds, so two trees
    compare unequal; a built-in is the same object under the same name. *)
Definition strict_equal (a b : value) : bool :=
  match a, b with
  | Undefined, Undefined => true
  | Builtin x, Builtin y => String.eqb x y
  | Json JNull, Json JNull => true
  | Json (JBool x), Json (JBool y) => Bool.eqb x y
  | Json (JNum x), Json (JNum y) => x =? y
  | Json (JStr x), Json (JStr y) => String.eqb x y
  | _, _ => false
  end.

(** ToNumber, where this development describes it: the conversion of a
    string reads a numeric literal and that of an object calls its
    [valueOf] and [toString]; both are left out ([None]). *)
Definition to_number (v : value) : option number :=
  match v with
  | Undefined => Some NaN
  | NotANumber => Some NaN
  | Builtin _ => None
  | Json JNull => Some (Num 0)
  | Json (JBool b) => Some (Num (if b then 1 else 0))
  | Json (JNum z) => Some (Num z)
  | Json (JStr _) => None
  | Json (JArr _) => None
  | Json (JObj _) => None
  end.

(** Whether ToString has a result on a tree.  A primitive has; an object
    has one, the text [[object Object]] of the inherited [toString], unless
    a property [toString] of its own hides that method: the property of a
    JSON tree is never a function and the inherited [valueOf] returns the
    object itself, which leaves a TypeError.  An array joins the strings of
    its elements, [null] counting as the empty string. *)
Fixpoint has_string (j : json) : bool :=
  match j with
  | JObj o =>
      match obj_lookup "toString" o with
      | Some _ => false
      | None => true
      end
  | JArr elems => forallb has_string elems
  | _ => true
  end.

Definition interpolates (v : value) : bool :=
  match v with
  | Json j => has_string j
  | _ => true
  end.

(** [x > y] and [x >= y] on numbers: false as soon as one side is NaN. *)
Definition number_gt (x y : number) : bool :=
  match x, y with
  | Num a, Num b => b <? a
  | _, _ => false
  end.

Definition number_ge (x y : number) : bool :=
  match x, y with
  | Num a, Num b => b <=? a
  | _, _ => false
  end.

(** [Math.min(x, y)]. *)
Definition Math_min (x y : number) : number :=
  match x, y with
  | Num a, Num b => Num (Z.min a b)
  | _, _ => NaN
  end.

(** The integers from [- exact_bound] to [exact_bound] are the range in
    which a float holds every integer. *)
Definition exact_bound : Z := 9007199254740992.

(** [x + 1] of [x++], where the sum is exact; beyond, the float sum rounds
    and is left open. *)
Definition number_succ (x : number) : option number :=
  match x with
  | Num a =>
      if (- exact_bound <=? a) && (a <? exact_bound) then Some (Num (a + 1))
      else None
  | NaN => Some NaN
  end.

(** The tree [JSON.stringify] writes for a number: NaN becomes [null]. *)
Definition number_json (x : number) : json :=
  match x with
  | Num a => JNum a
  | NaN => JNull
  end.

(** [a[i]] on an array of numbers: [undefined] outside [0 .. length-1],
    also at the index NaN. *)
Definition array_get (a : list Z) (i : number) : option Z :=
  match i with
  | Num z => if z <? 0 then None else nth_error a (Z.to_nat z)
  | NaN => None
  end.

(** The integers a float holds exactly, each apart from its neighbours:
    those of magnitude below 2^53 ([Number.isSafeInteger]). *)
Definition safe_integer (z : Z) : bool :=
  (- exact_bound <? z) && (z <? exact_bound).

(** The decimal digits of an integer, with a minus sign below zero. *)
Definition decimal (z : Z) : string :=
  NilZero.string_of_int (Z.to_int z).

(** Number to string, as a template literal does it for an integer: a safe
    integer prints as its decimal digits.  Beyond, the conversion prints
    the shortest digits that read back as the same float (2^60 prints as
    1152921504606847000), and an exponent from 10^21 on: the string is left
    open there. *)
Definition number_to_string (z : Z) : option string :=
  if safe_integer z then Some (decimal z) else None.

(** ** Dates *)

(** A [Date] holds a time value: the milliseconds since 1970-01-01T00:00Z,
    or NaN for an invalid date.  Time values lie within 10^8 days of the
    epoch; TimeClip turns anything beyond into NaN. *)
Definition msPerDay : Z := 86400000.
Definition maxTime : Z := 8640000000000000.

Definition TimeClip (t : Z) : number :=
  if (- maxTime <=? t) && (t <=? maxTime) then Num t else NaN.

(** Year, month and day of a day number (days since the epoch) in the
    proleptic Gregorian calendar, and back. *)
Definition civil_from_days (day : Z) : Z * Z * Z :=
  let z := day + 719468 in
  let era := z / 146097 in
  let doe := z - era * 146097 in
  let yoe := (doe - doe / 1460 + doe / 36524 - doe / 146096) / 365 in
  let doy := doe - (365 * yoe + yoe / 4 - yoe / 100) in
  let mp := (5 * doy + 2) / 153 in
  let d := doy - (153 * mp + 2) / 5 + 1 in
  let m := if mp <? 10 then mp + 3 else mp - 9 in
  let y := yoe + era * 400 in
  (if m <=? 2 then y + 1 else y, m, d).

Definition days_from_civil (y m d : Z) : Z :=
  let y := if m <=? 2 then y - 1 else y in
  let era := y / 400 in
  let yoe := y - era * 400 in
  let doy := (153 * (if 2 <? m then m - 3 else m + 9) + 2) / 5 + d - 1 in
  let doe := yoe * 365 + yoe / 4 - yoe / 100 + doy in
  era * 146097 + doe - 719468.

Definition digit (n : Z) : string :=
  String (ascii_of_nat (48 + Z.to_nat (n mod 10))) EmptyString.

(** The [width] last decimal digits of [n], with leading zeros. *)
Fixpoint pad (width : nat) (n : Z) : string :=
  match width with
  | O => EmptyString
  | S w => (pad w (n / 10) ++ digit n)%string
  end.

(** Years 0 to 9999 print with four digits, the others with a sign and six
    digits. *)
Definition iso_year (y : Z) : string :=
  if (0 <=? y) && (y <=? 9999) then pad 4 y
  else String.append (if y <? 0 then "-" else "+") (pad 6 (Z.abs y)).

(** [YYYY-MM-DDTHH:mm:ss.sssZ] of a time value. *)
Definition iso_format (t : Z) : string :=
  let day := t / msPerDay in
  let ms := t mod msPerDay in
  let '(y, m, d) := civil_from_days day in
  let hh := ms / 3600000 in
  let mm := ms / 60000 mod 60 in
  let ss := ms / 1000 mod 60 in
  (iso_year y ++ "-" ++ pad 2 m ++ "-" ++ pad 2 d ++ "T" ++ pad 2 hh ++ ":"
   ++ pad 2 mm ++ ":" ++ pad 2 ss ++ "." ++ pad 3 (ms mod 1000) ++ "Z")%string.

Definition digit_value (c : ascii) : option Z :=
  let n := Z.of_nat (nat_of_ascii c) in
  if (48 <=? n) && (n <=? 57) then Some (n - 48) else None.

Fixpoint digits_value (acc : Z) (s : string) : option Z :=
  match s with
  | EmptyString => Some acc
  | String c s' =>
      match digit_value c with
      | Some d => digits_value (10 * acc + d) s'
      | None => None
      end
  end.

Definition field (s : string) (start len : nat) : option Z :=
  digits_value 0 (substring start len s).

(** [Date.parse] on the strings [toISOString] writes: the fields are read at
    their places, and the reading is kept when it prints back as the very
    string.  On any other string the result is left open ([None]): other
    forms of the date-time format are not described here, and outside that
    format the result is up to the implementation. *)
Definition Date_parse (s : string) : option Z :=
  let signed :=
    match s with
    | String c _ => orb (Ascii.eqb c "+") (Ascii.eqb c "-")
    | EmptyString => false
    end in
  let negative :=
    match s with
    | String c _ => Ascii.eqb c "-"
    | EmptyString => false
    end in
  let o := if signed then 3%nat else 0%nat in
  match field s (if signed then 1 else 0) (if signed then 6 else 4),
        field s (5 + o) 2, field s (8 + o) 2, field s (11 + o) 2,
        field s (14 + o) 2, field s (17 + o) 2, field s (20 + o) 3 with
  | Some y, Some m, Some d, Some hh, Some mm, Some ss, Some ms =>
      let y := if negative then - y else y in
      let t := days_from_civil y m d * msPerDay
               + hh * 3600000 + mm * 60000 + ss * 1000 + ms in
      match TimeClip t with
      | Num _ => if String.eqb (iso_format t) s then Some t else None
      | NaN => None
      end
  | _, _, _, _, _, _, _ => None
  end.

(** The time value of [new Date(v)]: [Some] of a number where this
    development tells it, [None] where it is left open. *)
Definition Date_of (v : value) : option number :=
  match v with
  | Undefined => Some NaN
  | NotANumber => Some NaN
  | Builtin _ => None
  | Json JNull => Some (Num 0)
  | Json (JBool b) => Some (Num (if b then 1 else 0))
  | Json (JNum z) => Some (TimeClip z)
  | Json (JStr s) =>
      match Date_parse s with
      | Some t => Some (Num t)
      | None => None
      end
  | Json (JArr _) => None
  | Json (JObj _) => None
  end.

(** The time zone of the browser: the conversion of a time value to local
    time and back (LocalTime and UTC of ECMAScript), whatever the offsets of
    the zone are over the year. *)
Record TimeZone : Type := mkTimeZone {
  LocalTime : Z -> Z;
  UTC : Z -> Z
}.

(** A zone that is always [offset] milliseconds ahead of UTC. *)
Definition fixed_zone (offset : Z) : TimeZone :=
  mkTimeZone (fun t => t + offset) (fun t => t - offset).

(** The time value [days] days after [t] on the local calendar, at the same
    local time of day. *)
Definition days_later (zone : TimeZone) (days t : Z) : Z :=
  UTC zone (LocalTime zone t + days * msPerDay).

(** [d.setDate(d.getDate() + days)].  [getDate] is the day of the month of
    the local time of [d]; [setDate] makes the day number of the first of
    that month plus the new day of the month, less one, the day of [d] and
    keeps the time within the day: the local time moves by
    [days * msPerDay], and the result is converted back and clipped.  An
    [undefined] number of days makes the date invalid. *)
Definition setDate_getDate_plus (zone : TimeZone) (t : number)
  (days : option Z) : number :=
  match t, days with
  | Num t, Some d => TimeClip (days_later zone d t)
  | _, _ => NaN
  end.

(** ** The browser state and the monad of the methods *)

Inductive exn : Type :=
| TypeError
| RangeError
| SyntaxError
| ReadError.

(** What the methods write on the console, by message; the argument is the
    value the template of the message interpolates. *)
Inductive console_entry : Type :=
| LogSaved (english : value)
| ErrorNotFound
| LogRemembered (days : option Z)
| LogForgotten (days : option Z)
| LogDeleted
| LogReset
| LogImported
| ErrorImport (error : exn).

Inductive alert_box : Type :=
| AlertImportFailed.

(** [storage] is the entry of [localStorage] under [storageKey]: [None]
    while there is none, else the tree of the JSON text it holds
    ([JSON.stringify] writes a JSON tree as a text that [JSON.parse] reads
    back as the same tree).  Only this class writes the entry, and
    [localStorage] is taken to accept every write (no quota).  [console] and
    [alerts] grow at the end.  [ticks] counts the readings of the clock. *)
Record State : Type := mkState {
  storage : option json;
  console : list console_entry;
  alerts : list alert_box;
  ticks : nat
}.

Inductive result (A : Type) : Type :=
| Return (a : A) (s : State)
| Throw (e : exn) (s : State)
| Unmodelled.

Arguments Return {A} a s.
Arguments Throw {A} e s.
Arguments Unmodelled {A}.

Definition M (A : Type) : Type := State -> result A.

Definition ret {A} (a : A) : M A := fun s => Return a s.

Definition bind {A B} (c : M A) (k : A -> M B) : M B :=
  fun s =>
    match c s with
    | Return a s' => k a s'
    | Throw e s' => Throw e s'
    | Unmodelled => Unmodelled
    end.

Definition throw {A} (e : exn) : M A := fun s => Throw e s.

Definition unmodelled {A} : M A := fun _ => Unmodelled.

(** [try { body } catch (error) { handler }]. *)
Definition try_catch {A} (body : M A) (handler : exn -> M A) : M A :=
  fun s =>
    match body s with
    | Return a s' => Return a s'
    | Throw e s' => handler e s'
    | Unmodelled => Unmodelled
    end.

Declare Scope js_scope.
Delimit Scope js_scope with js.
Notation "x <- c ;; k" := (bind c (fun x => k))
  (at level 61, c at next level, right associativity) : js_scope.
Notation "c ;; k" := (bind c (fun _ => k))
  (at level 61, right associativity) : js_scope.
Local Open Scope js_scope.

(** A conversion that is left open ends the run. *)
Definition described {A} (o : option A) : M A :=
  match o with
  | Some a => ret a
  | None => unmodelled
  end.

Fixpoint for_each {A B} (l : list A) (body : A -> B -> M B) (acc : B) : M B :=
  match l with
  | [] => ret acc
  | x :: l' => acc' <- body x acc ;; for_each l' body acc'
  end.

Definition console_log (e : console_entry) : M unit :=
  fun s =>
    Return tt (mkState (storage s) (console s ++ [e]) (alerts s) (ticks s)).

Definition console_error (e : console_entry) : M unit := console_log e.

Definition alert (a : alert_box) : M unit :=
  fun s =>
    Return tt (mkState (storage s) (console s) (alerts s ++ [a]) (ticks s)).

(** *** Property access *)

(** [v[k]] and [v.k]: a TypeError on [null] and [undefined].  The members of
    arrays and of the wrappers of primitives are left open. *)
Definition get_member (v : value) (k : string) : M value :=
  match v with
  | Json (JObj o) => ret (obj_get o k)
  | Json JNull => throw TypeError
  | Undefined => throw TypeError
  | _ => unmodelled
  end.

(** [v[k]] for a key whose string may be left open: the TypeError on [null]
    and [undefined] does not depend on the key. *)
Definition get_member_at (v : value) (k : option string) : M value :=
  match k with
  | Some k => get_member v k
  | None =>
      match v with
      | Json JNull => throw TypeError
      | Undefined => throw TypeError
      | _ => unmodelled
      end
  end.

(** [v.k = x], returning the object after the assignment.  The class body is
    strict code, where creating a property on a primitive is a TypeError.
    An assignment to an array or to a built-in is left open. *)
Definition set_member (v : value) (k : string) (x : json) : M json :=
  match v with
  | Json (JObj o) => ret (JObj (obj_set k x o))
  | Json (JArr _) => unmodelled
  | Builtin _ => unmodelled
  | _ => throw TypeError
  end.

(** [delete v[k]] on an object, returning the object afterwards. *)
Definition delete_member (v : json) (k : string) : M json :=
  match v with
  | JObj o => ret (JObj (obj_delete k o))
  | _ => unmodelled
  end.

(** The keys [for (const key in v)] visits, each with [v[key]].  A primitive
    has no enumerable property; strings and arrays are left open. *)
Definition for_in_entries (v : json) : M object :=
  match v with
  | JObj o => ret o
  | JNull => ret []
  | JBool _ => ret []
  | JNum _ => ret []
  | _ => unmodelled
  end.

(** [{key: key, ...item}]. *)
Definition spread (key : string) (item : json) : M object :=
  match item with
  | JObj o => ret (spread_with_key key o)
  | _ => unmodelled
  end.

(** The conversion to a string of a value interpolated in a template
    literal, for the exception it may throw; the text it gives is not kept
    (a [console_entry] holds the value). *)
Definition interpolate (v : value) : M unit :=
  if interpolates v then ret tt else throw TypeError.

(** A parameter declared [= null]. *)
Definition default_null (v : value) : value :=
  match v with
  | Undefined => Json JNull
  | _ => v
  end.

(** *** Sorting by a date *)

Fixpoint insert_by {A} (rank : A -> Z) (x : A) (l : list A) : list A :=
  match l with
  | [] => [x]
  | y :: l' => if rank x <=? rank y then x :: l else y :: insert_by rank x l'
  end.

(** A stable sort by ascending rank. *)
Fixpoint sort_by {A} (rank : A -> Z) (l : list A) : list A :=
  match l with
  | [] => []
  | x :: l' => insert_by rank x (sort_by rank l')
  end.

(** The time value of [new Date(item[name])], when it is a valid date. *)
Definition date_field (name : string) (item : object) : option Z :=
  match Date_of (obj_get item name) with
  | Some (Num t) => Some t
  | _ => None
  end.

Fixpoint date_fields (name : string) (items : list object)
  : option (list (Z * object)) :=
  match items with
  | [] => Some []
  | item :: items' =>
      match date_field name item, date_fields name items' with
      | Some t, Some l => Some ((t, item) :: l)
      | _, _ => None
      end
  end.

(** [items.sort((a, b) => new Date(a[name]) - new Date(b[name]))], or with
    [a] and [b] exchanged when [descending].  The comparison function is
    called on lists of two items or more.  [Array.prototype.sort] is stable,
    and its result is fixed by the language only for a consistent comparison
    function: the run is left open when a date is invalid. *)
Definition sort_by_date (name : string) (descending : bool)
  (items : list object) : M (list object) :=
  match items with
  | [] => ret items
  | [_] => ret items
  | _ =>
      keyed <- described (date_fields name items) ;;
      ret (map snd (sort_by (fun p => if descending then - fst p else fst p)
                      keyed))
  end.

(** ** The class [SpacedRepetitionSystem] *)

(** The review intervals in days: a day, three days, a week, two weeks, a
    month. *)
Definition intervals : list Z := [1; 3; 7; 14; 30].

Definition intervals_length : Z := Z.of_nat (List.length intervals).

(** The levels [getStatistics] reports on. *)
Definition levels : list string := ["a1"; "a2"; "b1"; "b2"; "c1"; "c2"].

(** The file handed to [importData], by what [file.text()] and [JSON.parse]
    make of it: the reading fails, or the text is not JSON, or it is the JSON
    text of a tree. *)
Inductive text : Type :=
| NotJSON
| JSONText (data : json).

Inductive File : Type :=
| Unreadable
| Readable (t : text).

Definition File_text (file : File) : M text :=
  match file with
  | Unreadable => throw ReadError
  | Readable t => ret t
  end.

Definition JSON_parse (t : text) : M json :=
  match t with
  | NotJSON => throw SyntaxError
  | JSONText data => ret data
  end.

Record LevelStatistics : Type := mkLevelStatistics {
  level_total : nat;
  level_dueToday : nat;
  level_vocab : nat;
  level_sentences : nat
}.

Record Statistics : Type := mkStatistics {
  total : nat;
  dueToday : nat;
  reviewed : nat;
  mastered : nat;
  byLevel : list (string * LevelStatistics)
}.

(** [items.filter(test).length]. *)
Fixpoint filter_count {A} (test : A -> M bool) (items : list A) : M nat :=
  match items with
  | [] => ret O
  | x :: items' =>
      b <- test x ;;
      n <- filter_count test items' ;;
      ret (if b then S n else n)
  end.

Section Scheduler.

(** The clock: [clock i] is what the reading number [i] of [new Date()]
    gives. *)
Variable clock : nat -> Z.

(** The time zone the browser runs in. *)
Variable zone : TimeZone.

(** [new Date()]. *)
Definition new_Date : M number :=
  fun s =>
    Return (TimeClip (clock (ticks s)))
      (mkState (storage s) (console s) (alerts s) (S (ticks s))).

(** [d.toISOString()]: a RangeError on an invalid date. *)
Definition toISOString (d : number) : M string :=
  match d with
  | Num t => ret (iso_format t)
  | NaN => throw RangeError
  end.

Definition getAllData : M json :=
  fun s =>
    Return (match storage s with
            | Some data => data
            | None => JObj []
            end) s.

Definition saveAllData (data : json) : M unit :=
  fun s => Return tt (mkState (Some data) (console s) (alerts s) (ticks s)).

Definition calculateNextReview (reviewCount : number) : M string :=
  today <- new_Date ;;
  let intervalIndex := Math_min reviewCount (Num (intervals_length - 1)) in
  let daysToAdd := array_get intervals intervalIndex in
  let nextDate := setDate_getDate_plus zone today daysToAdd in
  toISOString nextDate.

(** [`${level}_${type}_${id}`], where the string of [id] is described. *)
Definition item_key (level type : string) (id : Z) : option string :=
  match number_to_string id with
  | Some digits => Some (level ++ "_" ++ type ++ "_" ++ digits)%string
  | None => None
  end.

(** [level] and [type] are strings, [id] a number and [data] an object, as
    the method documents its parameters.  The key is a string whatever the
    three are, so that [allData[key]] on [null] throws for every [id]; what
    follows is described for the keys [item_key] gives.  The item found
    under the key is the object inside [allData]: an assignment to it is an
    assignment inside the store. *)
Definition saveItem (level type : string) (id : Z) (data : object)
  : M unit :=
  allData <- getAllData ;;
  let key := item_key level type id in
  existing <- get_member_at allData key ;;
  key <- described key ;;
  allData <-
    (if truthy existing then
       item <- set_member existing "data" (JObj data) ;;
       now <- new_Date ;;
       lastModified <- toISOString now ;;
       item <- set_member item "lastModified" (JStr lastModified) ;;
       set_member allData key item
     else
       now <- new_Date ;;
       savedDate <- toISOString now ;;
       nextReviewDate <- calculateNextReview (Num 0) ;;
       now <- new_Date ;;
       lastModified <- toISOString now ;;
       set_member allData key
         (JObj [ ("level", JStr level);
                 ("type", JStr type);
                 ("id", JNum id);
                 ("data", JObj data);
                 ("savedDate", JStr savedDate);
                 ("lastReviewed", JNull);
                 ("reviewCount", JNum 0);
                 ("nextReviewDate", JStr nextReviewDate);
                 ("lastModified", JStr lastModified) ])) ;;
  saveAllData allData ;;
  english <- get_member (JObj data) "english" ;;
  interpolate english ;;
  console_log (LogSaved english).

(** [item.reviewCount++] leaves a number in the property, which may be NaN
    in memory; [calculateNextReview] is called on that number. *)
Definition reviewItem (key : string) (remembered : bool) : M unit :=
  allData <- getAllData ;;
  existing <- get_member allData key ;;
  if negb (truthy existing) then
    console_error ErrorNotFound
  else
    now <- new_Date ;;
    lastReviewed <- toISOString now ;;
    item <- set_member existing "lastReviewed" (JStr lastReviewed) ;;
    item <-
      (if remembered then
         old <- get_member item "reviewCount" ;;
         old <- described (to_number old) ;;
         reviewCount <- described (number_succ old) ;;
         item <- set_member item "reviewCount" (number_json reviewCount) ;;
         nextReviewDate <- calculateNextReview reviewCount ;;
         item <- set_member item "nextReviewDate" (JStr nextReviewDate) ;;
         console_log
           (LogRemembered
              (array_get intervals
                 (Math_min reviewCount (Num (intervals_length - 1))))) ;;
         ret item
       else
         item <- set_member item "reviewCount" (JNum 0) ;;
         nextReviewDate <- calculateNextReview (Num 0) ;;
         item <- set_member item "nextReviewDate" (JStr nextReviewDate) ;;
         console_log (LogForgotten (array_get intervals (Num 0))) ;;
         ret item) ;;
    allData <- set_member allData key item ;;
    saveAllData allData.

(** [if (filter && item[name] !== filter) continue;] as the test whether
    the loop goes on to the next item. *)
Definition filtered_out (filter : value) (item : json) (name : string)
  : M bool :=
  if truthy filter then
    v <- get_member item name ;;
    ret (negb (strict_equal v filter))
  else ret false.

(** [nextReview <= today] on two dates: false for an invalid date. *)
Definition date_le (d today : number) : M bool :=
  ret (match d, today with
       | Num a, Num b => a <=? b
       | _, _ => false
       end).

(** The body of the loop of [getDueItems], for one key of the store.  The
    date of the next review is built before the filters are looked at. *)
Definition getDueItems_step (level type : value) (today : number)
  (entry : string * json) (dueItems : list object) : M (list object) :=
  let '(key, item) := entry in
  nextReviewDate <- get_member item "nextReviewDate" ;;
  nextReview <- described (Date_of nextReviewDate) ;;
  skip <- filtered_out level item "level" ;;
  if skip then ret dueItems else
  skip <- filtered_out type item "type" ;;
  if skip then ret dueItems else
  due <- date_le nextReview today ;;
  if due then
    o <- spread key item ;;
    ret (dueItems ++ [o])
  else ret dueItems.

Definition getDueItems (level type : value) : M (list object) :=
  let level := default_null level in
  let type := default_null type in
  allData <- getAllData ;;
  today <- new_Date ;;
  entries <- for_in_entries allData ;;
  dueItems <- for_each entries (getDueItems_step level type today) [] ;;
  sort_by_date "nextReviewDate" false dueItems.

(** The body of the loop of [getAllItems]. *)
Definition getAllItems_step (level type : value)
  (entry : string * json) (items : list object) : M (list object) :=
  let '(key, item) := entry in
  skip <- filtered_out level item "level" ;;
  if skip then ret items else
  skip <- filtered_out type item "type" ;;
  if skip then ret items else
  o <- spread key item ;;
  ret (items ++ [o]).

Definition getAllItems (level type : value) : M (list object) :=
  let level := default_null level in
  let type := default_null type in
  allData <- getAllData ;;
  entries <- for_in_entries allData ;;
  items <- for_each entries (getAllItems_step level type) [] ;;
  sort_by_date "savedDate" true items.

(** [item.reviewCount > 0] and [item.reviewCount >= n]. *)
Definition reviewCount_gt (n : Z) (item : object) : M bool :=
  c <- described (to_number (obj_get item "reviewCount")) ;;
  ret (number_gt c (Num n)).

Definition reviewCount_ge (n : Z) (item : object) : M bool :=
  c <- described (to_number (obj_get item "reviewCount")) ;;
  ret (number_ge c (Num n)).

Definition type_is (name : string) (item : object) : M bool :=
  ret (strict_equal (obj_get item "type") (JStr name)).

(** The body of [levels.forEach] in [getStatistics]. *)
Definition getStatistics_level (lvl : string)
  (byLevel : list (string * LevelStatistics))
  : M (list (string * LevelStatistics)) :=
  levelItems <- getAllItems (JStr lvl) Undefined ;;
  levelDue <- getDueItems (JStr lvl) Undefined ;;
  vocab <- filter_count (type_is "vocab") levelItems ;;
  sentences <- filter_count (type_is "sentence") levelItems ;;
  ret (byLevel ++
       [(lvl, mkLevelStatistics (List.length levelItems)
                (List.length levelDue) vocab sentences)]).

Definition getStatistics (level : value) : M Statistics :=
  let level := default_null level in
  allItems <- getAllItems level Undefined ;;
  dueItems <- getDueItems level Undefined ;;
  reviewed <- filter_count (reviewCount_gt 0) allItems ;;
  mastered <-
    filter_count (reviewCount_ge (intervals_length - 1)) allItems ;;
  byLevel <- for_each levels getStatistics_level [] ;;
  ret (mkStatistics (List.length allItems) (List.length dueItems)
         reviewed mastered byLevel).

Definition addItem (level type : string) (id : Z) (data : object) : M unit :=
  saveItem level type id data.

Definition deleteItem (key : string) : M unit :=
  allData <- getAllData ;;
  existing <- get_member allData key ;;
  if truthy existing then
    allData <- delete_member allData key ;;
    saveAllData allData ;;
    console_log LogDeleted
  else ret tt.

Definition removeItem (level type : string) (id : Z) : M unit :=
  key <- described (item_key level type id) ;;
  deleteItem key.

(** [confirmed] is the answer to the [confirm] box. *)
Definition resetAll (confirmed : bool) : M bool :=
  if confirmed then
    (fun s => Return tt (mkState None (console s) (alerts s) (ticks s))) ;;
    console_log LogReset ;;
    ret true
  else ret false.

(** [confirmed] is the answer to the [confirm] box, which is asked once
    the text has parsed.  The [try] block either returns [true] or falls
    through to the [return false] after it. *)
Definition importData (file : File) (confirmed : bool) : M bool :=
  returned <-
    try_catch
      (t <- File_text file ;;
       data <- JSON_parse t ;;
       if confirmed then
         saveAllData data ;;
         console_log LogImported ;;
         ret true
       else ret false)
      (fun error =>
         console_error (ErrorImport error) ;;
         alert AlertImportFailed ;;
         ret false) ;;
  if returned then ret true else ret false.

End Scheduler.

(** ** The data model of the specification *)

(** The state a run ends in, by a return or by an exception. *)
Definition final_state {A} (r : result A) : option State :=
  match r with
  | Return _ s => Some s
  | Throw _ s => Some s
  | Unmodelled => None
  end.

(** The stored object, when the store holds one: an absent entry reads as
    the empty object. *)
Definition store_of (s : State) : option object :=
  match storage s with
  | None => Some []
  | Some (JObj store) => Some store
  | Some _ => None
  end.

Definition valid_date (v : value) : bool :=
  match Date_of v with
  | Some (Num _) => true
  | _ => false
  end.

Definition count_of (item : object) : option Z :=
  match obj_get item "reviewCount" with
  | Json (JNum n) => Some n
  | _ => None
  end.

(** A ReviewItem, as far as the methods depend on it: an object whose
    [nextReviewDate] and [savedDate] are dates and whose [reviewCount] is a
    number that is not negative. *)
Definition review_item (j : json) : bool :=
  match j with
  | JObj item =>
      valid_date (obj_get item "nextReviewDate")
      && valid_date (obj_get item "savedDate")
      && match count_of item with
         | Some n => 0 <=? n
         | None => false
         end
  | _ => false
  end.

Definition review_store (store : object) : bool :=
  forallb (fun entry => review_item (snd entry)) store.

(** The objects [getDueItems] and [getAllItems] build from the entries of
    the store, in the order of the store. *)
Definition listed (store : object) : list object :=
  flat_map (fun entry =>
              match snd entry with
              | JObj item => [spread_with_key (fst entry) item]
              | _ => []
              end) store.

(** An item passes a filter that is not given, and one that it equals. *)
Definition passes (filter : value) (name : string) (item : object) : bool :=
  negb (truthy filter) || strict_equal (obj_get item name) filter.

Definition due (now : Z) (item : object) : bool :=
  match date_field "nextReviewDate" item with
  | Some t => t <=? now
  | None => false
  end.

(** Two items in the order of a date of theirs. *)
Definition date_ordered (name : string) (a b : object) : Prop :=
  match date_field name a, date_field name b with
  | Some x, Some y => x <= y
  | _, _ => False
  end.

(** A stable sort of the items by a date of theirs. *)
Definition sorted_by_date (name : string) (descending : bool)
  (items : list object) : list object :=
  match date_fields name items with
  | Some keyed =>
      map snd (sort_by (fun p => if descending then - fst p else fst p) keyed)
  | None => items
  end.

(** The items that pass both filters, in the order of the store. *)
Definition matching (level type : value) (store : object) : list object :=
  filter (fun item => passes level "level" item && passes type "type" item)
    (listed store).

(** The matching items that are due at [now]. *)
Definition due_items (level type : value) (now : Z) (store : object)
  : list object :=
  filter (due now) (matching level type store).

(** The state after [n] more readings of the clock. *)
Definition ticked (n : nat) (s : State) : State :=
  mkState (storage s) (console s) (alerts s) (n + ticks s).

(** The rung of the ladder for a review count. *)
Definition rung (reviewCount : Z) : option Z :=
  nth_error intervals (Z.to_nat (Z.min reviewCount (intervals_length - 1))).

Definition reviewed_item (item : object) : bool :=
  match count_of item with
  | Some n => 0 <? n
  | None => false
  end.

Definition mastered_item (item : object) : bool :=
  match count_of item with
  | Some n => intervals_length - 1 <=? n
  | None => false
  end.

Definition of_type (name : string) (item : object) : bool :=
  strict_equal (obj_get item "type") (JStr name).

(** The report on one level: the items of that level in the whole store,
    those of them due at [now], and those of each type. *)
Definition level_report (now : Z) (store : object) (lvl : string)
  : string * LevelStatistics :=
  let items := matching (JStr lvl) Undefined store in
  (lvl,
   mkLevelStatistics (List.length items)
     (List.length (filter (due now) items))
     (List.length (filter (of_type "vocab") items))
     (List.length (filter (of_type "sentence") items))).

(** Whether a string ends with a decimal digit, as a composite key does. *)
Fixpoint ends_with_digit (s : string) : bool :=
  match s with
  | EmptyString => false
  | String c EmptyString =>
      match digit_value c with
      | Some _ => true
      | None => false
      end
  | String _ s' => ends_with_digit s'
  end.

(** *** A store to try the methods on *)

Definition sample_clock : nat -> Z := fun _ => 1700000000000.

Definition sample_zone : TimeZone := fixed_zone 7200000.

Definition sample_item (level type : string) (id count : Z)
  (savedDate nextReviewDate : Z) : json :=
  JObj [ ("level", JStr level);
         ("type", JStr type);
         ("id", JNum id);
         ("data", JObj [("english", JStr "cat")]);
         ("savedDate", JStr (iso_format savedDate));
         ("lastReviewed", JNull);
         ("reviewCount", JNum count);
         ("nextReviewDate", JStr (iso_format nextReviewDate));
         ("lastModified", JStr (iso_format savedDate)) ].

Definition sample_store : object :=
  [ ("a1_vocab_1",
     sample_item "a1" "vocab" 1 2 1690000000000 1699000000000);
    ("b2_sentence_7",
     sample_item "b2" "sentence" 7 5 1695000000000 1698000000000);
    ("a1_sentence_3",
     sample_item "a1" "sentence" 3 0 1699990000000 1700076400000) ].

Definition sample_state : State :=
  mkState (Some (JObj sample_store)) [] [] 0.

Definition empty_state : State := mkState None [] [] 0.

(** *** What the methods write *)

Definition valid_time (t : Z) : Prop := - maxTime <= t <= maxTime.

(** The item [saveItem] creates, with the three dates it reads. *)
Definition new_item (level type : string) (id : Z) (data : object)
  (savedDate nextReviewDate lastModified : Z) : json :=
  JObj [ ("level", JStr level);
         ("type", JStr type);
         ("id", JNum id);
         ("data", JObj data);
         ("savedDate", JStr (iso_format savedDate));
         ("lastReviewed", JNull);
         ("reviewCount", JNum 0);
         ("nextReviewDate", JStr (iso_format nextReviewDate));
         ("lastModified", JStr (iso_format lastModified)) ].

(** An item with a new payload. *)
Definition resaved (data : object) (lastModified : Z) (item : object)
  : object :=
  obj_set "lastModified" (JStr (iso_format lastModified))
    (obj_set "data" (JObj data) item).

(** An item after a review. *)
Definition after_review (lastReviewed reviewCount nextReviewDate : Z)
  (item : object) : object :=
  obj_set "nextReviewDate" (JStr (iso_format nextReviewDate))
    (obj_set "reviewCount" (JNum reviewCount)
       (obj_set "lastReviewed" (JStr (iso_format lastReviewed)) item)).

(** Every reading of the clock is a time value, and so is every rung of
    the ladder after it. *)
Definition clock_in_range (clock : nat -> Z) (zone : TimeZone) : Prop :=
  forall i,
    valid_time (clock i) /\
    forall days,
      In days intervals -> valid_time (days_later zone days (clock i)).

(** [k] successful reviews of a key in a row. *)
Fixpoint remembered_times (clock : nat -> Z) (zone : TimeZone) (key : string)
  (k : nat) : M unit :=
  match k with
  | O => ret tt
  | S k' =>
      reviewItem clock zone key true ;; remembered_times clock zone key k'
  end.

(** Two states with the same store, console and alerts: they differ at most
    in the count of clock readings. *)
Definition same_page (s s' : State) : Prop :=
  storage s' = storage s /\ console s' = console s /\ alerts s' = alerts s.

(** A computation that writes nothing, whether it returns or throws. *)
Definition read_only {A} (c : M A) : Prop :=
  forall s,
    match c s with
    | Return _ s' => same_page s s'
    | Throw _ s' => same_page s s'
    | Unmodelled => True
    end.

(** The time value of a date and a time of day given by their fields. *)
Definition time_of (y m d hh mm ss ms : Z) : Z :=
  days_from_civil y m d * msPerDay
  + hh * 3600000 + mm * 60000 + ss * 1000 + ms.

(** Whether a string holds the separator of the composite keys. *)
Fixpoint has_underscore (s : string) : bool :=
  match s with
  | EmptyString => false
  | String c s' => Ascii.eqb c "_" || has_underscore s'
  end.

(** A run from [s] ends, by a return or by an exception, in a state whose
    store is again a store of review items. *)
Definition keeps_review_store {A} (c : M A) (s : State) : Prop :=
  exists s' store',
    final_state (c s) = Some s' /\
    store_of s' = Some store' /\ review_store store' = true.

(** * Properties *)

(** ** The methods at work *)

Example iso_format_epoch :
  iso_format 0 = "1970-01-01T00:00:00.000Z" /\
  iso_format 1700000000000 = "2023-11-14T22:13:20.000Z" /\
  iso_format (- 1) = "1969-12-31T23:59:59.999Z" /\
  iso_format maxTime = "+275760-09-13T00:00:00.000Z" /\
  iso_format (- maxTime) = "-271821-04-20T00:00:00.000Z".
Proof. repeat split. Qed.

Example Date_parse_reads_back :
  map (fun t => Date_parse (iso_format t))
    [0; 1700000000000; - 1; maxTime; - maxTime; 951782400000]
  = map Some [0; 1700000000000; - 1; maxTime; - maxTime; 951782400000].
Proof. vm_compute. reflexivity. Qed.

(** An item saved on an empty store is not due at once, and is due a day
    later. *)
Example saved_item_due_after_a_day :
  match saveItem sample_clock sample_zone "a1" "vocab" 1
          [("english", JStr "cat")] empty_state with
  | Return _ s =>
      getDueItems sample_clock Undefined Undefined s = Return [] (ticked 1 s)
      /\ match getDueItems (fun _ => 1700000000000 + msPerDay)
                Undefined Undefined s with
         | Return items _ =>
             map (fun item => obj_get item "key") items
             = [Json (JStr "a1_vocab_1")]
         | _ => False
         end
  | _ => False
  end.
Proof. vm_compute. split; reflexivity. Qed.

(** After two good reviews and a failed one the count is back at 0 and the
    next review a day away. *)
Example forgotten_item_restarts :
  match reviewItem sample_clock sample_zone "a1_vocab_1" false
          sample_state with
  | Return _ s =>
      match store_of s with
      | Some store =>
          match obj_lookup "a1_vocab_1" store with
          | Some (JObj item) =>
              obj_get item "reviewCount" = Json (JNum 0) /\
              obj_get item "nextReviewDate"
              = Json (JStr "2023-11-15T22:13:20.000Z")
          | _ => False
          end
      | None => False
      end
  | _ => False
  end.
Proof. vm_compute. split; reflexivity. Qed.

(** The statistics of an empty store. *)
Example getStatistics_empty :
  getStatistics sample_clock Undefined empty_state =
  Return
    (mkStatistics 0 0 0 0
       (map (fun lvl => (lvl, mkLevelStatistics 0 0 0 0)) levels))
    (ticked 7 empty_state).
Proof. reflexivity. Qed.

(** The store is written before the log message is built: an [english]
    that has no string makes [saveItem] throw after the item is stored. *)
Example saveItem_throws_after_saving :
  match saveItem sample_clock sample_zone "a1" "vocab" 2
          [("english", JObj [("toString", JNum 1)])] empty_state with
  | Throw TypeError s =>
      match store_of s with
      | Some store => map fst store = ["a1_vocab_2"]
      | None => False
      end
  | _ => False
  end.
Proof. reflexivity. Qed.

(** A key that is not in the store, reviewed. *)
Example reviewItem_missing :
  reviewItem sample_clock sample_zone "zz_vocab_0" true sample_state =
  Return tt (mkState (Some (JObj sample_store)) [ErrorNotFound] [] 0).
Proof. reflexivity. Qed.

(** ** Objects *)

Lemma obj_lookup_replace_same k v o :
  obj_lookup k o <> None -> obj_lookup k (obj_replace k v o) = Some v.
Proof.
  induction o as [|[k' v'] o IH]; simpl; [congruence|].
  destruct (String.eqb k' k) eqn:E; simpl; rewrite E; auto.
Qed.

Lemma obj_lookup_replace_other k k' v o :
  k' <> k -> obj_lookup k' (obj_replace k v o) = obj_lookup k' o.
Proof.
  intros Hk. induction o as [|[k0 v0] o IH]; simpl; [reflexivity|].
  destruct (String.eqb k0 k) eqn:E; simpl.
  - apply String.eqb_eq in E. subst k0.
    destruct (String.eqb k k') eqn:E'; [|reflexivity].
    apply String.eqb_eq in E'. congruence.
  - now rewrite IH.
Qed.

Lemma obj_replace_keys k v o : map fst (obj_replace k v o) = map fst o.
Proof.
  induction o as [|[k0 v0] o IH]; [reflexivity|]. cbn [obj_replace].
  destruct (String.eqb k0 k); cbn [map fst]; [reflexivity|now rewrite IH].
Qed.

Lemma obj_lookup_app k o o' :
  obj_lookup k (o ++ o') =
  match obj_lookup k o with
  | Some v => Some v
  | None => obj_lookup k o'
  end.
Proof.
  induction o as [|[k0 v0] o IH]; simpl; [reflexivity|].
  now destruct (String.eqb k0 k).
Qed.

Lemma obj_lookup_set_same k v o : obj_lookup k (obj_set k v o) = Some v.
Proof.
  unfold obj_set. destruct (obj_lookup k o) eqn:E.
  - apply obj_lookup_replace_same. congruence.
  - rewrite obj_lookup_app, E. simpl. now rewrite String.eqb_refl.
Qed.

Lemma obj_lookup_set_other k k' v o :
  k' <> k -> obj_lookup k' (obj_set k v o) = obj_lookup k' o.
Proof.
  intros Hk. unfold obj_set. destruct (obj_lookup k o) eqn:E.
  - now apply obj_lookup_replace_other.
  - rewrite obj_lookup_app. destruct (obj_lookup k' o); [reflexivity|].
    simpl. destruct (String.eqb k k') eqn:E'; [|reflexivity].
    apply String.eqb_eq in E'. congruence.
Qed.

Lemma obj_get_set_same k v o : obj_get (obj_set k v o) k = Json v.
Proof. unfold obj_get. now rewrite obj_lookup_set_same. Qed.

Lemma obj_get_set_other k k' v o :
  k' <> k -> obj_get (obj_set k v o) k' = obj_get o k'.
Proof. intros Hk. unfold obj_get. now rewrite obj_lookup_set_other. Qed.

Lemma obj_lookup_delete_other k k' o :
  k' <> k -> obj_lookup k' (obj_delete k o) = obj_lookup k' o.
Proof.
  intros Hk. induction o as [|[k0 v0] o IH]; simpl; [reflexivity|].
  destruct (String.eqb k0 k) eqn:E; simpl.
  - apply String.eqb_eq in E. subst k0.
    destruct (String.eqb k k') eqn:E'; [|exact IH].
    apply String.eqb_eq in E'. congruence.
  - now rewrite IH.
Qed.

(** The object built for the caller has the properties of the item, under
    every name but [key]. *)
Lemma obj_get_spread key item name :
  name <> "key" -> obj_get (spread_with_key key item) name = obj_get item name.
Proof.
  intros Hn. unfold spread_with_key, obj_get.
  destruct (obj_lookup "key" item) eqn:E; cbn [obj_lookup].
  - destruct (String.eqb "key" name) eqn:E'.
    + apply String.eqb_eq in E'. congruence.
    + now rewrite obj_lookup_delete_other.
  - destruct (String.eqb "key" name) eqn:E'; [|reflexivity].
    apply String.eqb_eq in E'. congruence.
Qed.

(** ** Dates *)

Lemma TimeClip_valid t : - maxTime <= t <= maxTime -> TimeClip t = Num t.
Proof.
  intros [H1 H2]. unfold TimeClip.
  apply Z.leb_le in H1, H2. now rewrite H1, H2.
Qed.

(** *** A date printed and parsed again *)

Lemma digit_char n :
  exists c,
    ascii_of_nat (48 + Z.to_nat (n mod 10)) = c /\
    Ascii.eqb c "+" = false /\ Ascii.eqb c "-" = false /\
    digit_value c = Some (n mod 10).
Proof.
  assert (H : 0 <= n mod 10 < 10) by (apply Z.mod_pos_bound; lia).
  assert (C : n mod 10 = 0 \/ n mod 10 = 1 \/ n mod 10 = 2 \/ n mod 10 = 3 \/
              n mod 10 = 4 \/ n mod 10 = 5 \/ n mod 10 = 6 \/ n mod 10 = 7 \/
              n mod 10 = 8 \/ n mod 10 = 9) by lia.
  destruct C as [C|[C|[C|[C|[C|[C|[C|[C|[C|C]]]]]]]]]; rewrite C;
    eexists; repeat split.
Qed.

Lemma digit_value_char n :
  digit_value (ascii_of_nat (48 + Z.to_nat (n mod 10))) = Some (n mod 10).
Proof. destruct (digit_char n) as (c & -> & _ & _ & H). exact H. Qed.

Lemma digit_char_not_plus n :
  Ascii.eqb (ascii_of_nat (48 + Z.to_nat (n mod 10))) "+" = false.
Proof. destruct (digit_char n) as (c & -> & H & _). exact H. Qed.

Lemma digit_char_not_minus n :
  Ascii.eqb (ascii_of_nat (48 + Z.to_nat (n mod 10))) "-" = false.
Proof. destruct (digit_char n) as (c & -> & _ & H & _). exact H. Qed.

Lemma Date_parse_by_fields s c rest y m d hh mm ss ms :
  s = String c rest ->
  let signed := orb (Ascii.eqb c "+") (Ascii.eqb c "-") in
  let o := if signed then 3%nat else 0%nat in
  field s (if signed then 1 else 0) (if signed then 6 else 4) = Some y ->
  field s (5 + o) 2 = Some m ->
  field s (8 + o) 2 = Some d ->
  field s (11 + o) 2 = Some hh ->
  field s (14 + o) 2 = Some mm ->
  field s (17 + o) 2 = Some ss ->
  field s (20 + o) 3 = Some ms ->
  Date_parse s =
  let t := time_of (if Ascii.eqb c "-" then - y else y) m d hh mm ss ms in
  match TimeClip t with
  | Num _ => if String.eqb (iso_format t) s then Some t else None
  | NaN => None
  end.
Proof.
  intros Hs signed o Hy Hm Hd Hhh Hmm Hss Hms. unfold Date_parse.
  replace (match s with
           | String c0 _ => orb (Ascii.eqb c0 "+") (Ascii.eqb c0 "-")
           | EmptyString => false
           end)
    with signed by (now rewrite Hs).
  replace (match s with
           | String c0 _ => Ascii.eqb c0 "-"
           | EmptyString => false
           end)
    with (Ascii.eqb c "-") by (now rewrite Hs).
  fold o. rewrite Hy, Hm, Hd, Hhh, Hmm, Hss, Hms. reflexivity.
Qed.

Ltac read_field :=
  cbn [field substring digits_value];
  repeat (rewrite digit_value_char; cbn [digits_value]).

Lemma Date_parse_unsigned y m d hh mm ss ms :
  0 <= y <= 9999 -> 0 <= m < 100 -> 0 <= d < 100 -> 0 <= hh < 100 ->
  0 <= mm < 100 -> 0 <= ss < 100 -> 0 <= ms < 1000 ->
  let s := (pad 4 y ++ "-" ++ pad 2 m ++ "-" ++ pad 2 d ++ "T" ++ pad 2 hh
            ++ ":" ++ pad 2 mm ++ ":" ++ pad 2 ss ++ "." ++ pad 3 ms
            ++ "Z")%string in
  Date_parse s =
  match TimeClip (time_of y m d hh mm ss ms) with
  | Num _ => if String.eqb (iso_format (time_of y m d hh mm ss ms)) s
             then Some (time_of y m d hh mm ss ms) else None
  | NaN => None
  end.
Proof.
  intros Hy Hm Hd Hhh Hmm Hss Hms s.
  assert (Es : s = s) by reflexivity. unfold s at 2 in Es.
  cbn [pad digit String.append] in Es. clearbody s.
  rewrite (Date_parse_by_fields s _ _ y m d hh mm ss ms Es);
    rewrite ?digit_char_not_plus, ?digit_char_not_minus; cbn [orb Nat.add].
  - reflexivity.
  - rewrite Es. read_field. f_equal. Z.to_euclidean_division_equations; lia.
  - rewrite Es. read_field. f_equal. Z.to_euclidean_division_equations; lia.
  - rewrite Es. read_field. f_equal. Z.to_euclidean_division_equations; lia.
  - rewrite Es. read_field. f_equal. Z.to_euclidean_division_equations; lia.
  - rewrite Es. read_field. f_equal. Z.to_euclidean_division_equations; lia.
  - rewrite Es. read_field. f_equal. Z.to_euclidean_division_equations; lia.
  - rewrite Es. read_field. f_equal. Z.to_euclidean_division_equations; lia.
Qed.

Lemma Date_parse_signed (negative : bool) y m d hh mm ss ms :
  0 <= y < 1000000 -> 0 <= m < 100 -> 0 <= d < 100 -> 0 <= hh < 100 ->
  0 <= mm < 100 -> 0 <= ss < 100 -> 0 <= ms < 1000 ->
  let s := ((if negative then "-" else "+") ++ pad 6 y ++ "-" ++ pad 2 m
            ++ "-" ++ pad 2 d ++ "T" ++ pad 2 hh
            ++ ":" ++ pad 2 mm ++ ":" ++ pad 2 ss ++ "." ++ pad 3 ms
            ++ "Z")%string in
  let t := time_of (if negative then - y else y) m d hh mm ss ms in
  Date_parse s =
  match TimeClip t with
  | Num _ => if String.eqb (iso_format t) s then Some t else None
  | NaN => None
  end.
Proof.
  intros Hy Hm Hd Hhh Hmm Hss Hms s.
  assert (Es : s = s) by reflexivity. unfold s at 2 in Es.
  destruct negative; cbn [pad digit String.append] in Es; clearbody s;
    rewrite (Date_parse_by_fields s _ _ y m d hh mm ss ms Es);
    change (Ascii.eqb "-" "-") with true;
    change (Ascii.eqb "+" "-") with false;
    change (Ascii.eqb "+" "+") with true;
    change (Ascii.eqb "-" "+") with false;
    cbn [orb Nat.add]; try reflexivity;
    rewrite Es; read_field; f_equal; Z.to_euclidean_division_equations; lia.
Qed.

Lemma civil_roundtrip day :
  let '(y, m, d) := civil_from_days day in
  days_from_civil y m d = day /\ 1 <= m <= 12 /\ 1 <= d <= 31 /\
  (day + 719468) / 146097 * 400 <= y <= (day + 719468) / 146097 * 400 + 400.
Proof.
  unfold civil_from_days, days_from_civil.
  set (z := day + 719468). set (era := z / 146097).
  set (doe := z - era * 146097).
  assert (Hdoe : 0 <= doe <= 146096)
    by (subst doe era; Z.to_euclidean_division_equations; lia).
  set (yoe := (doe - doe / 1460 + doe / 36524 - doe / 146096) / 365).
  set (doy := doe - (365 * yoe + yoe / 4 - yoe / 100)).
  set (mp := (5 * doy + 2) / 153).
  set (d := doy - (153 * mp + 2) / 5 + 1).
  assert (HA : 0 <= yoe <= 399 /\ 0 <= doy <= 365)
    by (subst doy yoe; Z.to_euclidean_division_equations; lia).
  assert (HB : 0 <= mp <= 11 /\ 1 <= d <= 31)
    by (subst d mp; Z.to_euclidean_division_equations; lia).
  set (m := if mp <? 10 then mp + 3 else mp - 9).
  assert (Hm : 1 <= m <= 12 /\ (if 2 <? m then m - 3 else m + 9) = mp).
  { subst m. destruct (Z.ltb_spec mp 10).
    - destruct (Z.ltb_spec 2 (mp + 3)); lia.
    - destruct (Z.ltb_spec 2 (mp - 9)); lia. }
  destruct Hm as [Hm Hmp]. rewrite Hmp.
  set (y := yoe + era * 400).
  assert (Hy : (if m <=? 2 then (if m <=? 2 then y + 1 else y) - 1
                else (if m <=? 2 then y + 1 else y)) = y)
    by (destruct (m <=? 2); lia).
  rewrite Hy.
  assert (He : y / 400 = era)
    by (subst y; Z.to_euclidean_division_equations; lia).
  rewrite He. replace (y - era * 400) with yoe by (subst y; lia).
  repeat split; try lia; destruct (m <=? 2); subst y; lia.
Qed.

Lemma Date_parse_written (t : Z) :
  valid_time t -> Date_parse (iso_format t) = Some t.
Proof.
  unfold valid_time.
  intros Ht.
  assert (Hiso : iso_format t = iso_format t) by reflexivity.
  unfold iso_format at 2 in Hiso.
  set (day := t / msPerDay) in *. set (ms := t mod msPerDay) in *.
  pose proof (civil_roundtrip day) as Hc.
  destruct (civil_from_days day) as [[y m] d].
  destruct Hc as (Hdays & Hm & Hd & Hy).
  cbv zeta in Hiso.
  assert (Hms : 0 <= ms < msPerDay)
    by (subst ms; apply Z.mod_pos_bound; reflexivity).
  assert (Hday : - 100000000 <= day <= 100000000)
    by (subst day; unfold maxTime, msPerDay in *;
        Z.to_euclidean_division_equations; lia).
  assert (Hyear : - 1000000 < y < 1000000)
    by (Z.to_euclidean_division_equations; lia).
  assert (Htime : forall y', y' = y ->
            time_of y' m d (ms / 3600000) (ms / 60000 mod 60)
              (ms / 1000 mod 60) (ms mod 1000) = t).
  { intros y' ->. unfold time_of. rewrite Hdays. subst day ms.
    unfold msPerDay in *. Z.to_euclidean_division_equations; lia. }
  assert (Hfields : 0 <= ms / 3600000 < 100 /\ 0 <= ms / 60000 mod 60 < 100 /\
                    0 <= ms / 1000 mod 60 < 100 /\ 0 <= ms mod 1000 < 1000)
    by (unfold msPerDay in *; Z.to_euclidean_division_equations; lia).
  destruct Hfields as (Hhh & Hmm & Hss & Hmil).
  unfold iso_year in Hiso.
  destruct ((0 <=? y) && (y <=? 9999)) eqn:Eu.
  - apply andb_prop in Eu. destruct Eu as [E1 E2].
    apply Z.leb_le in E1, E2.
    rewrite Hiso at 1.
    rewrite Date_parse_unsigned by lia.
    rewrite (Htime y eq_refl), TimeClip_valid by exact Ht.
    now rewrite <- Hiso, String.eqb_refl.
  - assert (Hout : y < 0 \/ 9999 < y).
    { apply andb_false_iff in Eu. destruct Eu as [E|E];
        [apply Z.leb_gt in E|apply Z.leb_gt in E]; lia. }
    revert Hiso. destruct (Z.ltb_spec y 0) as [Hneg|Hpos]; intros Hiso.
    + rewrite Hiso at 1. etransitivity.
      { apply (Date_parse_signed true (Z.abs y) m d (ms / 3600000)
                 (ms / 60000 mod 60) (ms / 1000 mod 60) (ms mod 1000)); lia. }
      cbv zeta. rewrite (Htime (- Z.abs y)) by lia.
      rewrite TimeClip_valid by exact Ht.
      now rewrite Hiso, String.eqb_refl.
    + rewrite Hiso at 1. etransitivity.
      { apply (Date_parse_signed false (Z.abs y) m d (ms / 3600000)
                 (ms / 60000 mod 60) (ms / 1000 mod 60) (ms mod 1000)); lia. }
      cbv zeta. rewrite (Htime (Z.abs y)) by lia.
      rewrite TimeClip_valid by exact Ht.
      now rewrite Hiso, String.eqb_refl.
Qed.

Lemma valid_date_written t :
  valid_time t -> valid_date (Json (JStr (iso_format t))) = true.
Proof.
  intros Ht. unfold valid_date. cbn [Date_of].
  now rewrite Date_parse_written.
Qed.

(** ** The interval ladder *)

Lemma rung_cases reviewCount :
  0 <= reviewCount ->
  exists days,
    rung reviewCount = Some days /\ In days intervals /\
    array_get intervals
      (Math_min (Num reviewCount) (Num (intervals_length - 1))) = Some days /\
    (4 <= reviewCount -> days = 30) /\ (reviewCount = 0 -> days = 1).
Proof.
  intros H. unfold rung, array_get, Math_min.
  change (intervals_length - 1) with 4.
  assert (C : reviewCount = 0 \/ reviewCount = 1 \/ reviewCount = 2 \/
              reviewCount = 3 \/ 4 <= reviewCount) by lia.
  destruct C as [C|[C|[C|[C|C]]]]; try subst reviewCount.
  - exists 1. cbn. repeat split; auto; lia.
  - exists 3. cbn. repeat split; auto; lia.
  - exists 7. cbn. repeat split; auto; lia.
  - exists 14. cbn. repeat split; auto 6; lia.
  - exists 30. rewrite Z.min_r by lia. cbn. repeat split; auto 6; lia.
Qed.

(** In a zone with a fixed offset, a day later on the calendar is 24 hours
    later. *)
Lemma days_later_fixed_zone offset days t :
  days_later (fixed_zone offset) days t = t + days * msPerDay.
Proof. unfold days_later, fixed_zone. cbn. lia. Qed.

Lemma calculateNextReview_run clock zone reviewCount days s :
  array_get intervals (Math_min reviewCount (Num (intervals_length - 1)))
  = Some days ->
  - maxTime <= clock (ticks s) <= maxTime ->
  - maxTime <= days_later zone days (clock (ticks s)) <= maxTime ->
  calculateNextReview clock zone reviewCount s =
  Return (iso_format (days_later zone days (clock (ticks s))))
    (mkState (storage s) (console s) (alerts s) (S (ticks s))).
Proof.
  intros Hd Hnow Hnext.
  unfold calculateNextReview, bind, new_Date.
  rewrite Hd, (TimeClip_valid _ Hnow).
  unfold setDate_getDate_plus. now rewrite (TimeClip_valid _ Hnext).
Qed.

(** C1.  [calculateNextReview(reviewCount)] returns, as an ISO string, the
    date [intervals[min(reviewCount, intervals.length - 1)]] days after the
    reading of the clock: 30 days after it for every [reviewCount >= 4] and
    one day after it for [reviewCount = 0].  The days are days of the local
    calendar: the local time moves by that many times 24 hours, which in a
    zone with a fixed offset is that long after the reading itself.  The
    result depends on the reading of the clock, the time zone and
    [reviewCount] alone, and the call leaves the store, the console and the
    alerts as they were. *)
Theorem calculateNextReview_ladder
  (clock : nat -> Z) (zone : TimeZone) (reviewCount : Z) (s : State) :
  0 <= reviewCount ->
  - maxTime <= clock (ticks s) <= maxTime ->
  (forall days,
      In days intervals ->
      - maxTime <= days_later zone days (clock (ticks s)) <= maxTime) ->
  exists days next,
    rung reviewCount = Some days /\
    next = UTC zone (LocalTime zone (clock (ticks s)) + days * 86400000) /\
    calculateNextReview clock zone (Num reviewCount) s =
      Return (iso_format next)
        (mkState (storage s) (console s) (alerts s) (S (ticks s))) /\
    Date_of (Json (JStr (iso_format next))) = Some (Num next) /\
    (forall offset,
        zone = fixed_zone offset ->
        next = clock (ticks s) + days * 86400000) /\
    (4 <= reviewCount -> days = 30) /\
    (reviewCount = 0 -> days = 1).
Proof.
  intros Hc Hnow Hnext.
  destruct (rung_cases reviewCount Hc) as (days & Hr & Hi & Ha & H4 & H0).
  exists days, (days_later zone days (clock (ticks s))).
  split; [exact Hr|]. split; [reflexivity|]. split.
  { apply calculateNextReview_run; auto. }
  split.
  { cbn [Date_of]. rewrite Date_parse_written; [reflexivity|].
    now apply Hnext. }
  split; [|split; assumption].
  intros offset ->. apply days_later_fixed_zone.
Qed.

Lemma calculateNextReview_ladder_witness :
  calculateNextReview sample_clock sample_zone (Num 5) empty_state =
    Return "2023-12-14T22:13:20.000Z" (mkState None [] [] 1) /\
  Date_of (Json (JStr "2023-12-14T22:13:20.000Z"))
  = Some (Num (1700000000000 + 30 * 86400000)).
Proof.
  destruct (calculateNextReview_ladder sample_clock sample_zone 5 empty_state)
    as (days & next & Hr & Hn & Hrun & Hd & Hz & _).
  - lia.
  - vm_compute. split; discriminate.
  - intros days [<-|[<-|[<-|[<-|[<-|[]]]]]];
      vm_compute; split; discriminate.
  - vm_compute in Hr. injection Hr as <-.
    rewrite (Hz 7200000 eq_refl) in Hrun, Hd.
    split; [exact Hrun | exact Hd].
Defined.

(** ** Reading the store *)

Lemma getAllData_store s store :
  store_of s = Some store -> getAllData s = Return (JObj store) s.
Proof.
  unfold store_of, getAllData. intros H.
  destruct (storage s) as [[| | | | |o]|]; try discriminate; congruence.
Qed.

Lemma get_member_own (o : object) k v s :
  obj_lookup k o = Some v -> get_member (JObj o) k s = Return (Json v) s.
Proof. intros H. unfold get_member, obj_get, ret. now rewrite H. Qed.

Lemma get_member_absent (o : object) k s :
  obj_lookup k o = None -> inherited k = false ->
  get_member (JObj o) k s = Return Undefined s.
Proof. intros H Hi. unfold get_member, obj_get, ret. now rewrite H, Hi. Qed.

Lemma new_Date_run clock s :
  - maxTime <= clock (ticks s) <= maxTime ->
  new_Date clock s =
  Return (Num (clock (ticks s)))
    (mkState (storage s) (console s) (alerts s) (S (ticks s))).
Proof. intros H. unfold new_Date. now rewrite TimeClip_valid. Qed.

(** ** Reviewing an item *)

Lemma count_of_get item n :
  count_of item = Some n -> obj_get item "reviewCount" = Json (JNum n).
Proof.
  unfold count_of. destruct (obj_get item "reviewCount") as [| | |[]];
    congruence.
Qed.

(** C2.  For a key of the store, [reviewItem(key, remembered)] sets
    [lastReviewed] to now; when remembered it adds one to [reviewCount] and
    takes [nextReviewDate] from the new count, else it sets [reviewCount]
    back to 0 and [nextReviewDate] to one day from now; the store written
    back holds the item so changed under the key, and under every other
    key what it held.  No other property of the item changes. *)
Theorem reviewItem_present
  (clock : nat -> Z) (zone : TimeZone) (now : Z) (key : string)
  (remembered : bool) (s : State) (store item : object) (n : Z) :
  (forall i, clock i = now) ->
  - maxTime <= now <= maxTime ->
  (forall days,
      In days intervals -> - maxTime <= days_later zone days now <= maxTime) ->
  store_of s = Some store ->
  obj_lookup key store = Some (JObj item) ->
  count_of item = Some n ->
  0 <= n < exact_bound ->
  let reviewCount := if remembered then n + 1 else 0 in
  exists days item' store' s',
    rung reviewCount = Some days /\
    (remembered = false -> days = 1) /\
    reviewItem clock zone key remembered s = Return tt s' /\
    storage s' = Some (JObj store') /\
    obj_lookup key store' = Some (JObj item') /\
    map fst store' = map fst store /\
    (forall k, k <> key -> obj_lookup k store' = obj_lookup k store) /\
    obj_get item' "lastReviewed" = Json (JStr (iso_format now)) /\
    obj_get item' "reviewCount" = Json (JNum reviewCount) /\
    obj_get item' "nextReviewDate" =
      Json (JStr (iso_format
                    (UTC zone (LocalTime zone now + days * 86400000)))) /\
    (forall name,
        name <> "lastReviewed" -> name <> "reviewCount" ->
        name <> "nextReviewDate" -> obj_get item' name = obj_get item name).
Proof.
  intros Hclock Hvalid Hlater Hstore Hkey Hcount Hn reviewCount.
  assert (Hc : 0 <= reviewCount)
    by (subst reviewCount; destruct remembered; lia).
  assert (Hexact : (- exact_bound <=? n) && (n <? exact_bound) = true).
  { apply andb_true_intro.
    split; [apply Z.leb_le | apply Z.ltb_lt]; unfold exact_bound in *; lia. }
  destruct (rung_cases reviewCount Hc) as (days & Hr & Hi & Ha & _ & H0).
  assert (Hnow : forall s0 : State, - maxTime <= clock (ticks s0) <= maxTime)
    by (intros s0; now rewrite Hclock).
  assert (Hnext : forall s0 : State,
             - maxTime <= days_later zone days (clock (ticks s0)) <= maxTime)
    by (intros s0; rewrite Hclock; now apply Hlater).
  set (item1 := obj_set "lastReviewed" (JStr (iso_format now)) item).
  set (item2 := obj_set "reviewCount" (JNum reviewCount) item1).
  set (item3 := obj_set "nextReviewDate"
                  (JStr (iso_format (days_later zone days now))) item2).
  exists days, item3, (obj_replace key (JObj item3) store).
  assert (Hold : obj_get item1 "reviewCount" = Json (JNum n)).
  { unfold item1. rewrite obj_get_set_other by discriminate.
    now apply count_of_get. }
  assert (Hrun : exists s',
             reviewItem clock zone key remembered s = Return tt s' /\
             storage s' = Some (JObj (obj_replace key (JObj item3) store))).
  { unfold reviewItem, bind.
    rewrite (getAllData_store _ _ Hstore), (get_member_own _ _ _ _ Hkey).
    cbn [truthy negb]. rewrite new_Date_run by apply Hnow.
    cbn [toISOString ret set_member]. rewrite Hclock. fold item1.
    destruct remembered; subst reviewCount.
    - cbn [get_member ret]. rewrite Hold.
      cbn [to_number described ret number_succ].
      rewrite Hexact.
      cbn [described ret number_json set_member]. fold item2.
      rewrite (calculateNextReview_run _ _ _ _ _ Ha)
        by apply Hnow || apply Hnext.
      cbn [ticks]. rewrite Hclock. fold item3.
      unfold console_log, saveAllData, obj_set. rewrite Hkey.
      eexists. split; reflexivity.
    - cbn [set_member ret]. fold item2.
      rewrite (calculateNextReview_run _ _ _ _ _ Ha)
        by apply Hnow || apply Hnext.
      cbn [ticks]. rewrite Hclock. fold item3.
      unfold console_log, saveAllData, obj_set. rewrite Hkey.
      eexists. split; reflexivity. }
  destruct Hrun as (s' & Hrun & Hs').
  exists s'. repeat split; auto.
  - intros ->. apply H0. reflexivity.
  - apply obj_lookup_replace_same. congruence.
  - apply obj_replace_keys.
  - intros k Hk. now apply obj_lookup_replace_other.
  - unfold item3, item2. rewrite obj_get_set_other by discriminate.
    rewrite obj_get_set_other by discriminate.
    unfold item1. apply obj_get_set_same.
  - unfold item3. rewrite obj_get_set_other by discriminate.
    apply obj_get_set_same.
  - apply obj_get_set_same.
  - intros name H1 H2 H3. unfold item3, item2, item1.
    now rewrite !obj_get_set_other.
Qed.

Lemma reviewItem_present_witness :
  exists item' store' s',
    reviewItem sample_clock sample_zone "a1_vocab_1" true sample_state =
      Return tt s' /\
    storage s' = Some (JObj store') /\
    obj_lookup "a1_vocab_1" store' = Some (JObj item') /\
    obj_lookup "b2_sentence_7" store'
    = obj_lookup "b2_sentence_7" sample_store /\
    obj_get item' "lastReviewed" = Json (JStr "2023-11-14T22:13:20.000Z") /\
    obj_get item' "reviewCount" = Json (JNum 3) /\
    obj_get item' "nextReviewDate" = Json (JStr "2023-11-28T22:13:20.000Z").
Proof.
  destruct (reviewItem_present sample_clock sample_zone 1700000000000
              "a1_vocab_1" true sample_state sample_store
              [ ("level", JStr "a1");
                ("type", JStr "vocab");
                ("id", JNum 1);
                ("data", JObj [("english", JStr "cat")]);
                ("savedDate", JStr (iso_format 1690000000000));
                ("lastReviewed", JNull);
                ("reviewCount", JNum 2);
                ("nextReviewDate", JStr (iso_format 1699000000000));
                ("lastModified", JStr (iso_format 1690000000000)) ]
              2)
    as (days & item' & store' & s' & Hr & _ & Hrun & Hs & Hl & _ & Hf & Hlast
        & Hc & Hd & _).
  - reflexivity.
  - vm_compute. split; discriminate.
  - intros days [<-|[<-|[<-|[<-|[<-|[]]]]]];
      vm_compute; split; discriminate.
  - reflexivity.
  - reflexivity.
  - reflexivity.
  - unfold exact_bound. lia.
  - exists item', store', s'.
    vm_compute in Hr. injection Hr as <-.
    split; [exact Hrun|]. split; [exact Hs|]. split; [exact Hl|].
    split; [apply Hf; discriminate|].
    split; [exact Hlast|]. split; [exact Hc|exact Hd].
Defined.

(** ** Saving an item *)

Lemma ends_with_digit_app a b :
  b <> EmptyString ->
  ends_with_digit (a ++ b)%string = ends_with_digit b.
Proof.
  intros Hb. induction a as [|c a IH]; [reflexivity|].
  cbn [String.append ends_with_digit]. rewrite IH.
  destruct (a ++ b)%string eqn:E; [|reflexivity].
  destruct a; [cbn in E; congruence | discriminate].
Qed.

Lemma ends_with_digit_uint d :
  d <> Decimal.Nil -> ends_with_digit (NilEmpty.string_of_uint d) = true.
Proof.
  induction d; intros H; try congruence;
    cbn [NilEmpty.string_of_uint ends_with_digit];
    (destruct d; [reflexivity| ..]; apply IHd; discriminate).
Qed.

Lemma ends_with_digit_number z : ends_with_digit (decimal z) = true.
Proof.
  unfold decimal.
  assert (U : forall d, ends_with_digit (NilZero.string_of_uint d) = true).
  { intros d. destruct d; try reflexivity;
      apply ends_with_digit_uint; discriminate. }
  assert (N : forall d, NilZero.string_of_uint d <> EmptyString).
  { intros d. destruct d; discriminate. }
  destruct (Z.to_int z) as [d|d]; cbn [NilZero.string_of_int].
  - apply U.
  - change (String "-" (NilZero.string_of_uint d))
      with ("-" ++ NilZero.string_of_uint d)%string.
    rewrite ends_with_digit_app by apply N. apply U.
Qed.

Lemma inherited_no_digit k : inherited k = true -> ends_with_digit k = false.
Proof.
  unfold inherited, Object_prototype. cbn [existsb].
  repeat (destruct (String.eqb k _) eqn:E;
          [apply String.eqb_eq in E; subst k; reflexivity | clear E]).
  discriminate.
Qed.

(** A composite key is not the name of an inherited property. *)
Lemma item_key_safe level type id key :
  item_key level type id = Some key ->
  safe_integer id = true /\
  key = (level ++ "_" ++ type ++ "_" ++ decimal id)%string.
Proof.
  unfold item_key, number_to_string.
  destruct (safe_integer id); [|discriminate]. now intros [= <-].
Qed.

Lemma item_key_of_safe level type id :
  safe_integer id = true -> exists key, item_key level type id = Some key.
Proof.
  intros H. unfold item_key, number_to_string. rewrite H. now eexists.
Qed.

Lemma item_key_not_inherited level type id key :
  item_key level type id = Some key -> inherited key = false.
Proof.
  intros Hk. apply item_key_safe in Hk. destruct Hk as [_ ->].
  match goal with |- inherited ?k = false => destruct (inherited k) eqn:E end;
    [|reflexivity].
  apply inherited_no_digit in E.
  assert (N : forall z, decimal z <> EmptyString).
  { intros z H. pose proof (ends_with_digit_number z) as D.
    rewrite H in D. discriminate. }
  rewrite (ends_with_digit_app level) in E by (cbn; discriminate).
  change ("_" ++ type ++ "_" ++ decimal id)%string
    with (("_" ++ type) ++ "_" ++ decimal id)%string in E.
  rewrite (ends_with_digit_app ("_" ++ type)) in E by (cbn; discriminate).
  rewrite (ends_with_digit_app "_") in E by apply N.
  now rewrite ends_with_digit_number in E.
Qed.

(** C3.  When the composite key (of a safe integer [id]) is in the store,
    [saveItem] gives the item the new [data] and the current time as
    [lastModified] and writes the store back: the store written holds that
    item under the key, every other property of the item ([reviewCount],
    [nextReviewDate], [lastReviewed], [savedDate] among them) and every
    other item of the store stay as they were.  The method then returns,
    unless [data.english] has no string for the log message. *)
Theorem saveItem_existing
  (clock : nat -> Z) (zone : TimeZone) (level type : string) (id : Z)
  (key : string) (data : object) (s : State) (store item : object) :
  - maxTime <= clock (ticks s) <= maxTime ->
  store_of s = Some store ->
  item_key level type id = Some key ->
  obj_lookup key store = Some (JObj item) ->
  exists item' store' s',
    final_state (saveItem clock zone level type id data s) = Some s' /\
    (interpolates (obj_get data "english") = true ->
     saveItem clock zone level type id data s = Return tt s') /\
    storage s' = Some (JObj store') /\
    obj_lookup key store' = Some (JObj item') /\
    map fst store' = map fst store /\
    obj_get item' "data" = Json (JObj data) /\
    obj_get item' "lastModified" =
      Json (JStr (iso_format (clock (ticks s)))) /\
    (forall name,
        name <> "data" -> name <> "lastModified" ->
        obj_get item' name = obj_get item name) /\
    (forall k, k <> key -> obj_lookup k store' = obj_lookup k store).
Proof.
  intros Hnow Hstore Hid Hkey.
  set (now := iso_format (clock (ticks s))).
  set (item1 := obj_set "data" (JObj data) item).
  set (item2 := obj_set "lastModified" (JStr now) item1).
  exists item2, (obj_replace key (JObj item2) store).
  assert (Hrun : exists s',
             final_state (saveItem clock zone level type id data s)
             = Some s' /\
             (interpolates (obj_get data "english") = true ->
              saveItem clock zone level type id data s = Return tt s') /\
             storage s' = Some (JObj (obj_replace key (JObj item2) store))).
  { remember (saveItem clock zone level type id data s) as r eqn:Er.
    unfold saveItem, bind in Er.
    rewrite (getAllData_store _ _ Hstore), Hid in Er.
    cbn [get_member_at described] in Er.
    rewrite (get_member_own _ _ _ _ Hkey) in Er.
    cbn [truthy set_member ret] in Er.
    rewrite new_Date_run in Er by exact Hnow.
    cbn [toISOString ret set_member get_member] in Er.
    fold now item1 item2 in Er.
    unfold obj_set at 1 in Er. rewrite Hkey in Er.
    unfold saveAllData, console_log, interpolate in Er.
    destruct (interpolates (obj_get data "english")); subst r;
      (eexists; split; [reflexivity|]; split;
       [intros E; try discriminate E; reflexivity | reflexivity]). }
  destruct Hrun as (s' & Hfinal & Hret & Hs).
  exists s'. repeat split; auto.
  - apply obj_lookup_replace_same. congruence.
  - apply obj_replace_keys.
  - unfold item2. rewrite obj_get_set_other by discriminate.
    apply obj_get_set_same.
  - apply obj_get_set_same.
  - intros name H1 H2. unfold item2, item1. now rewrite !obj_get_set_other.
  - intros k H. now apply obj_lookup_replace_other.
Qed.

Lemma saveItem_existing_witness :
  exists item' store' s',
    saveItem sample_clock sample_zone "a1" "vocab" 1
      [("english", JStr "dog")] sample_state = Return tt s' /\
    storage s' = Some (JObj store') /\
    obj_lookup "a1_vocab_1" store' = Some (JObj item') /\
    obj_get item' "data" = Json (JObj [("english", JStr "dog")]) /\
    obj_get item' "lastModified" = Json (JStr "2023-11-14T22:13:20.000Z") /\
    obj_get item' "reviewCount" = Json (JNum 2) /\
    obj_lookup "b2_sentence_7" store'
    = obj_lookup "b2_sentence_7" sample_store.
Proof.
  destruct (saveItem_existing sample_clock sample_zone "a1" "vocab" 1
              "a1_vocab_1" [("english", JStr "dog")] sample_state
              sample_store
              [ ("level", JStr "a1");
                ("type", JStr "vocab");
                ("id", JNum 1);
                ("data", JObj [("english", JStr "cat")]);
                ("savedDate", JStr (iso_format 1690000000000));
                ("lastReviewed", JNull);
                ("reviewCount", JNum 2);
                ("nextReviewDate", JStr (iso_format 1699000000000));
                ("lastModified", JStr (iso_format 1690000000000)) ])
    as (item' & store' & s' & _ & Hrun & Hs & Hl & _ & Hd & Hm & Hkeep & Hf).
  - vm_compute. split; discriminate.
  - reflexivity.
  - reflexivity.
  - reflexivity.
  - exists item', store', s'. repeat split; auto.
    + rewrite Hkeep by discriminate. reflexivity.
    + apply Hf. discriminate.
Defined.

(** C4.  When the composite key (of a safe integer [id]) is not in the
    store, [saveItem] creates under that key, after the items already
    there, an item with [reviewCount] 0, [nextReviewDate] one day
    ([intervals[0]]) from now on the local calendar, [lastReviewed] null
    and both [savedDate] and [lastModified] now, and writes the whole store
    back.  The method then returns, unless [data.english] has no string for
    the log message. *)
Theorem saveItem_new
  (clock : nat -> Z) (zone : TimeZone) (now : Z) (level type : string)
  (id : Z) (key : string) (data : object) (s : State) (store : object) :
  (forall i, clock i = now) ->
  - maxTime <= now <= maxTime ->
  - maxTime <= days_later zone 1 now <= maxTime ->
  store_of s = Some store ->
  item_key level type id = Some key ->
  obj_lookup key store = None ->
  exists s',
    nth_error intervals 0 = Some 1 /\
    final_state (saveItem clock zone level type id data s) = Some s' /\
    (interpolates (obj_get data "english") = true ->
     saveItem clock zone level type id data s = Return tt s') /\
    storage s' =
      Some (JObj (store ++
                  [(key,
                    JObj [ ("level", JStr level);
                           ("type", JStr type);
                           ("id", JNum id);
                           ("data", JObj data);
                           ("savedDate", JStr (iso_format now));
                           ("lastReviewed", JNull);
                           ("reviewCount", JNum 0);
                           ("nextReviewDate",
                            JStr (iso_format
                                    (UTC zone
                                       (LocalTime zone now + 86400000))));
                           ("lastModified", JStr (iso_format now)) ])])).
Proof.
  intros Hclock Hvalid Hlater Hstore Hid Hkey.
  assert (Hnow : forall s0 : State, - maxTime <= clock (ticks s0) <= maxTime)
    by (intros s0; now rewrite Hclock).
  assert (Hnext : forall s0 : State,
             - maxTime <= days_later zone 1 (clock (ticks s0)) <= maxTime)
    by (intros s0; now rewrite Hclock).
  remember (saveItem clock zone level type id data s) as r eqn:Er.
  unfold saveItem, bind in Er.
  rewrite (getAllData_store _ _ Hstore), Hid in Er.
  cbn [get_member_at described] in Er.
  rewrite (get_member_absent _ _ _ Hkey
             (item_key_not_inherited _ _ _ _ Hid)) in Er.
  cbn [truthy described ret] in Er. rewrite new_Date_run in Er by apply Hnow.
  cbn [toISOString ret] in Er.
  rewrite (calculateNextReview_run clock zone (Num 0) 1) in Er by
    (reflexivity || apply Hnow || apply Hnext).
  rewrite new_Date_run in Er by apply Hnow.
  cbn [toISOString ret set_member get_member ticks] in Er.
  rewrite !Hclock in Er. unfold obj_set in Er. rewrite Hkey in Er.
  unfold saveAllData, console_log, interpolate in Er.
  destruct (interpolates (obj_get data "english")); subst r;
    (eexists; split; [reflexivity|]; split; [reflexivity|]; split;
     [intros E; try discriminate E; reflexivity | reflexivity]).
Qed.

Lemma saveItem_new_witness :
  exists s',
    saveItem sample_clock sample_zone "c1" "vocab" 4
      [("english", JStr "dog")] sample_state = Return tt s' /\
    obj_lookup "c1_vocab_4"
      (match storage s' with Some (JObj store) => store | _ => [] end)
    = Some (JObj [ ("level", JStr "c1");
                   ("type", JStr "vocab");
                   ("id", JNum 4);
                   ("data", JObj [("english", JStr "dog")]);
                   ("savedDate", JStr "2023-11-14T22:13:20.000Z");
                   ("lastReviewed", JNull);
                   ("reviewCount", JNum 0);
                   ("nextReviewDate", JStr "2023-11-15T22:13:20.000Z");
                   ("lastModified", JStr "2023-11-14T22:13:20.000Z") ]).
Proof.
  destruct (saveItem_new sample_clock sample_zone 1700000000000 "c1" "vocab"
              4 "c1_vocab_4" [("english", JStr "dog")] sample_state
              sample_store)
    as (s' & _ & _ & Hrun & Hs).
  - reflexivity.
  - vm_compute. split; discriminate.
  - vm_compute. split; discriminate.
  - reflexivity.
  - reflexivity.
  - reflexivity.
  - exists s'. split; [now apply Hrun|]. rewrite Hs. reflexivity.
Defined.

(** ** Sorting *)

Section Sorting.

Context {A : Type} (rank : A -> Z).

Let ranked (a b : A) : Prop := rank a <= rank b.

Lemma insert_by_perm x l : Permutation (x :: l) (insert_by rank x l).
Proof.
  induction l as [|y l IH]; cbn [insert_by]; [reflexivity|].
  destruct (rank x <=? rank y); [reflexivity|].
  rewrite perm_swap. now apply perm_skip.
Qed.

Lemma sort_by_perm l : Permutation l (sort_by rank l).
Proof.
  induction l as [|x l IH]; cbn [sort_by]; [reflexivity|].
  rewrite <- insert_by_perm. now apply perm_skip.
Qed.

Lemma insert_by_sorted x l :
  StronglySorted ranked l -> StronglySorted ranked (insert_by rank x l).
Proof.
  induction 1 as [|y l Hs IH Hy]; cbn [insert_by].
  - repeat constructor.
  - destruct (rank x <=? rank y) eqn:E.
    + apply Z.leb_le in E. constructor; [now constructor|].
      constructor; [exact E|].
      eapply Forall_impl; [|exact Hy]. unfold ranked. intros; lia.
    + apply Z.leb_gt in E. constructor; [exact IH|].
      eapply Permutation_Forall; [apply insert_by_perm|].
      constructor; [unfold ranked; lia | exact Hy].
Qed.

Lemma sort_by_sorted l : StronglySorted ranked (sort_by rank l).
Proof.
  induction l as [|x l IH]; cbn [sort_by]; [constructor|].
  now apply insert_by_sorted.
Qed.

End Sorting.

Lemma StronglySorted_map {A B} (R : A -> A -> Prop) (Q : B -> B -> Prop)
  (P : A -> Prop) (f : A -> B) l :
  (forall a b, P a -> P b -> R a b -> Q (f a) (f b)) ->
  Forall P l -> StronglySorted R l -> StronglySorted Q (map f l).
Proof.
  intros H HP Hs. induction Hs as [|a l Hs IH Ha]; cbn [map]; [constructor|].
  inversion HP as [|? ? Pa Pl]; subst. constructor; [auto|].
  apply Forall_map. rewrite Forall_forall in *. intros b Hb. auto.
Qed.

Lemma date_fields_some name items :
  Forall (fun item => date_field name item <> None) items ->
  exists keyed, date_fields name items = Some keyed.
Proof.
  induction 1 as [|item items Hi _ [keyed IH]]; cbn [date_fields].
  - now exists [].
  - destruct (date_field name item) as [t|]; [|congruence].
    rewrite IH. now eexists.
Qed.

Lemma date_fields_spec name items keyed :
  date_fields name items = Some keyed ->
  map snd keyed = items /\
  Forall (fun p => date_field name (snd p) = Some (fst p)) keyed.
Proof.
  revert keyed. induction items as [|item items IH]; cbn [date_fields].
  - intros keyed [= <-]. split; constructor.
  - intros keyed H. destruct (date_field name item) as [t|] eqn:E;
      [|discriminate].
    destruct (date_fields name items) as [l|]; [|discriminate].
    injection H as <-. destruct (IH l eq_refl) as [Hm Hf].
    split; [cbn; now rewrite Hm | constructor; auto].
Qed.

Lemma sorted_by_date_perm name descending items :
  Permutation (sorted_by_date name descending items) items.
Proof.
  unfold sorted_by_date.
  destruct (date_fields name items) as [keyed|] eqn:E; [|reflexivity].
  destruct (date_fields_spec _ _ _ E) as [Hm _]. rewrite <- Hm.
  apply Permutation_map. symmetry. apply sort_by_perm.
Qed.

Lemma sorted_by_date_sorted name (descending : bool) items :
  Forall (fun item => date_field name item <> None) items ->
  StronglySorted
    (fun a b =>
       if descending then date_ordered name b a else date_ordered name a b)
    (sorted_by_date name descending items).
Proof.
  intros Hv. unfold sorted_by_date.
  destruct (date_fields_some _ _ Hv) as [keyed E]. rewrite E.
  destruct (date_fields_spec _ _ _ E) as [_ Hf].
  eapply StronglySorted_map with
    (P := fun p => date_field name (snd p) = Some (fst p));
    [| |apply sort_by_sorted].
  - intros a b Pa Pb Hr. unfold date_ordered.
    destruct descending; rewrite Pa, Pb; lia.
  - eapply Permutation_Forall; [apply sort_by_perm|exact Hf].
Qed.

Lemma sort_by_date_run name descending items s :
  Forall (fun item => date_field name item <> None) items ->
  sort_by_date name descending items s =
  Return (sorted_by_date name descending items) s.
Proof.
  intros Hv. destruct (date_fields_some _ _ Hv) as [keyed E].
  unfold sort_by_date, sorted_by_date, bind. rewrite E.
  destruct items as [|a [|b items]]; cbn [described ret].
  - now injection E as <-.
  - cbn [date_fields] in E. destruct (date_field name a); [|discriminate].
    now injection E as <-.
  - reflexivity.
Qed.

(** ** Listing the items *)

Lemma passes_default_null filter name item :
  passes (default_null filter) name item = passes filter name item.
Proof. now destruct filter. Qed.

Lemma passes_spread filter name key item :
  name <> "key" ->
  passes filter name (spread_with_key key item) = passes filter name item.
Proof. intros H. unfold passes. now rewrite obj_get_spread. Qed.

Lemma date_field_spread name key item :
  name <> "key" ->
  date_field name (spread_with_key key item) = date_field name item.
Proof. intros H. unfold date_field. now rewrite obj_get_spread. Qed.

Lemma count_of_spread key item :
  count_of (spread_with_key key item) = count_of item.
Proof. unfold count_of. now rewrite obj_get_spread by discriminate. Qed.

Lemma filtered_out_run filter (item : object) name s :
  filtered_out filter (JObj item) name s =
  Return (negb (passes filter name item)) s.
Proof.
  unfold filtered_out, passes.
  destruct (truthy filter); reflexivity.
Qed.

Lemma review_item_inv j :
  review_item j = true ->
  exists item next saved n,
    j = JObj item /\
    date_field "nextReviewDate" item = Some next /\
    Date_of (obj_get item "nextReviewDate") = Some (Num next) /\
    date_field "savedDate" item = Some saved /\
    count_of item = Some n /\ 0 <= n.
Proof.
  destruct j as [| | | | |item]; try discriminate. cbn [review_item].
  unfold valid_date, date_field. intros H.
  destruct (Date_of (obj_get item "nextReviewDate")) as [[next|]|] eqn:En;
    try discriminate.
  destruct (Date_of (obj_get item "savedDate")) as [[saved|]|] eqn:Es;
    try discriminate.
  destruct (count_of item) as [n|] eqn:Ec; try discriminate.
  exists item, next, saved, n. cbn [andb] in H. apply Z.leb_le in H.
  rewrite En, Es. repeat split; auto.
Qed.

Lemma review_store_cons key j store :
  review_store ((key, j) :: store) = true ->
  review_item j = true /\ review_store store = true.
Proof. unfold review_store. cbn. apply andb_prop. Qed.

Lemma matching_cons level type key (item : object) store :
  matching level type ((key, JObj item) :: store) =
  (if passes level "level" item && passes type "type" item
   then [spread_with_key key item] else [])
  ++ matching level type store.
Proof.
  unfold matching, listed. cbn [flat_map fst snd app filter].
  rewrite !passes_spread by discriminate.
  now destruct (passes level "level" item && passes type "type" item).
Qed.

Lemma getDueItems_step_run level type now key j acc s :
  review_item j = true ->
  getDueItems_step level type (Num now) (key, j) acc s =
  Return (acc ++ due_items level type now [(key, j)]) s.
Proof.
  intros H.
  destruct (review_item_inv _ H)
    as (item & next & saved & n & -> & Hn & Hd & _).
  unfold due_items. rewrite matching_cons.
  unfold getDueItems_step, bind. cbn [get_member ret].
  rewrite Hd. cbn [described ret].
  rewrite filtered_out_run.
  destruct (passes level "level" item); cbn [negb andb].
  2: { cbn. now rewrite app_nil_r. }
  rewrite filtered_out_run.
  destruct (passes type "type" item); cbn [negb andb].
  2: { cbn. now rewrite app_nil_r. }
  cbn [date_le bind ret spread app filter].
  unfold bind, ret, due. rewrite date_field_spread by discriminate.
  rewrite Hn. destruct (next <=? now); [reflexivity|now rewrite app_nil_r].
Qed.

Lemma getDueItems_loop level type now store acc s :
  review_store store = true ->
  for_each store (getDueItems_step level type (Num now)) acc s =
  Return (acc ++ due_items level type now store) s.
Proof.
  revert acc. induction store as [|[key j] store IH]; intros acc H.
  - cbn. now rewrite app_nil_r.
  - destruct (review_store_cons _ _ _ H) as [Hj Hs].
    cbn [for_each]. unfold bind.
    rewrite (getDueItems_step_run _ _ _ _ _ _ _ Hj), IH by exact Hs.
    destruct (review_item_inv _ Hj) as (item & _ & _ & _ & -> & _).
    unfold due_items. rewrite !matching_cons, !filter_app, <- app_assoc.
    cbn [matching listed flat_map filter app]. now rewrite app_nil_r.
Qed.

Lemma getAllItems_step_run level type key j acc s :
  review_item j = true ->
  getAllItems_step level type (key, j) acc s =
  Return (acc ++ matching level type [(key, j)]) s.
Proof.
  intros H. destruct (review_item_inv _ H) as (item & _ & _ & _ & -> & _).
  rewrite matching_cons.
  unfold getAllItems_step, bind. rewrite filtered_out_run.
  destruct (passes level "level" item); cbn [negb andb].
  2: { cbn. now rewrite app_nil_r. }
  rewrite filtered_out_run.
  destruct (passes type "type" item); cbn [negb andb].
  2: { cbn. now rewrite app_nil_r. }
  reflexivity.
Qed.

Lemma getAllItems_loop level type store acc s :
  review_store store = true ->
  for_each store (getAllItems_step level type) acc s =
  Return (acc ++ matching level type store) s.
Proof.
  revert acc. induction store as [|[key j] store IH]; intros acc H.
  - cbn. now rewrite app_nil_r.
  - destruct (review_store_cons _ _ _ H) as [Hj Hs].
    cbn [for_each]. unfold bind.
    rewrite (getAllItems_step_run _ _ _ _ _ _ Hj), IH by exact Hs.
    destruct (review_item_inv _ Hj) as (item & _ & _ & _ & -> & _).
    rewrite !matching_cons, <- app_assoc.
    cbn [matching listed flat_map filter app]. now rewrite app_nil_r.
Qed.

Lemma listed_review_items store :
  review_store store = true ->
  Forall (fun item =>
            date_field "nextReviewDate" item <> None /\
            date_field "savedDate" item <> None /\
            exists n, count_of item = Some n /\ 0 <= n)
    (listed store).
Proof.
  induction store as [|[key j] store IH]; intros H; [constructor|].
  destruct (review_store_cons _ _ _ H) as [Hj Hs].
  destruct (review_item_inv _ Hj)
    as (item & next & saved & n & -> & Hn & _ & Hd & Hc & H0).
  unfold listed. cbn [flat_map fst snd app]. constructor; [|now apply IH].
  rewrite !date_field_spread by discriminate. rewrite count_of_spread.
  repeat split; try congruence. now exists n.
Qed.

Lemma matching_review_items level type store :
  review_store store = true ->
  Forall (fun item =>
            date_field "nextReviewDate" item <> None /\
            date_field "savedDate" item <> None /\
            exists n, count_of item = Some n /\ 0 <= n)
    (matching level type store).
Proof.
  intros H. apply listed_review_items in H. unfold matching.
  rewrite Forall_forall in *. intros item Hi.
  apply filter_In in Hi. now apply H.
Qed.

Lemma matching_default_null level type store :
  matching (default_null level) (default_null type) store =
  matching level type store.
Proof.
  unfold matching. apply filter_ext. intros item.
  now rewrite !passes_default_null.
Qed.

Lemma matching_default_level level type store :
  matching (default_null level) type store = matching level type store.
Proof.
  unfold matching. apply filter_ext. intros item.
  now rewrite passes_default_null.
Qed.

Lemma matching_omitted store :
  matching Undefined Undefined store = listed store.
Proof.
  unfold matching. generalize (listed store). intros l.
  induction l as [|item l IH]; [reflexivity|].
  cbn [filter].
  change (passes Undefined "level" item && passes Undefined "type" item)
    with true.
  cbv iota. now rewrite IH.
Qed.

Lemma getAllItems_run level type s store :
  store_of s = Some store ->
  review_store store = true ->
  getAllItems level type s =
  Return (sorted_by_date "savedDate" true (matching level type store)) s.
Proof.
  intros Hstore Hwf. unfold getAllItems, bind.
  rewrite (getAllData_store _ _ Hstore). cbn [for_in_entries ret].
  rewrite getAllItems_loop by exact Hwf. cbn [app].
  rewrite matching_default_null. apply sort_by_date_run.
  eapply Forall_impl; [|apply matching_review_items, Hwf].
  intros item (_ & H & _). exact H.
Qed.

Lemma getDueItems_run clock level type s store :
  - maxTime <= clock (ticks s) <= maxTime ->
  store_of s = Some store ->
  review_store store = true ->
  getDueItems clock level type s =
  Return (sorted_by_date "nextReviewDate" false
            (due_items level type (clock (ticks s)) store))
    (mkState (storage s) (console s) (alerts s) (S (ticks s))).
Proof.
  intros Hnow Hstore Hwf. unfold getDueItems, bind.
  rewrite (getAllData_store _ _ Hstore), new_Date_run by exact Hnow.
  cbn [for_in_entries ret].
  rewrite getDueItems_loop by exact Hwf. cbn [app].
  unfold due_items. rewrite matching_default_null. apply sort_by_date_run.
  rewrite Forall_forall. intros item Hi. apply filter_In in Hi.
  destruct Hi as [Hi _].
  pose proof (matching_review_items level type store Hwf) as Hf.
  rewrite Forall_forall in Hf. now apply Hf.
Qed.

(** C5.  [getDueItems(level, type)] returns the items of the store that
    pass the filters given (all items when both are omitted) and whose
    [nextReviewDate] is at or before the reading of the clock, in ascending
    order of [nextReviewDate]; it writes nothing: the store, the console and
    the alerts are as before. *)
Theorem getDueItems_due_sorted
  (clock : nat -> Z) (level type : value) (s : State) (store : object) :
  - maxTime <= clock (ticks s) <= maxTime ->
  store_of s = Some store ->
  review_store store = true ->
  exists result,
    getDueItems clock level type s =
      Return result (mkState (storage s) (console s) (alerts s) (S (ticks s)))
    /\
    Permutation result
      (filter (due (clock (ticks s)))
         (filter (fun item =>
                    passes level "level" item && passes type "type" item)
            (listed store))) /\
    StronglySorted (date_ordered "nextReviewDate") result /\
    (level = Undefined -> type = Undefined ->
     Permutation result (filter (due (clock (ticks s))) (listed store))).
Proof.
  intros Hnow Hstore Hwf.
  eexists. split; [now apply getDueItems_run with (store := store)|].
  assert (P : Permutation
                (sorted_by_date "nextReviewDate" false
                   (due_items level type (clock (ticks s)) store))
                (due_items level type (clock (ticks s)) store))
    by apply sorted_by_date_perm.
  split; [exact P|]. split.
  - apply (sorted_by_date_sorted "nextReviewDate" false).
    unfold due_items. rewrite Forall_forall. intros item Hi.
    apply filter_In in Hi. destruct Hi as [Hi _].
    pose proof (matching_review_items level type store Hwf) as Hf.
    rewrite Forall_forall in Hf. now apply Hf.
  - intros -> ->. rewrite P. unfold due_items.
    now rewrite matching_omitted.
Qed.

Lemma getDueItems_due_sorted_witness :
  exists result,
    getDueItems sample_clock (Json (JStr "a1")) Undefined sample_state =
      Return result (mkState (Some (JObj sample_store)) [] [] 1) /\
    List.length result = 1%nat /\
    StronglySorted (date_ordered "nextReviewDate") result.
Proof.
  destruct (getDueItems_due_sorted sample_clock (Json (JStr "a1")) Undefined
              sample_state sample_store)
    as (result & Hrun & Hperm & Hsorted & _).
  - vm_compute. split; discriminate.
  - reflexivity.
  - vm_compute. reflexivity.
  - exists result. repeat split; auto.
    rewrite (Permutation_length Hperm). vm_compute. reflexivity.
Defined.

(** C9.  [getAllItems(level, type)] returns all the items of the store that
    pass the filters given, whether due or not, in descending order of
    [savedDate]; it leaves the state as it is. *)
Theorem getAllItems_sorted
  (level type : value) (s : State) (store : object) :
  store_of s = Some store ->
  review_store store = true ->
  exists result,
    getAllItems level type s = Return result s /\
    Permutation result
      (filter (fun item =>
                 passes level "level" item && passes type "type" item)
         (listed store)) /\
    StronglySorted (fun a b => date_ordered "savedDate" b a) result.
Proof.
  intros Hstore Hwf.
  eexists. split; [now apply getAllItems_run with (store := store)|].
  split; [apply sorted_by_date_perm|].
  apply (sorted_by_date_sorted "savedDate" true).
  eapply Forall_impl; [|apply matching_review_items, Hwf].
  intros item (_ & H & _). exact H.
Qed.

Lemma getAllItems_sorted_witness :
  exists result,
    getAllItems (Json (JStr "a1")) Undefined sample_state =
      Return result sample_state /\
    List.length result = 2%nat /\
    StronglySorted (fun a b => date_ordered "savedDate" b a) result.
Proof.
  destruct (getAllItems_sorted (Json (JStr "a1")) Undefined
              sample_state sample_store)
    as (result & Hrun & Hperm & Hsorted).
  - reflexivity.
  - vm_compute. reflexivity.
  - exists result. repeat split; auto.
    rewrite (Permutation_length Hperm). vm_compute. reflexivity.
Defined.

(** ** Filters *)

Lemma for_each_ext {A B} (f g : A -> B -> M B) l acc s :
  (forall x acc, f x acc = g x acc) ->
  for_each l f acc s = for_each l g acc s.
Proof.
  intros H. revert acc s. induction l as [|x l IH]; intros acc s;
    [reflexivity|].
  cbn [for_each]. unfold bind. rewrite H.
  destruct (g x acc s); auto.
Qed.

Lemma truthy_default_null v : truthy (default_null v) = truthy v.
Proof. now destruct v. Qed.

Lemma filtered_out_falsy f f' item name :
  truthy f = false -> truthy f' = false ->
  filtered_out f item name = filtered_out f' item name.
Proof. intros H H'. unfold filtered_out. now rewrite H, H'. Qed.

Lemma getDueItems_falsy clock level level' type type' s :
  truthy level = truthy level' -> (truthy level = true -> level = level') ->
  truthy type = truthy type' -> (truthy type = true -> type = type') ->
  getDueItems clock level type s = getDueItems clock level' type' s.
Proof.
  intros Hl Hl' Ht Ht'. unfold getDueItems, bind.
  destruct (getAllData s) as [allData s1| |]; try reflexivity.
  destruct (new_Date clock s1) as [today s2| |]; try reflexivity.
  destruct (for_in_entries allData s2) as [entries s3| |]; try reflexivity.
  rewrite for_each_ext with
    (g := getDueItems_step (default_null level') (default_null type') today);
    [reflexivity|].
  intros [key item] acc. unfold getDueItems_step.
  destruct (truthy level) eqn:El.
  - rewrite <- (Hl' eq_refl). destruct (truthy type) eqn:Et.
    + now rewrite <- (Ht' eq_refl).
    + rewrite (filtered_out_falsy (default_null type) (default_null type'));
        rewrite ?truthy_default_null; congruence.
  - rewrite (filtered_out_falsy (default_null level) (default_null level'))
      by (rewrite ?truthy_default_null; congruence).
    destruct (truthy type) eqn:Et.
    + now rewrite <- (Ht' eq_refl).
    + rewrite (filtered_out_falsy (default_null type) (default_null type'));
        rewrite ?truthy_default_null; congruence.
Qed.

Lemma getAllItems_falsy level level' type type' s :
  truthy level = truthy level' -> (truthy level = true -> level = level') ->
  truthy type = truthy type' -> (truthy type = true -> type = type') ->
  getAllItems level type s = getAllItems level' type' s.
Proof.
  intros Hl Hl' Ht Ht'. unfold getAllItems, bind.
  destruct (getAllData s) as [allData s1| |]; try reflexivity.
  destruct (for_in_entries allData s1) as [entries s3| |]; try reflexivity.
  rewrite for_each_ext with
    (g := getAllItems_step (default_null level') (default_null type'));
    [reflexivity|].
  intros [key item] acc. unfold getAllItems_step.
  destruct (truthy level) eqn:El.
  - rewrite <- (Hl' eq_refl). destruct (truthy type) eqn:Et.
    + now rewrite <- (Ht' eq_refl).
    + rewrite (filtered_out_falsy (default_null type) (default_null type'));
        rewrite ?truthy_default_null; congruence.
  - rewrite (filtered_out_falsy (default_null level) (default_null level'))
      by (rewrite ?truthy_default_null; congruence).
    destruct (truthy type) eqn:Et.
    + now rewrite <- (Ht' eq_refl).
    + rewrite (filtered_out_falsy (default_null type) (default_null type'));
        rewrite ?truthy_default_null; congruence.
Qed.

(** C10.  [getDueItems] and [getAllItems] test a filter by its truth value.
    With a falsy [level] or [type] ([null], [undefined], the empty string
    and 0 are falsy) the call runs as the call without that argument: the
    filter is off, it does not select the items whose property is that
    value.  With a truthy one the items returned are those whose property is
    strictly equal ([===]) to it. *)
Theorem filters_test_truthiness
  (clock : nat -> Z) (level type : value) (s : State) (store : object) :
  - maxTime <= clock (ticks s) <= maxTime ->
  store_of s = Some store ->
  review_store store = true ->
  Forall (fun v => truthy v = false)
    [Json JNull; Undefined; Json (JStr ""); Json (JNum 0)] /\
  (truthy level = false ->
   getDueItems clock level type s = getDueItems clock Undefined type s /\
   getAllItems level type s = getAllItems Undefined type s) /\
  (truthy type = false ->
   getDueItems clock level type s = getDueItems clock level Undefined s /\
   getAllItems level type s = getAllItems level Undefined s) /\
  exists dueItems items,
    getDueItems clock level type s =
      Return dueItems
        (mkState (storage s) (console s) (alerts s) (S (ticks s))) /\
    getAllItems level type s = Return items s /\
    let selected item :=
      (if truthy level then strict_equal (obj_get item "level") level
       else true)
      && (if truthy type then strict_equal (obj_get item "type") type
          else true) in
    Permutation items (filter selected (listed store)) /\
    Permutation dueItems
      (filter (due (clock (ticks s))) (filter selected (listed store))).
Proof.
  intros Hnow Hstore Hwf. split; [repeat constructor|].
  split; [|split].
  - intros H. split;
      [apply getDueItems_falsy | apply getAllItems_falsy];
      auto; rewrite H; try reflexivity; discriminate.
  - intros H. split;
      [apply getDueItems_falsy | apply getAllItems_falsy];
      auto; rewrite H; try reflexivity; discriminate.
  - do 2 eexists.
    split; [now apply getDueItems_run with (store := store)|].
    split; [now apply getAllItems_run with (store := store)|].
    assert (E : forall l,
               filter (fun item =>
                         passes level "level" item && passes type "type" item)
                 l =
               filter (fun item =>
                         (if truthy level
                          then strict_equal (obj_get item "level") level
                          else true)
                         && (if truthy type
                             then strict_equal (obj_get item "type") type
                             else true)) l).
    { intros l. apply filter_ext. intros item. unfold passes.
      now destruct (truthy level), (truthy type). }
    cbv zeta. rewrite <- E. split; apply sorted_by_date_perm.
Qed.

Lemma filters_test_truthiness_witness :
  getDueItems sample_clock (Json (JStr "")) (Json (JNum 0)) sample_state =
  getDueItems sample_clock Undefined (Json (JNum 0)) sample_state /\
  exists items,
    getAllItems (Json (JStr "a1")) (Json (JNum 0)) sample_state =
      Return items sample_state /\
    List.length items = 2%nat.
Proof.
  destruct (filters_test_truthiness sample_clock (Json (JStr ""))
              (Json (JNum 0)) sample_state sample_store)
    as (_ & Hlevel & _).
  - vm_compute. split; discriminate.
  - reflexivity.
  - vm_compute. reflexivity.
  - split; [now apply Hlevel|].
    destruct (filters_test_truthiness sample_clock (Json (JStr "a1"))
                (Json (JNum 0)) sample_state sample_store)
      as (_ & _ & _ & dueItems & items & _ & Hall & Hperm & _).
    + vm_compute. split; discriminate.
    + reflexivity.
    + vm_compute. reflexivity.
    + exists items. split; [exact Hall|].
      rewrite (Permutation_length Hperm). vm_compute. reflexivity.
Defined.

(** ** Statistics *)

Lemma Permutation_filter {A} (f : A -> bool) l l' :
  Permutation l l' -> Permutation (filter f l) (filter f l').
Proof.
  induction 1 as [|x l l' _ IH|x y l|l l' l'' _ IH1 _ IH2]; cbn [filter].
  - constructor.
  - destruct (f x); [now constructor|exact IH].
  - destruct (f x), (f y); try reflexivity. apply perm_swap.
  - now transitivity (filter f l').
Qed.

Lemma filter_count_total {A} (test : A -> M bool) (f : A -> bool) items s :
  Forall (fun item => forall s, test item s = Return (f item) s) items ->
  filter_count test items s = Return (List.length (filter f items)) s.
Proof.
  induction 1 as [|item items Hi _ IH]; [reflexivity|].
  cbn [filter_count filter]. unfold bind. rewrite Hi, IH.
  now destruct (f item).
Qed.

Lemma reviewCount_gt_run item n s :
  count_of item = Some n ->
  reviewCount_gt 0 item s = Return (reviewed_item item) s.
Proof.
  intros H. unfold reviewCount_gt, reviewed_item, bind.
  now rewrite H, (count_of_get _ _ H).
Qed.

Lemma reviewCount_ge_run item n s :
  count_of item = Some n ->
  reviewCount_ge (intervals_length - 1) item s =
  Return (mastered_item item) s.
Proof.
  intros H. unfold reviewCount_ge, mastered_item, bind.
  now rewrite H, (count_of_get _ _ H).
Qed.

Lemma getStatistics_level_run clock now lvl store acc s :
  (forall i, clock i = now) ->
  - maxTime <= now <= maxTime ->
  store_of s = Some store ->
  review_store store = true ->
  getStatistics_level clock lvl acc s =
  Return (acc ++ [level_report now store lvl]) (ticked 1 s).
Proof.
  intros Hclock Hnow Hstore Hwf. unfold getStatistics_level, bind.
  rewrite (getAllItems_run _ _ _ _ Hstore Hwf).
  rewrite (getDueItems_run clock _ _ _ store);
    rewrite ?Hclock; auto.
  set (items := matching (JStr lvl) Undefined store).
  set (sorted := sorted_by_date "savedDate" true items).
  assert (P : Permutation sorted items) by apply sorted_by_date_perm.
  rewrite !filter_count_total with (f := of_type "vocab")
    by (rewrite Forall_forall; reflexivity).
  rewrite !filter_count_total with (f := of_type "sentence")
    by (rewrite Forall_forall; reflexivity).
  cbn [ret]. unfold level_report. fold items.
  rewrite (Permutation_length P).
  rewrite (Permutation_length (Permutation_filter (of_type "vocab") _ _ P)).
  rewrite (Permutation_length (Permutation_filter (of_type "sentence") _ _ P)).
  rewrite (Permutation_length (sorted_by_date_perm _ _ _)).
  reflexivity.
Qed.

Lemma getStatistics_levels_run clock now lvls store acc s :
  (forall i, clock i = now) ->
  - maxTime <= now <= maxTime ->
  store_of s = Some store ->
  review_store store = true ->
  for_each lvls (getStatistics_level clock) acc s =
  Return (acc ++ map (level_report now store) lvls)
    (ticked (List.length lvls) s).
Proof.
  intros Hclock Hnow Hstore Hwf. revert acc s Hstore.
  induction lvls as [|lvl lvls IH]; intros acc s Hstore.
  - cbn. rewrite app_nil_r. now destruct s.
  - cbn [for_each]. unfold bind.
    rewrite (getStatistics_level_run clock now lvl store) by auto.
    rewrite IH by exact Hstore. cbn [map]. rewrite <- app_assoc.
    unfold ticked. cbn [storage console alerts ticks List.length app].
    now rewrite Nat.add_succ_r.
Qed.

(** C7.  Whatever [level] is given, [byLevel] of [getStatistics(level)] has
    a report for each of the six levels a1, a2, b1, b2, c1, c2, with the
    number of items of that level, of those due, of those of type vocab and
    of those of type sentence, all counted over the whole store: none of
    them depends on [level].  [total], [dueToday], [reviewed] and [mastered]
    count the items that pass the [level] filter. *)
Theorem getStatistics_byLevel
  (clock : nat -> Z) (now : Z) (level : value) (s : State) (store : object) :
  (forall i, clock i = now) ->
  - maxTime <= now <= maxTime ->
  store_of s = Some store ->
  review_store store = true ->
  exists stats,
    getStatistics clock level s = Return stats (ticked 7 s) /\
    map fst (byLevel stats) = ["a1"; "a2"; "b1"; "b2"; "c1"; "c2"] /\
    byLevel stats = map (level_report now store) levels /\
    total stats = List.length (matching level Undefined store) /\
    dueToday stats =
      List.length (filter (due now) (matching level Undefined store)) /\
    reviewed stats =
      List.length (filter reviewed_item (matching level Undefined store)) /\
    mastered stats =
      List.length (filter mastered_item (matching level Undefined store)).
Proof.
  intros Hclock Hnow Hstore Hwf.
  set (items := matching level Undefined store).
  set (sorted := sorted_by_date "savedDate" true items).
  assert (P : Permutation sorted items) by apply sorted_by_date_perm.
  assert (C : Forall (fun item => exists n, count_of item = Some n) sorted).
  { eapply Permutation_Forall; [symmetry; exact P|].
    eapply Forall_impl; [|apply matching_review_items, Hwf].
    intros item (_ & _ & n & H & _). now exists n. }
  eexists. split.
  - unfold getStatistics, bind.
    rewrite (getAllItems_run _ _ _ _ Hstore Hwf).
    rewrite (getDueItems_run clock _ _ _ store);
      rewrite ?Hclock; auto.
    unfold due_items. rewrite !matching_default_level. fold items sorted.
    rewrite filter_count_total with (f := reviewed_item).
    2: { eapply Forall_impl; [|exact C]. intros item [n H] s0.
         now apply reviewCount_gt_run with (n := n). }
    rewrite filter_count_total with (f := mastered_item).
    2: { eapply Forall_impl; [|exact C]. intros item [n H] s0.
         now apply reviewCount_ge_run with (n := n). }
    rewrite (getStatistics_levels_run clock now levels store) by auto.
    cbn [ret app]. reflexivity.
  - cbn [byLevel total dueToday reviewed mastered].
    split; [reflexivity|]. split; [reflexivity|].
    split; [exact (Permutation_length P)|].
    split; [|split].
    + exact (Permutation_length (sorted_by_date_perm _ _ _)).
    + exact (Permutation_length (Permutation_filter _ _ _ P)).
    + exact (Permutation_length (Permutation_filter _ _ _ P)).
Qed.

Lemma getStatistics_byLevel_witness :
  exists stats,
    getStatistics sample_clock (Json (JStr "b2")) sample_state =
      Return stats (ticked 7 sample_state) /\
    total stats = 1%nat /\
    map (fun report => level_total (snd report)) (byLevel stats) =
      [2; 0; 0; 1; 0; 0]%nat.
Proof.
  destruct (getStatistics_byLevel sample_clock 1700000000000
              (Json (JStr "b2")) sample_state sample_store)
    as (stats & Hrun & _ & Hlevels & Htotal & _).
  - reflexivity.
  - vm_compute. split; discriminate.
  - reflexivity.
  - vm_compute. reflexivity.
  - exists stats. split; [exact Hrun|]. rewrite Htotal, Hlevels.
    vm_compute. split; reflexivity.
Defined.

(** ** Keys that are not in the store *)

(** C8 as stated does not hold.  [deleteItem] on a key that is absent writes
    nothing on the console: only [reviewItem] reports the missing key.  And
    a key that names a property every object inherits, such as
    [constructor], is absent from the store and yet passes the test
    [allData[key]] of [deleteItem], which then writes the store back, here
    an entry where there was none, and logs a deletion. *)
Lemma deleteItem_absent_key_counterexample :
  (obj_lookup "a1_vocab_9" sample_store = None /\
   deleteItem "a1_vocab_9" sample_state = Return tt sample_state /\
   console sample_state = []) /\
  (store_of empty_state = Some [] /\
   obj_lookup "constructor" [] = None /\
   deleteItem "constructor" empty_state =
   Return tt (mkState (Some (JObj [])) [LogDeleted] [] 0)).
Proof. repeat split. Qed.

(** C8, amended.  For a key that is absent from the store and is not the
    name of an inherited property, [reviewItem] reports the missing key on
    the console and returns, and [deleteItem] returns without a trace:
    neither throws and neither writes the store. *)
Theorem absent_key_no_op
  (clock : nat -> Z) (zone : TimeZone) (key : string) (remembered : bool)
  (s : State) (store : object) :
  store_of s = Some store ->
  obj_lookup key store = None ->
  inherited key = false ->
  reviewItem clock zone key remembered s =
    Return tt
      (mkState (storage s) (console s ++ [ErrorNotFound]) (alerts s)
         (ticks s)) /\
  deleteItem key s = Return tt s.
Proof.
  intros Hstore Hkey Hin. split.
  - unfold reviewItem, bind.
    now rewrite (getAllData_store _ _ Hstore),
      (get_member_absent _ _ _ Hkey Hin).
  - unfold deleteItem, bind.
    now rewrite (getAllData_store _ _ Hstore),
      (get_member_absent _ _ _ Hkey Hin).
Qed.

Lemma absent_key_no_op_witness :
  reviewItem sample_clock sample_zone "a1_vocab_9" true sample_state =
    Return tt (mkState (Some (JObj sample_store)) [ErrorNotFound] [] 0) /\
  deleteItem "a1_vocab_9" sample_state = Return tt sample_state.
Proof.
  apply (absent_key_no_op sample_clock sample_zone "a1_vocab_9" true
           sample_state sample_store); reflexivity.
Defined.

(** ** Import *)

(** C6 as stated does not hold.  A file whose text is the JSON array [[]]
    parses, and once the user confirms, [importData] makes it the store and
    returns [true], without an alert. *)
Lemma importData_accepts_array :
  importData (Readable (JSONText (JArr []))) true sample_state =
  Return true (mkState (Some (JArr [])) [LogImported] [] 0).
Proof. reflexivity. Qed.

(** C6, amended.  [importData] rejects a file that cannot be read or whose
    text is not JSON: the error is logged, an alert is shown, [false] is
    returned and the store is left as it was.  A text that parses as JSON is
    accepted whatever its shape: when the user confirms, the parsed value
    becomes the store and [true] is returned; when the user declines,
    [false] is returned and nothing changes. *)
Theorem importData_outcomes (file : File) (confirmed : bool) (s : State) :
  importData file confirmed s =
  match file with
  | Unreadable =>
      Return false
        (mkState (storage s) (console s ++ [ErrorImport ReadError])
           (alerts s ++ [AlertImportFailed]) (ticks s))
  | Readable NotJSON =>
      Return false
        (mkState (storage s) (console s ++ [ErrorImport SyntaxError])
           (alerts s ++ [AlertImportFailed]) (ticks s))
  | Readable (JSONText data) =>
      if confirmed then
        Return true
          (mkState (Some data) (console s ++ [LogImported]) (alerts s)
             (ticks s))
      else Return false s
  end.
Proof.
  destruct file as [|[|data]]; try reflexivity.
  destruct confirmed; reflexivity.
Qed.

(** * Further properties of the methods *)

(** ** More on objects *)

Lemma obj_lookup_delete_same k o : obj_lookup k (obj_delete k o) = None.
Proof.
  induction o as [|[k0 v0] o IH]; [reflexivity|].
  cbn [obj_delete filter fst]. destruct (String.eqb k0 k) eqn:E; cbn [negb].
  - exact IH.
  - cbn [obj_lookup]. now rewrite E.
Qed.

Lemma obj_delete_absent k o : obj_lookup k o = None -> obj_delete k o = o.
Proof.
  induction o as [|[k0 v0] o IH]; [reflexivity|].
  cbn [obj_lookup obj_delete filter fst].
  destruct (String.eqb k0 k); [discriminate|]. intros H. cbn [negb].
  f_equal. now apply IH.
Qed.

Lemma obj_delete_app k o o' :
  obj_delete k (o ++ o') = obj_delete k o ++ obj_delete k o'.
Proof. apply filter_app. Qed.

Lemma obj_replace_replace k v v' o :
  obj_replace k v' (obj_replace k v o) = obj_replace k v' o.
Proof.
  induction o as [|[k0 v0] o IH]; [reflexivity|]. cbn [obj_replace].
  destruct (String.eqb k0 k) eqn:E; cbn [obj_replace]; rewrite E;
    [reflexivity|now rewrite IH].
Qed.

Lemma obj_replace_same k v o : obj_lookup k o = Some v -> obj_replace k v o = o.
Proof.
  induction o as [|[k0 v0] o IH]; [reflexivity|].
  cbn [obj_lookup obj_replace]. destruct (String.eqb k0 k).
  - now intros [= ->].
  - intros H. now rewrite IH.
Qed.

Lemma obj_replace_absent k v o : obj_lookup k o = None -> obj_replace k v o = o.
Proof.
  induction o as [|[k0 v0] o IH]; [reflexivity|].
  cbn [obj_lookup obj_replace]. destruct (String.eqb k0 k); [discriminate|].
  intros H. now rewrite IH.
Qed.

Lemma obj_replace_app k v o o' :
  obj_lookup k o <> None ->
  obj_replace k v (o ++ o') = obj_replace k v o ++ o'.
Proof.
  induction o as [|[k0 v0] o IH]; cbn [obj_lookup]; [congruence|].
  intros H. cbn [app obj_replace].
  destruct (String.eqb k0 k); [reflexivity|]. cbn [app]. now rewrite IH.
Qed.

Lemma obj_replace_comm k k' v v' o :
  k <> k' ->
  obj_replace k v (obj_replace k' v' o) = obj_replace k' v' (obj_replace k v o).
Proof.
  intros Hk. induction o as [|[k0 v0] o IH]; [reflexivity|].
  cbn [obj_replace].
  destruct (String.eqb k0 k') eqn:E', (String.eqb k0 k) eqn:E;
    cbn [obj_replace]; rewrite ?E, ?E'; try reflexivity.
  - apply String.eqb_eq in E, E'. congruence.
  - now rewrite IH.
Qed.

Lemma obj_replace_absent_app k v v' o :
  obj_lookup k o = None ->
  obj_replace k v' (o ++ [(k, v)]) = o ++ [(k, v')].
Proof.
  induction o as [|[k0 v0] o IH]; cbn [obj_lookup app obj_replace].
  - now rewrite String.eqb_refl.
  - destruct (String.eqb k0 k); [discriminate|]. intros H. now rewrite IH.
Qed.

Lemma obj_set_present k v o :
  obj_lookup k o <> None -> obj_set k v o = obj_replace k v o.
Proof. unfold obj_set. now destruct (obj_lookup k o). Qed.

Lemma obj_set_set k v v' o : obj_set k v' (obj_set k v o) = obj_set k v' o.
Proof.
  rewrite (obj_set_present k v' (obj_set k v o))
    by (rewrite obj_lookup_set_same; discriminate).
  unfold obj_set. destruct (obj_lookup k o) eqn:E.
  - apply obj_replace_replace.
  - rewrite obj_replace_absent_app by exact E. reflexivity.
Qed.

(** ** The runs of the writing methods *)

Lemma saveItem_new_run clock zone level type id key data s store :
  store_of s = Some store ->
  item_key level type id = Some key ->
  obj_lookup key store = None ->
  interpolates (obj_get data "english") = true ->
  valid_time (clock (ticks s)) ->
  valid_time (clock (S (ticks s))) ->
  valid_time (days_later zone 1 (clock (S (ticks s)))) ->
  valid_time (clock (S (S (ticks s)))) ->
  saveItem clock zone level type id data s =
  Return tt
    (mkState
       (Some (JObj (store ++
                    [(key,
                      new_item level type id data (clock (ticks s))
                        (days_later zone 1 (clock (S (ticks s))))
                        (clock (S (S (ticks s)))))])))
       (console s ++ [LogSaved (obj_get data "english")]) (alerts s)
       (S (S (S (ticks s))))).
Proof.
  intros Hstore Hid Hkey Hdata H0 H1 Hnext H2. unfold saveItem, bind.
  rewrite (getAllData_store _ _ Hstore), Hid. cbn [get_member_at].
  rewrite (get_member_absent _ _ _ Hkey
             (item_key_not_inherited _ _ _ _ Hid)).
  cbn [truthy described ret]. rewrite new_Date_run by exact H0.
  cbn [toISOString ret].
  rewrite (calculateNextReview_run clock zone (Num 0) 1) by
    (reflexivity || assumption).
  rewrite new_Date_run by exact H2.
  cbn [toISOString ret set_member get_member ticks].
  unfold obj_set. rewrite Hkey.
  unfold saveAllData, console_log, interpolate. rewrite Hdata.
  reflexivity.
Qed.

Lemma saveItem_existing_run clock zone level type id key data s store item :
  store_of s = Some store ->
  item_key level type id = Some key ->
  obj_lookup key store = Some (JObj item) ->
  interpolates (obj_get data "english") = true ->
  valid_time (clock (ticks s)) ->
  saveItem clock zone level type id data s =
  Return tt
    (mkState
       (Some (JObj (obj_replace key
                      (JObj (resaved data (clock (ticks s)) item)) store)))
       (console s ++ [LogSaved (obj_get data "english")]) (alerts s)
       (S (ticks s))).
Proof.
  intros Hstore Hid Hkey Hdata H0. unfold saveItem, bind.
  rewrite (getAllData_store _ _ Hstore), Hid. cbn [get_member_at].
  rewrite (get_member_own _ _ _ _ Hkey).
  cbn [truthy set_member described ret]. rewrite new_Date_run by exact H0.
  cbn [toISOString ret set_member get_member].
  unfold obj_set at 1. rewrite Hkey.
  unfold saveAllData, console_log, interpolate. rewrite Hdata.
  reflexivity.
Qed.

Lemma reviewItem_forgotten_run clock zone key s store item :
  store_of s = Some store ->
  obj_lookup key store = Some (JObj item) ->
  valid_time (clock (ticks s)) ->
  valid_time (clock (S (ticks s))) ->
  valid_time (days_later zone 1 (clock (S (ticks s)))) ->
  reviewItem clock zone key false s =
  Return tt
    (mkState
       (Some (JObj (obj_replace key
                      (JObj (after_review (clock (ticks s)) 0
                               (days_later zone 1 (clock (S (ticks s))))
                               item)) store)))
       (console s ++ [LogForgotten (Some 1)]) (alerts s) (S (S (ticks s)))).
Proof.
  intros Hstore Hkey H0 H1 Hnext. unfold reviewItem, bind.
  rewrite (getAllData_store _ _ Hstore), (get_member_own _ _ _ _ Hkey).
  cbn [truthy negb]. rewrite new_Date_run by exact H0.
  cbn [toISOString ret set_member].
  rewrite (calculateNextReview_run clock zone (Num 0) 1) by
    (reflexivity || assumption).
  cbn [ticks set_member ret array_get]. unfold console_log, saveAllData.
  cbn [set_member ret]. unfold obj_set at 1. rewrite Hkey. reflexivity.
Qed.

Lemma reviewItem_remembered_run clock zone key s store item n days :
  store_of s = Some store ->
  obj_lookup key store = Some (JObj item) ->
  count_of item = Some n ->
  - exact_bound <= n < exact_bound ->
  array_get intervals (Math_min (Num (n + 1)) (Num (intervals_length - 1)))
  = Some days ->
  valid_time (clock (ticks s)) ->
  valid_time (clock (S (ticks s))) ->
  valid_time (days_later zone days (clock (S (ticks s)))) ->
  reviewItem clock zone key true s =
  Return tt
    (mkState
       (Some (JObj (obj_replace key
                      (JObj (after_review (clock (ticks s)) (n + 1)
                               (days_later zone days (clock (S (ticks s))))
                               item)) store)))
       (console s ++ [LogRemembered (Some days)]) (alerts s)
       (S (S (ticks s)))).
Proof.
  intros Hstore Hkey Hcount Hn Hdays H0 H1 Hnext. unfold reviewItem, bind.
  rewrite (getAllData_store _ _ Hstore), (get_member_own _ _ _ _ Hkey).
  cbn [truthy negb]. rewrite new_Date_run by exact H0.
  cbn [toISOString ret set_member get_member].
  rewrite obj_get_set_other by discriminate.
  rewrite (count_of_get _ _ Hcount).
  cbn [to_number described ret number_succ].
  assert (Hexact : (- exact_bound <=? n) && (n <? exact_bound) = true).
  { apply andb_true_intro. split; [apply Z.leb_le | apply Z.ltb_lt]; lia. }
  rewrite Hexact. cbn [described ret number_json set_member].
  rewrite (calculateNextReview_run _ _ _ _ _ Hdays) by assumption.
  cbn [ticks set_member ret]. rewrite Hdays. unfold console_log, saveAllData.
  cbn [set_member ret]. unfold obj_set at 1. rewrite Hkey. reflexivity.
Qed.

Lemma deleteItem_run key s store :
  store_of s = Some store ->
  deleteItem key s =
  if truthy (obj_get store key) then
    Return tt
      (mkState (Some (JObj (obj_delete key store))) (console s ++ [LogDeleted])
         (alerts s) (ticks s))
  else Return tt s.
Proof.
  intros Hstore. unfold deleteItem, bind.
  rewrite (getAllData_store _ _ Hstore). cbn [get_member ret].
  now destruct (truthy (obj_get store key)).
Qed.

Lemma sample_clock_in_range : clock_in_range sample_clock sample_zone.
Proof.
  intros i. split; [vm_compute; split; discriminate|].
  intros days [<-|[<-|[<-|[<-|[<-|[]]]]]]; vm_compute; split; discriminate.
Qed.

Lemma obj_set_same_value k v o : obj_lookup k o = Some v -> obj_set k v o = o.
Proof.
  intros H. unfold obj_set. rewrite H. now apply obj_replace_same.
Qed.

Lemma obj_set_comm k k' v v' o :
  k <> k' -> obj_lookup k o <> None ->
  obj_set k v (obj_set k' v' o) = obj_set k' v' (obj_set k v o).
Proof.
  intros Hk Hp.
  rewrite (obj_set_present k v o Hp).
  rewrite (obj_set_present k v (obj_set k' v' o))
    by (rewrite obj_lookup_set_other by exact Hk; exact Hp).
  unfold obj_set. rewrite obj_lookup_replace_other by congruence.
  destruct (obj_lookup k' o).
  - now apply obj_replace_comm.
  - now apply obj_replace_app.
Qed.

(** ** Deleting *)

(** X1.  [deleteItem] on a key whose entry is an item (or any truthy value)
    removes that entry and nothing else, writes the store back and logs the
    deletion. *)
Theorem deleteItem_removes
  (key : string) (s : State) (store : object) (v : json) :
  store_of s = Some store ->
  obj_lookup key store = Some v ->
  truthy (Json v) = true ->
  deleteItem key s =
    Return tt
      (mkState (Some (JObj (obj_delete key store))) (console s ++ [LogDeleted])
         (alerts s) (ticks s)) /\
  obj_lookup key (obj_delete key store) = None /\
  (forall k, k <> key ->
             obj_lookup k (obj_delete key store) = obj_lookup k store).
Proof.
  intros Hstore Hkey Hv. split; [|split].
  - rewrite (deleteItem_run _ _ _ Hstore). unfold obj_get.
    now rewrite Hkey, Hv.
  - apply obj_lookup_delete_same.
  - intros k Hk. now apply obj_lookup_delete_other.
Qed.

Lemma deleteItem_removes_witness :
  deleteItem "b2_sentence_7" sample_state =
    Return tt
      (mkState (Some (JObj (obj_delete "b2_sentence_7" sample_store)))
         [LogDeleted] [] 0) /\
  map fst (obj_delete "b2_sentence_7" sample_store)
  = ["a1_vocab_1"; "a1_sentence_3"].
Proof.
  split; [|reflexivity].
  apply (deleteItem_removes "b2_sentence_7" sample_state sample_store
           (sample_item "b2" "sentence" 7 5 1695000000000 1698000000000));
    reflexivity.
Defined.

(** X2.  An entry whose value is falsy ([null], [false], 0, the empty
    string) is there for [for ... in] but not for the test [allData[key]]:
    [deleteItem] leaves it in the store and does nothing, and [reviewItem]
    reports the key as missing. *)
Theorem falsy_entry_is_missing
  (clock : nat -> Z) (zone : TimeZone) (key : string) (remembered : bool)
  (s : State) (store : object) (v : json) :
  store_of s = Some store ->
  obj_lookup key store = Some v ->
  truthy (Json v) = false ->
  deleteItem key s = Return tt s /\
  reviewItem clock zone key remembered s =
    Return tt
      (mkState (storage s) (console s ++ [ErrorNotFound]) (alerts s)
         (ticks s)).
Proof.
  intros Hstore Hkey Hv. split.
  - rewrite (deleteItem_run _ _ _ Hstore). unfold obj_get.
    now rewrite Hkey, Hv.
  - unfold reviewItem, bind.
    rewrite (getAllData_store _ _ Hstore), (get_member_own _ _ _ _ Hkey).
    now rewrite Hv.
Qed.

Lemma falsy_entry_is_missing_witness :
  let s := mkState (Some (JObj [("a1_vocab_1", JNull)])) [] [] 0 in
  deleteItem "a1_vocab_1" s = Return tt s /\
  reviewItem sample_clock sample_zone "a1_vocab_1" false s =
    Return tt
      (mkState (Some (JObj [("a1_vocab_1", JNull)])) [ErrorNotFound] [] 0).
Proof.
  apply (falsy_entry_is_missing sample_clock sample_zone "a1_vocab_1" false
           (mkState (Some (JObj [("a1_vocab_1", JNull)])) [] [] 0)
           [("a1_vocab_1", JNull)] JNull); reflexivity.
Defined.

(** ** Saving and removing *)

(** X3.  [removeItem] undoes [saveItem]: an item saved under a key that was
    not in the store is in the store afterwards, and removing it with the
    same level, type and id leaves the stored object as it was. *)
Theorem saveItem_removeItem
  (clock : nat -> Z) (zone : TimeZone) (level type : string) (id : Z)
  (key : string) (data : object) (s : State) (store : object) :
  clock_in_range clock zone ->
  store_of s = Some store ->
  item_key level type id = Some key ->
  obj_lookup key store = None ->
  interpolates (obj_get data "english") = true ->
  exists s1 store1 item s2,
    saveItem clock zone level type id data s = Return tt s1 /\
    storage s1 = Some (JObj store1) /\
    obj_lookup key store1 = Some (JObj item) /\
    obj_get item "data" = Json (JObj data) /\
    removeItem level type id s1 = Return tt s2 /\
    storage s2 = Some (JObj store).
Proof.
  intros Hclock Hstore Hid Hkey Hdata.
  pose proof (saveItem_new_run clock zone level type id key data s store
                Hstore Hid Hkey Hdata (proj1 (Hclock _)) (proj1 (Hclock _))
                (proj2 (Hclock _) 1 (or_introl eq_refl))
                (proj1 (Hclock _))) as Hrun.
  unfold new_item in Hrun.
  do 4 eexists. split; [exact Hrun|]. cbn [storage].
  split; [reflexivity|]. split.
  { rewrite obj_lookup_app, Hkey. cbn [obj_lookup].
    rewrite String.eqb_refl. reflexivity. }
  split; [reflexivity|]. split.
  - unfold removeItem, bind. rewrite Hid. cbn [described ret].
    rewrite deleteItem_run with
      (store := store ++ [(key,
                           new_item level type id data (clock (ticks s))
                             (days_later zone 1 (clock (S (ticks s))))
                             (clock (S (S (ticks s)))))]) by reflexivity.
    unfold obj_get. rewrite obj_lookup_app, Hkey.
    cbn [obj_lookup]. rewrite String.eqb_refl. cbn [truthy new_item].
    reflexivity.
  - cbn [storage]. rewrite obj_delete_app, obj_delete_absent by exact Hkey.
    cbn [obj_delete filter fst]. rewrite String.eqb_refl. cbn [negb].
    now rewrite app_nil_r.
Qed.

Lemma saveItem_removeItem_witness :
  exists s1 store1 item s2,
    saveItem sample_clock sample_zone "c1" "vocab" 4
      [("english", JStr "dog")] sample_state = Return tt s1 /\
    storage s1 = Some (JObj store1) /\
    obj_lookup "c1_vocab_4" store1 = Some (JObj item) /\
    obj_get item "data" = Json (JObj [("english", JStr "dog")]) /\
    removeItem "c1" "vocab" 4 s1 = Return tt s2 /\
    storage s2 = Some (JObj sample_store).
Proof.
  apply (saveItem_removeItem sample_clock sample_zone "c1" "vocab" 4
           "c1_vocab_4" [("english", JStr "dog")] sample_state sample_store).
  - exact sample_clock_in_range.
  - reflexivity.
  - reflexivity.
  - reflexivity.
  - reflexivity.
Defined.

(** X4.  While the clock stands still, saving the same data again changes
    nothing: the store after the first call of [saveItem] holds an item
    with the data under the key, and the store after a second call with
    the same arguments is the store after the first, whether the key was
    new or held an item. *)
Theorem saveItem_twice
  (clock : nat -> Z) (zone : TimeZone) (now : Z) (level type : string)
  (id : Z) (key : string) (data : object) (s : State) (store : object) :
  (forall i, clock i = now) ->
  valid_time now ->
  valid_time (days_later zone 1 now) ->
  store_of s = Some store ->
  item_key level type id = Some key ->
  (obj_lookup key store = None \/
   exists item, obj_lookup key store = Some (JObj item)) ->
  interpolates (obj_get data "english") = true ->
  exists s1 store1 item1 s2,
    saveItem clock zone level type id data s = Return tt s1 /\
    storage s1 = Some (JObj store1) /\
    obj_lookup key store1 = Some (JObj item1) /\
    obj_get item1 "data" = Json (JObj data) /\
    saveItem clock zone level type id data s1 = Return tt s2 /\
    storage s2 = storage s1.
Proof.
  intros Hclock Hnow Hnext Hstore Hid Hkey Hdata.
  assert (Hv : forall i, valid_time (clock i))
    by (intros i; now rewrite Hclock).
  assert (Hl : forall i, valid_time (days_later zone 1 (clock i)))
    by (intros i; now rewrite Hclock).
  destruct Hkey as [Hkey|[item Hkey]].
  - do 4 eexists. split; [|split; [|split; [|split; [|split]]]].
    + now apply (saveItem_new_run clock zone level type id key data s store).
    + reflexivity.
    + rewrite obj_lookup_app, Hkey. cbn [obj_lookup new_item].
      rewrite String.eqb_refl. reflexivity.
    + reflexivity.
    + eapply saveItem_existing_run;
        [reflexivity | exact Hid | | exact Hdata | apply Hv].
      rewrite obj_lookup_app, Hkey. cbn [obj_lookup new_item].
      now rewrite String.eqb_refl.
    + cbn [storage ticks]. rewrite !Hclock.
      rewrite obj_replace_absent_app by exact Hkey. reflexivity.
  - do 4 eexists. split; [|split; [|split; [|split; [|split]]]].
    + now apply (saveItem_existing_run clock zone level type id key data s
                   store item).
    + reflexivity.
    + apply obj_lookup_replace_same. congruence.
    + unfold resaved. rewrite obj_get_set_other by discriminate.
      apply obj_get_set_same.
    + eapply saveItem_existing_run;
        [reflexivity | exact Hid | | exact Hdata | apply Hv].
      apply obj_lookup_replace_same. congruence.
    + cbn [storage ticks]. rewrite !Hclock, obj_replace_replace.
      unfold resaved.
      rewrite (obj_set_same_value "data")
        by (rewrite obj_lookup_set_other by discriminate;
            apply obj_lookup_set_same).
      now rewrite obj_set_set.
Qed.

Lemma saveItem_twice_witness :
  exists s1 store1 item1 s2,
    saveItem sample_clock sample_zone "a1" "vocab" 1
      [("english", JStr "dog")] sample_state = Return tt s1 /\
    storage s1 = Some (JObj store1) /\
    obj_lookup "a1_vocab_1" store1 = Some (JObj item1) /\
    obj_get item1 "data" = Json (JObj [("english", JStr "dog")]) /\
    saveItem sample_clock sample_zone "a1" "vocab" 1
      [("english", JStr "dog")] s1 = Return tt s2 /\
    storage s2 = storage s1.
Proof.
  apply (saveItem_twice sample_clock sample_zone 1700000000000 "a1" "vocab" 1
           "a1_vocab_1" [("english", JStr "dog")] sample_state sample_store).
  - reflexivity.
  - vm_compute. split; discriminate.
  - vm_compute. split; discriminate.
  - reflexivity.
  - reflexivity.
  - right. eexists. reflexivity.
  - reflexivity.
Defined.

(** ** Reviewing *)

Lemma calculateNextReview_no_rung clock zone reviewCount s :
  array_get intervals (Math_min reviewCount (Num (intervals_length - 1)))
  = None ->
  calculateNextReview clock zone reviewCount s = Throw RangeError (ticked 1 s).
Proof.
  intros H. unfold calculateNextReview, bind, new_Date. rewrite H.
  now destruct (TimeClip (clock (ticks s))).
Qed.

(** X5.  Outside the ladder [calculateNextReview] throws: for a negative
    [reviewCount] and for NaN the interval is [undefined], the date becomes
    invalid and [toISOString] raises a RangeError.  The clock has been read
    once by then; nothing else has happened. *)
Theorem calculateNextReview_outside_ladder
  (clock : nat -> Z) (zone : TimeZone) (s : State) :
  (forall z, z < 0 ->
             calculateNextReview clock zone (Num z) s =
             Throw RangeError (ticked 1 s)) /\
  calculateNextReview clock zone NaN s = Throw RangeError (ticked 1 s).
Proof.
  split.
  - intros z Hz. apply calculateNextReview_no_rung.
    change (intervals_length - 1) with 4.
    cbn [Math_min array_get]. rewrite Z.min_l by lia.
    apply Z.ltb_lt in Hz. now rewrite Hz.
  - now apply calculateNextReview_no_rung.
Qed.

(** X6.  An item without a [reviewCount], or with one below -1, cannot be
    advanced: [reviewItem(key, true)] throws the RangeError of
    [calculateNextReview] before the store is written, so the store, the
    console and the alerts are as before. *)
Theorem reviewItem_without_count
  (clock : nat -> Z) (zone : TimeZone) (key : string)
  (s : State) (store item : object) :
  store_of s = Some store ->
  obj_lookup key store = Some (JObj item) ->
  valid_time (clock (ticks s)) ->
  (obj_lookup "reviewCount" item = None \/
   exists n, count_of item = Some n /\ - exact_bound <= n < - 1) ->
  reviewItem clock zone key true s = Throw RangeError (ticked 2 s).
Proof.
  intros Hstore Hkey H0 Hcount. unfold reviewItem, bind.
  rewrite (getAllData_store _ _ Hstore), (get_member_own _ _ _ _ Hkey).
  cbn [truthy negb]. rewrite new_Date_run by exact H0.
  cbn [toISOString ret set_member get_member].
  rewrite obj_get_set_other by discriminate.
  destruct Hcount as [Hnone|(n & Hn & Hlo & Hhi)].
  - assert (Hu : obj_get item "reviewCount" = Undefined)
      by (unfold obj_get; now rewrite Hnone).
    rewrite Hu.
    cbn [to_number described ret number_succ number_json set_member].
    unfold described, ret.
    rewrite calculateNextReview_no_rung by reflexivity. reflexivity.
  - rewrite (count_of_get _ _ Hn).
    cbn [to_number described ret number_succ].
    assert (Hexact : (- exact_bound <=? n) && (n <? exact_bound) = true).
    { apply andb_true_intro.
      split; [apply Z.leb_le | apply Z.ltb_lt]; unfold exact_bound in *; lia. }
    rewrite Hexact. cbn [described ret number_json set_member].
    rewrite calculateNextReview_no_rung; [reflexivity|].
    change (intervals_length - 1) with 4.
    cbn [Math_min array_get]. rewrite Z.min_l by lia.
    assert (Hneg : (n + 1 <? 0) = true) by (apply Z.ltb_lt; lia).
    now rewrite Hneg.
Qed.

Lemma reviewItem_without_count_witness :
  let s := mkState (Some (JObj [("a1_vocab_1", JObj [("level", JStr "a1")])]))
             [] [] 0 in
  reviewItem sample_clock sample_zone "a1_vocab_1" true s =
  Throw RangeError (ticked 2 s).
Proof.
  apply (reviewItem_without_count sample_clock sample_zone "a1_vocab_1"
           (mkState (Some (JObj [("a1_vocab_1", JObj [("level", JStr "a1")])]))
              [] [] 0)
           [("a1_vocab_1", JObj [("level", JStr "a1")])]
           [("level", JStr "a1")]).
  - reflexivity.
  - reflexivity.
  - vm_compute. split; discriminate.
  - left. reflexivity.
Defined.

Lemma reviewItem_run clock zone key (remembered : bool) s store item n :
  clock_in_range clock zone ->
  store_of s = Some store ->
  obj_lookup key store = Some (JObj item) ->
  count_of item = Some n ->
  0 <= n < exact_bound ->
  let reviewCount := if remembered then n + 1 else 0 in
  exists days,
    rung reviewCount = Some days /\
    reviewItem clock zone key remembered s =
    Return tt
      (mkState
         (Some (JObj (obj_replace key
                        (JObj (after_review (clock (ticks s)) reviewCount
                                 (days_later zone days (clock (S (ticks s))))
                                 item)) store)))
         (console s ++
          [if remembered then LogRemembered (Some days)
           else LogForgotten (Some 1)])
         (alerts s) (S (S (ticks s)))).
Proof.
  intros Hclock Hstore Hkey Hcount Hn reviewCount.
  assert (Hc : 0 <= reviewCount)
    by (subst reviewCount; destruct remembered; lia).
  destruct (rung_cases reviewCount Hc) as (days & Hr & Hi & Ha & _ & H0).
  exists days. split; [exact Hr|].
  destruct remembered; subst reviewCount.
  - apply (reviewItem_remembered_run clock zone key s store item n days
             Hstore Hkey Hcount);
      [unfold exact_bound in *; lia | exact Ha | apply Hclock | apply Hclock
      | now apply (proj2 (Hclock _))].
  - rewrite (H0 eq_refl).
    apply (reviewItem_forgotten_run clock zone key s store item Hstore Hkey);
      [apply Hclock | apply Hclock | apply (proj2 (Hclock _)); now left].
Qed.

(** X7.  A review touches one item only: the store written back has the
    same keys in the same order, and every other key holds what it held. *)
Theorem reviewItem_frame
  (clock : nat -> Z) (zone : TimeZone) (key : string) (remembered : bool)
  (s : State) (store item : object) (n : Z) :
  clock_in_range clock zone ->
  store_of s = Some store ->
  obj_lookup key store = Some (JObj item) ->
  count_of item = Some n ->
  0 <= n < exact_bound ->
  exists s' store',
    reviewItem clock zone key remembered s = Return tt s' /\
    storage s' = Some (JObj store') /\
    map fst store' = map fst store /\
    (forall k, k <> key -> obj_lookup k store' = obj_lookup k store) /\
    alerts s' = alerts s.
Proof.
  intros Hclock Hstore Hkey Hcount Hn.
  destruct (reviewItem_run clock zone key remembered s store item n)
    as (days & _ & Hrun); auto.
  do 2 eexists. split; [exact Hrun|]. cbn [storage alerts].
  split; [reflexivity|]. split; [apply obj_replace_keys|]. split; auto.
  intros k Hk. now apply obj_lookup_replace_other.
Qed.

Lemma reviewItem_frame_witness :
  exists s' store',
    reviewItem sample_clock sample_zone "b2_sentence_7" true sample_state =
      Return tt s' /\
    storage s' = Some (JObj store') /\
    map fst store' = ["a1_vocab_1"; "b2_sentence_7"; "a1_sentence_3"] /\
    obj_lookup "a1_vocab_1" store' = obj_lookup "a1_vocab_1" sample_store.
Proof.
  destruct (reviewItem_frame sample_clock sample_zone "b2_sentence_7" true
              sample_state sample_store
              [ ("level", JStr "b2");
                ("type", JStr "sentence");
                ("id", JNum 7);
                ("data", JObj [("english", JStr "cat")]);
                ("savedDate", JStr (iso_format 1695000000000));
                ("lastReviewed", JNull);
                ("reviewCount", JNum 5);
                ("nextReviewDate", JStr (iso_format 1698000000000));
                ("lastModified", JStr (iso_format 1695000000000)) ]
              5)
    as (s' & store' & Hrun & Hs & Hkeys & Hother & _).
  - exact sample_clock_in_range.
  - reflexivity.
  - reflexivity.
  - reflexivity.
  - unfold exact_bound. lia.
  - exists s', store'. repeat split; auto.
    apply Hother. discriminate.
Defined.

Lemma after_review_twice a c d c' d' item :
  after_review a c' d' (after_review a c d item) = after_review a c' d' item.
Proof.
  unfold after_review.
  set (o1 := obj_set "lastReviewed" (JStr (iso_format a)) item).
  set (A := obj_set "nextReviewDate" (JStr (iso_format d))
              (obj_set "reviewCount" (JNum c) o1)).
  rewrite (obj_set_same_value "lastReviewed" _ A).
  2: { unfold A. rewrite !obj_lookup_set_other by discriminate.
       apply obj_lookup_set_same. }
  unfold A.
  rewrite (obj_set_comm "reviewCount" "nextReviewDate")
    by (try discriminate; rewrite obj_lookup_set_same; discriminate).
  now rewrite !obj_set_set.
Qed.

Lemma count_of_after_review a c d item :
  count_of (after_review a c d item) = Some c.
Proof.
  unfold count_of, after_review.
  rewrite obj_get_set_other by discriminate. now rewrite obj_get_set_same.
Qed.

(** X8.  Forgetting erases all progress.  While the clock stands still, the
    store after a successful review followed by a failed one is the store
    after the failed review alone: nothing of the earlier success is
    kept. *)
Theorem forgotten_after_remembered
  (clock : nat -> Z) (zone : TimeZone) (now : Z) (key : string)
  (s : State) (store item : object) (n : Z) :
  (forall i, clock i = now) ->
  clock_in_range clock zone ->
  store_of s = Some store ->
  obj_lookup key store = Some (JObj item) ->
  count_of item = Some n ->
  0 <= n < exact_bound ->
  exists s1 s2 s3,
    reviewItem clock zone key true s = Return tt s1 /\
    reviewItem clock zone key false s1 = Return tt s2 /\
    reviewItem clock zone key false s = Return tt s3 /\
    storage s2 = storage s3.
Proof.
  intros Hfrozen Hclock Hstore Hkey Hcount Hn.
  destruct (reviewItem_run clock zone key true s store item n)
    as (days & _ & Hrun1); auto.
  assert (Hl : forall i, valid_time (days_later zone 1 (clock i)))
    by (intros i; apply (proj2 (Hclock i)); now left).
  do 3 eexists. split; [exact Hrun1|]. split; [|split].
  - eapply reviewItem_forgotten_run;
      [reflexivity | | apply Hclock | apply Hclock | apply Hl].
    apply obj_lookup_replace_same. congruence.
  - apply (reviewItem_forgotten_run clock zone key s store item Hstore Hkey);
      [apply Hclock | apply Hclock | apply Hl].
  - cbn [storage ticks]. rewrite !Hfrozen.
    now rewrite obj_replace_replace, after_review_twice.
Qed.

Lemma forgotten_after_remembered_witness :
  exists s1 s2 s3,
    reviewItem sample_clock sample_zone "b2_sentence_7" true sample_state =
      Return tt s1 /\
    reviewItem sample_clock sample_zone "b2_sentence_7" false s1 =
      Return tt s2 /\
    reviewItem sample_clock sample_zone "b2_sentence_7" false sample_state =
      Return tt s3 /\
    storage s2 = storage s3.
Proof.
  apply (forgotten_after_remembered sample_clock sample_zone 1700000000000
           "b2_sentence_7" sample_state sample_store
           [ ("level", JStr "b2");
             ("type", JStr "sentence");
             ("id", JNum 7);
             ("data", JObj [("english", JStr "cat")]);
             ("savedDate", JStr (iso_format 1695000000000));
             ("lastReviewed", JNull);
             ("reviewCount", JNum 5);
             ("nextReviewDate", JStr (iso_format 1698000000000));
             ("lastModified", JStr (iso_format 1695000000000)) ]
           5).
  - reflexivity.
  - exact sample_clock_in_range.
  - reflexivity.
  - reflexivity.
  - reflexivity.
  - unfold exact_bound. lia.
Defined.

Lemma remembered_times_run clock zone now key k :
  (forall i, clock i = now) ->
  clock_in_range clock zone ->
  forall s store item n,
    store_of s = Some store ->
    obj_lookup key store = Some (JObj item) ->
    count_of item = Some n ->
    0 <= n ->
    n + Z.of_nat k < exact_bound ->
    exists s' item',
      remembered_times clock zone key k s = Return tt s' /\
      storage s' =
        match k with
        | O => storage s
        | S _ => Some (JObj (obj_replace key (JObj item') store))
        end /\
      (k = O -> item' = item) /\
      count_of item' = Some (n + Z.of_nat k) /\
      (k <> O ->
       exists days,
         rung (n + Z.of_nat k) = Some days /\
         obj_get item' "nextReviewDate" =
         Json (JStr (iso_format (days_later zone days now)))).
Proof.
  intros Hfrozen Hclock. induction k as [|k IH];
    intros s store item n Hstore Hkey Hcount Hn Hk.
  - exists s, item. cbn [remembered_times ret]. repeat split; auto.
    + now rewrite Z.add_0_r.
    + congruence.
  - destruct (reviewItem_run clock zone key true s store item n)
      as (days & Hr & Hrun); auto; [lia|].
    cbn [remembered_times]. unfold bind. rewrite Hrun.
    set (item1 := after_review (clock (ticks s)) (n + 1)
                    (days_later zone days (clock (S (ticks s)))) item) in *.
    set (s1 := mkState (Some (JObj (obj_replace key (JObj item1) store)))
                 (console s ++ [LogRemembered (Some days)]) (alerts s)
                 (S (S (ticks s)))) in *.
    destruct (IH s1 (obj_replace key (JObj item1) store) item1 (n + 1))
      as (s' & item' & Hrun' & Hs' & Hzero & Hcount' & Hnext).
    + reflexivity.
    + apply obj_lookup_replace_same. congruence.
    + apply count_of_after_review.
    + lia.
    + lia.
    + exists s', item'. split; [exact Hrun'|].
      replace (n + Z.of_nat (S k)) with (n + 1 + Z.of_nat k) by lia.
      split; [|split; [discriminate|split; [exact Hcount'|]]].
      * rewrite Hs'. destruct k; [|now rewrite obj_replace_replace].
        cbn [s1 storage]. now rewrite (Hzero eq_refl).
      * intros _. destruct k as [|k]; [|apply Hnext; discriminate].
        rewrite (Hzero eq_refl), Z.add_0_r. exists days. split; [exact Hr|].
        unfold item1, after_review. rewrite obj_get_set_same.
        now rewrite !Hfrozen.
Qed.

(** X9.  The count has no ceiling, the interval has.  While the clock
    stands still, [k >= 1] successful reviews in a row of an item with
    count [n] leave under its key an item with count [n + k] and the next
    review [intervals[min(n + k, 4)]] days away: 30 days from the fourth
    success on, however many follow.  The other keys hold what they
    held. *)
Theorem remembered_times_ladder
  (clock : nat -> Z) (zone : TimeZone) (now : Z) (key : string) (k : nat)
  (s : State) (store item : object) (n : Z) :
  (forall i, clock i = now) ->
  clock_in_range clock zone ->
  store_of s = Some store ->
  obj_lookup key store = Some (JObj item) ->
  count_of item = Some n ->
  0 <= n ->
  n + Z.of_nat (S k) < exact_bound ->
  exists s' store' item' days,
    remembered_times clock zone key (S k) s = Return tt s' /\
    storage s' = Some (JObj store') /\
    obj_lookup key store' = Some (JObj item') /\
    map fst store' = map fst store /\
    (forall k', k' <> key -> obj_lookup k' store' = obj_lookup k' store) /\
    obj_get item' "reviewCount" = Json (JNum (n + Z.of_nat (S k))) /\
    rung (n + Z.of_nat (S k)) = Some days /\
    obj_get item' "nextReviewDate" =
      Json (JStr (iso_format
                    (UTC zone (LocalTime zone now + days * 86400000)))) /\
    (4 <= n + Z.of_nat (S k) -> days = 30).
Proof.
  intros Hfrozen Hclock Hstore Hkey Hcount Hn Hk.
  destruct (remembered_times_run clock zone now key (S k) Hfrozen Hclock
              s store item n Hstore Hkey Hcount Hn Hk)
    as (s' & item' & Hrun & Hs & _ & Hc & Hnext).
  destruct (Hnext ltac:(discriminate)) as (days & Hr & Hd).
  exists s', (obj_replace key (JObj item') store), item', days.
  split; [exact Hrun|]. split; [exact Hs|].
  split; [apply obj_lookup_replace_same; congruence|].
  split; [apply obj_replace_keys|].
  split; [intros k' Hk'; now apply obj_lookup_replace_other|].
  split; [now apply count_of_get|].
  split; [exact Hr|]. split; [exact Hd|].
  intros H4.
  destruct (rung_cases (n + Z.of_nat (S k)) ltac:(lia))
    as (days' & Hr' & _ & _ & H30 & _).
  rewrite Hr in Hr'. injection Hr' as <-. now apply H30.
Qed.

Lemma remembered_times_ladder_witness :
  exists s' store' item',
    remembered_times sample_clock sample_zone "a1_sentence_3" 6 sample_state =
      Return tt s' /\
    storage s' = Some (JObj store') /\
    obj_lookup "a1_sentence_3" store' = Some (JObj item') /\
    obj_lookup "a1_vocab_1" store' = obj_lookup "a1_vocab_1" sample_store /\
    obj_get item' "reviewCount" = Json (JNum 6) /\
    obj_get item' "nextReviewDate" = Json (JStr "2023-12-14T22:13:20.000Z").
Proof.
  destruct (remembered_times_ladder sample_clock sample_zone 1700000000000
              "a1_sentence_3" 5 sample_state sample_store
              [ ("level", JStr "a1");
                ("type", JStr "sentence");
                ("id", JNum 3);
                ("data", JObj [("english", JStr "cat")]);
                ("savedDate", JStr (iso_format 1699990000000));
                ("lastReviewed", JNull);
                ("reviewCount", JNum 0);
                ("nextReviewDate", JStr (iso_format 1700076400000));
                ("lastModified", JStr (iso_format 1699990000000)) ]
              0)
    as (s' & store' & item' & days & Hrun & Hs & Hl & _ & Hf & Hc & _ & Hd
        & H30).
  - reflexivity.
  - exact sample_clock_in_range.
  - reflexivity.
  - reflexivity.
  - reflexivity.
  - lia.
  - vm_compute. reflexivity.
  - exists s', store', item'.
    split; [exact Hrun|]. split; [exact Hs|]. split; [exact Hl|].
    split; [apply Hf; discriminate|]. split; [exact Hc|].
    rewrite Hd, H30 by (vm_compute; discriminate). reflexivity.
Defined.

(** ** Resetting *)

(** X10.  [resetAll] does nothing and returns [false] when the user
    declines.  When the user confirms it removes the entry, logs that and
    returns [true]; from then on [getAllItems] and [getDueItems] return no
    item, whatever the filters. *)
Theorem resetAll_empties
  (clock : nat -> Z) (level type : value) (s : State) :
  resetAll false s = Return false s /\
  exists s',
    resetAll true s = Return true s' /\
    storage s' = None /\
    console s' = console s ++ [LogReset] /\
    getAllItems level type s' = Return [] s' /\
    getDueItems clock level type s' = Return [] (ticked 1 s').
Proof.
  split; [reflexivity|]. eexists. split; [reflexivity|].
  cbn [storage console]. repeat split.
Qed.

(** ** The methods that only read *)

Lemma same_page_refl s : same_page s s.
Proof. now repeat split. Qed.

Lemma same_page_trans s1 s2 s3 :
  same_page s1 s2 -> same_page s2 s3 -> same_page s1 s3.
Proof.
  unfold same_page. intros (A & B & C) (D & E & F).
  repeat split; congruence.
Qed.

Lemma read_only_ret {A} (a : A) : read_only (ret a).
Proof. intros s. apply same_page_refl. Qed.

Lemma read_only_throw {A} e : read_only (@throw A e).
Proof. intros s. apply same_page_refl. Qed.

Lemma read_only_unmodelled {A} : read_only (@unmodelled A).
Proof. intros s. exact I. Qed.

Lemma read_only_bind {A B} (c : M A) (k : A -> M B) :
  read_only c -> (forall a, read_only (k a)) -> read_only (bind c k).
Proof.
  intros Hc Hk s. unfold bind. specialize (Hc s).
  destruct (c s) as [a s1|e s1|]; auto.
  specialize (Hk a s1). destruct (k a s1); auto;
    eapply same_page_trans; eauto.
Qed.

Lemma read_only_described {A} (o : option A) : read_only (described o).
Proof. destruct o; [apply read_only_ret|apply read_only_unmodelled]. Qed.

Lemma read_only_get_member v k : read_only (get_member v k).
Proof.
  destruct v as [| | |[]]; cbn [get_member];
    first [apply read_only_ret | apply read_only_throw
          | apply read_only_unmodelled].
Qed.

Lemma read_only_new_Date clock : read_only (new_Date clock).
Proof. intros s. now repeat split. Qed.

Lemma read_only_getAllData : read_only getAllData.
Proof. intros s. apply same_page_refl. Qed.

Lemma read_only_for_in_entries v : read_only (for_in_entries v).
Proof.
  destruct v; cbn [for_in_entries];
    first [apply read_only_ret | apply read_only_unmodelled].
Qed.

Lemma read_only_spread key item : read_only (spread key item).
Proof.
  destruct item; cbn [spread];
    first [apply read_only_ret | apply read_only_unmodelled].
Qed.

Lemma read_only_filtered_out filter item name :
  read_only (filtered_out filter item name).
Proof.
  unfold filtered_out. destruct (truthy filter); [|apply read_only_ret].
  apply read_only_bind; [apply read_only_get_member|].
  intros a. apply read_only_ret.
Qed.

Lemma read_only_date_le d today : read_only (date_le d today).
Proof. apply read_only_ret. Qed.

Lemma read_only_for_each {A B} (body : A -> B -> M B) l acc :
  (forall x acc, read_only (body x acc)) -> read_only (for_each l body acc).
Proof.
  intros H. revert acc. induction l as [|x l IH]; intros acc;
    cbn [for_each]; [apply read_only_ret|].
  apply read_only_bind; auto.
Qed.

Lemma read_only_filter_count {A} (test : A -> M bool) items :
  (forall x, read_only (test x)) -> read_only (filter_count test items).
Proof.
  intros H. induction items as [|x items IH]; cbn [filter_count];
    [apply read_only_ret|].
  apply read_only_bind; auto. intros b.
  apply read_only_bind; auto. intros n. apply read_only_ret.
Qed.

Lemma read_only_sort_by_date name descending items :
  read_only (sort_by_date name descending items).
Proof.
  unfold sort_by_date. destruct items as [|a [|b items]];
    try apply read_only_ret.
  apply read_only_bind; [apply read_only_described|].
  intros keyed. apply read_only_ret.
Qed.

Lemma read_only_getDueItems clock level type :
  read_only (getDueItems clock level type).
Proof.
  unfold getDueItems.
  apply read_only_bind; [apply read_only_getAllData|intros allData].
  apply read_only_bind; [apply read_only_new_Date|intros today].
  apply read_only_bind; [apply read_only_for_in_entries|intros entries].
  apply read_only_bind; [|intros dueItems; apply read_only_sort_by_date].
  apply read_only_for_each. intros [key item] acc. unfold getDueItems_step.
  apply read_only_bind; [apply read_only_get_member|intros next].
  apply read_only_bind; [apply read_only_described|intros nextReview].
  apply read_only_bind; [apply read_only_filtered_out|intros [|]];
    [apply read_only_ret|].
  apply read_only_bind; [apply read_only_filtered_out|intros [|]];
    [apply read_only_ret|].
  apply read_only_bind; [apply read_only_date_le|intros [|]];
    [|apply read_only_ret].
  apply read_only_bind; [apply read_only_spread|intros o].
  apply read_only_ret.
Qed.

Lemma read_only_getAllItems level type : read_only (getAllItems level type).
Proof.
  unfold getAllItems.
  apply read_only_bind; [apply read_only_getAllData|intros allData].
  apply read_only_bind; [apply read_only_for_in_entries|intros entries].
  apply read_only_bind; [|intros items; apply read_only_sort_by_date].
  apply read_only_for_each. intros [key item] acc. unfold getAllItems_step.
  apply read_only_bind; [apply read_only_filtered_out|intros [|]];
    [apply read_only_ret|].
  apply read_only_bind; [apply read_only_filtered_out|intros [|]];
    [apply read_only_ret|].
  apply read_only_bind; [apply read_only_spread|intros o].
  apply read_only_ret.
Qed.

Lemma read_only_getStatistics clock level :
  read_only (getStatistics clock level).
Proof.
  unfold getStatistics.
  apply read_only_bind; [apply read_only_getAllItems|intros allItems].
  apply read_only_bind; [apply read_only_getDueItems|intros dueItems].
  apply read_only_bind; [|intros reviewed].
  { apply read_only_filter_count. intros item. unfold reviewCount_gt.
    apply read_only_bind; [apply read_only_described|].
    intros c. apply read_only_ret. }
  apply read_only_bind; [|intros mastered].
  { apply read_only_filter_count. intros item. unfold reviewCount_ge.
    apply read_only_bind; [apply read_only_described|].
    intros c. apply read_only_ret. }
  apply read_only_bind; [|intros byLevel; apply read_only_ret].
  apply read_only_for_each. intros lvl acc. unfold getStatistics_level.
  apply read_only_bind; [apply read_only_getAllItems|intros levelItems].
  apply read_only_bind; [apply read_only_getDueItems|intros levelDue].
  apply read_only_bind; [|intros vocab].
  { apply read_only_filter_count. intros item. apply read_only_ret. }
  apply read_only_bind; [|intros sentences; apply read_only_ret].
  apply read_only_filter_count. intros item. apply read_only_ret.
Qed.

(** ** A store that is not an object *)

(** X12.  When the stored text is [null] (an import accepts it), the store
    reads as [null]: [saveItem], [reviewItem] and [deleteItem] throw a
    TypeError at [allData[key]] without writing or logging anything, while
    [getAllItems] and [getDueItems] find nothing to enumerate and return no
    item. *)
Theorem null_store
  (clock : nat -> Z) (zone : TimeZone) (level type key : string) (id : Z)
  (data : object) (remembered : bool) (byLevel byType : value) (s : State) :
  storage s = Some JNull ->
  saveItem clock zone level type id data s = Throw TypeError s /\
  reviewItem clock zone key remembered s = Throw TypeError s /\
  deleteItem key s = Throw TypeError s /\
  getAllItems byLevel byType s = Return [] s /\
  getDueItems clock byLevel byType s = Return [] (ticked 1 s).
Proof.
  intros H.
  assert (Hall : getAllData s = Return JNull s)
    by (unfold getAllData; now rewrite H).
  repeat split.
  - unfold saveItem, bind. rewrite Hall. unfold get_member_at.
    now destruct (item_key level type id).
  - unfold reviewItem, bind. now rewrite Hall.
  - unfold deleteItem, bind. now rewrite Hall.
  - unfold getAllItems, bind. now rewrite Hall.
  - unfold getDueItems, bind. now rewrite Hall.
Qed.

Lemma null_store_witness :
  exists s,
    importData (Readable (JSONText JNull)) true sample_state = Return true s /\
    saveItem sample_clock sample_zone "a1" "vocab" 1 [("english", JStr "cat")]
      s = Throw TypeError s /\
    getAllItems Undefined Undefined s = Return [] s.
Proof.
  eexists. split; [reflexivity|].
  destruct (null_store sample_clock sample_zone "a1" "vocab" "a1_vocab_1" 1
              [("english", JStr "cat")] true Undefined Undefined
              (mkState (Some JNull) [LogImported] [] 0))
    as (Hsave & _ & _ & Hall & _).
  - reflexivity.
  - split; [exact Hsave|exact Hall].
Defined.

(** ** Composite keys *)

Lemma decimal_inj z z' : decimal z = decimal z' -> z = z'.
Proof.
  unfold decimal. intros H.
  assert (N : forall n, Z.to_int n <> Decimal.Pos Decimal.Nil /\
                        Z.to_int n <> Decimal.Neg Decimal.Nil).
  { intros [|p|p]; cbn; split; try discriminate;
      intros [= E]; now apply (Unsigned.to_uint_nonnil p). }
  apply DecimalZ.to_int_inj.
  pose proof (NilZero.isi (Z.to_int z) (proj1 (N z)) (proj2 (N z))) as A.
  pose proof (NilZero.isi (Z.to_int z') (proj1 (N z')) (proj2 (N z'))) as B.
  rewrite H in A. congruence.
Qed.

Lemma split_at_underscore a b a' b' :
  has_underscore a = false -> has_underscore a' = false ->
  (a ++ "_" ++ b)%string = (a' ++ "_" ++ b')%string -> a = a' /\ b = b'.
Proof.
  revert a'. induction a as [|c a IH]; intros [|c' a'];
    cbn [has_underscore String.append]; intros Ha Ha' H.
  - injection H as ->. now split.
  - injection H as <- _. now rewrite Ascii.eqb_refl in Ha'.
  - injection H as -> _. now rewrite Ascii.eqb_refl in Ha.
  - injection H as -> H. apply orb_false_elim in Ha, Ha'.
    destruct (IH a' (proj2 Ha) (proj2 Ha') H) as [-> ->]. now split.
Qed.

(** X13.  Distinct items have distinct keys, as long as neither [level] nor
    [type] holds an underscore (none of the six levels and two types does)
    and the ids are safe integers: the composite keys of two items are
    equal exactly when level, type and id are. *)
Theorem item_key_injective
  (level type level' type' : string) (id id' : Z) (key key' : string) :
  has_underscore level = false ->
  has_underscore type = false ->
  has_underscore level' = false ->
  has_underscore type' = false ->
  item_key level type id = Some key ->
  item_key level' type' id' = Some key' ->
  key = key' <-> level = level' /\ type = type' /\ id = id'.
Proof.
  intros Hl Ht Hl' Ht' Hk Hk'. split.
  - intros E. apply item_key_safe in Hk, Hk'.
    destruct Hk as [_ Hk], Hk' as [_ Hk']. rewrite Hk, Hk' in E.
    destruct (split_at_underscore _ _ _ _ Hl Hl' E) as [-> H1].
    destruct (split_at_underscore _ _ _ _ Ht Ht' H1) as [-> H2].
    repeat split. now apply decimal_inj.
  - intros (-> & -> & ->). congruence.
Qed.

Lemma item_key_injective_witness :
  "a1_vocab_1" = "a1_vocab_11" <-> "a1" = "a1" /\ "vocab" = "vocab" /\ 1 = 11.
Proof.
  apply (item_key_injective "a1" "vocab" "a1" "vocab" 1 11);
    reflexivity.
Defined.

(** With an underscore in them, two pairs of level and type can meet in one
    key. *)
Example item_key_collision : item_key "a_b" "c" 1 = item_key "a" "b_c" 1.
Proof. reflexivity. Qed.

(** ** Consistency of the queries *)

Lemma getStatistics_run clock now level s store :
  (forall i, clock i = now) ->
  valid_time now ->
  store_of s = Some store ->
  review_store store = true ->
  exists stats,
    getStatistics clock level s = Return stats (ticked 7 s) /\
    byLevel stats = map (level_report now store) levels /\
    total stats = List.length (matching level Undefined store) /\
    dueToday stats =
      List.length (filter (due now) (matching level Undefined store)) /\
    reviewed stats =
      List.length (filter reviewed_item (matching level Undefined store)) /\
    mastered stats =
      List.length (filter mastered_item (matching level Undefined store)).
Proof.
  intros Hclock Hnow Hstore Hwf.
  set (items := matching level Undefined store).
  set (sorted := sorted_by_date "savedDate" true items).
  assert (P : Permutation sorted items) by apply sorted_by_date_perm.
  assert (C : Forall (fun item => exists n, count_of item = Some n) sorted).
  { eapply Permutation_Forall; [symmetry; exact P|].
    eapply Forall_impl; [|apply matching_review_items, Hwf].
    intros item (_ & _ & n & H & _). now exists n. }
  eexists. split.
  - unfold getStatistics, bind.
    rewrite (getAllItems_run _ _ _ _ Hstore Hwf).
    rewrite (getDueItems_run clock _ _ _ store);
      rewrite ?Hclock; auto.
    unfold due_items. rewrite !matching_default_level. fold items sorted.
    rewrite filter_count_total with (f := reviewed_item).
    2: { eapply Forall_impl; [|exact C]. intros item [n H] s0.
         now apply reviewCount_gt_run with (n := n). }
    rewrite filter_count_total with (f := mastered_item).
    2: { eapply Forall_impl; [|exact C]. intros item [n H] s0.
         now apply reviewCount_ge_run with (n := n). }
    rewrite (getStatistics_levels_run clock now levels store) by auto.
    cbn [ret app]. reflexivity.
  - cbn [byLevel total dueToday reviewed mastered].
    split; [reflexivity|].
    split; [exact (Permutation_length P)|].
    split; [|split].
    + exact (Permutation_length (sorted_by_date_perm _ _ _)).
    + exact (Permutation_length (Permutation_filter _ _ _ P)).
    + exact (Permutation_length (Permutation_filter _ _ _ P)).
Qed.

(** X11.  [getDueItems], [getAllItems] and [getStatistics] never write.
    Every run of theirs that this development describes, a return or an
    exception, leaves the store, the console and the alerts what they
    were.  On a store of review items, with a clock that stands still at a
    valid time, all three return, and the state differs only in the count
    of the readings of the clock: one, none and seven more. *)
Theorem queries_never_write (clock : nat -> Z) (level type : value) :
  (read_only (getDueItems clock level type) /\
   read_only (getAllItems level type) /\
   read_only (getStatistics clock level)) /\
  forall now s store,
    (forall i, clock i = now) ->
    valid_time now ->
    store_of s = Some store ->
    review_store store = true ->
    exists dueItems items stats,
      getDueItems clock level type s = Return dueItems (ticked 1 s) /\
      getAllItems level type s = Return items s /\
      getStatistics clock level s = Return stats (ticked 7 s).
Proof.
  split.
  { split; [apply read_only_getDueItems|].
    split; [apply read_only_getAllItems|apply read_only_getStatistics]. }
  intros now s store Hclock Hnow Hstore Hwf.
  destruct (getStatistics_run clock now level s store Hclock Hnow Hstore Hwf)
    as (stats & Hstats & _).
  do 3 eexists. split; [|split; [|exact Hstats]].
  - apply (getDueItems_run clock level type s store);
      [now rewrite Hclock | exact Hstore | exact Hwf].
  - now apply getAllItems_run with (store := store).
Qed.

Lemma queries_never_write_witness :
  exists dueItems items stats,
    getDueItems sample_clock (JStr "a1") Undefined sample_state
    = Return dueItems (mkState (Some (JObj sample_store)) [] [] 1) /\
    getAllItems (JStr "a1") Undefined sample_state
    = Return items sample_state /\
    getStatistics sample_clock (JStr "a1") sample_state
    = Return stats (mkState (Some (JObj sample_store)) [] [] 7) /\
    List.length dueItems = 1%nat /\ List.length items = 2%nat /\
    total stats = 2%nat.
Proof.
  destruct (proj2 (queries_never_write sample_clock (JStr "a1") Undefined)
              1700000000000 sample_state sample_store)
    as (dueItems & items & stats & Hd & Hi & Hs).
  - reflexivity.
  - vm_compute. split; discriminate.
  - reflexivity.
  - reflexivity.
  - exists dueItems, items, stats.
    split; [exact Hd|]. split; [exact Hi|]. split; [exact Hs|].
    vm_compute in Hd, Hi, Hs.
    injection Hd as <-. injection Hi as <-. injection Hs as <-.
    repeat split.
Defined.

Lemma filter_length_mono {A} (f g : A -> bool) l :
  (forall x, f x = true -> g x = true) ->
  (List.length (filter f l) <= List.length (filter g l))%nat.
Proof.
  intros H. induction l as [|x l IH]; cbn [filter]; [constructor|].
  destruct (f x) eqn:E.
  - rewrite (H x E). cbn [List.length]. now apply le_n_S.
  - destruct (g x); cbn [List.length]; auto.
Qed.

Lemma filter_length_disjoint {A} (f g : A -> bool) l :
  (forall x, f x = true -> g x = false) ->
  (List.length (filter f l) + List.length (filter g l) <= List.length l)%nat.
Proof.
  intros H. induction l as [|x l IH]; cbn [filter]; [constructor|].
  destruct (f x) eqn:E.
  - rewrite (H x E). cbn [List.length]. lia.
  - destruct (g x); cbn [List.length]; lia.
Qed.

Lemma of_type_disjoint item :
  of_type "vocab" item = true -> of_type "sentence" item = false.
Proof.
  unfold of_type. destruct (obj_get item "type") as [| | |[]]; try discriminate.
  cbn [strict_equal]. intros H. apply String.eqb_eq in H. now subst.
Qed.

(** X14.  The numbers of a report agree with each other: of the items
    counted in [total], no more are due, no more are reviewed, and no more
    are mastered than reviewed; in each level no more items are due than
    there are, and the vocabulary and the sentences together are no more
    than the items of the level. *)
Theorem getStatistics_consistent
  (clock : nat -> Z) (now : Z) (level : value) (s : State) (store : object) :
  (forall i, clock i = now) ->
  valid_time now ->
  store_of s = Some store ->
  review_store store = true ->
  exists stats,
    getStatistics clock level s = Return stats (ticked 7 s) /\
    (mastered stats <= reviewed stats <= total stats)%nat /\
    (dueToday stats <= total stats)%nat /\
    Forall (fun report =>
              (level_dueToday (snd report) <= level_total (snd report))%nat /\
              (level_vocab (snd report) + level_sentences (snd report)
               <= level_total (snd report))%nat)
      (byLevel stats).
Proof.
  intros Hclock Hnow Hstore Hwf.
  destruct (getStatistics_run clock now level s store Hclock Hnow Hstore Hwf)
    as (stats & Hrun & Hlevels & Ht & Hd & Hr & Hm).
  exists stats. split; [exact Hrun|].
  rewrite Ht, Hd, Hr, Hm, Hlevels. repeat split.
  - apply filter_length_mono. intros item. unfold mastered_item, reviewed_item.
    destruct (count_of item) as [n|]; [|discriminate].
    change (intervals_length - 1) with 4. intros H.
    apply Z.leb_le in H. apply Z.ltb_lt. lia.
  - apply filter_length_le.
  - apply filter_length_le.
  - apply Forall_map. rewrite Forall_forall. intros lvl _.
    cbn [level_report snd level_total level_dueToday level_vocab
           level_sentences].
    split; [apply filter_length_le|].
    apply filter_length_disjoint, of_type_disjoint.
Qed.

Lemma getStatistics_consistent_witness :
  exists stats,
    getStatistics sample_clock Undefined sample_state =
      Return stats (ticked 7 sample_state) /\
    (mastered stats <= reviewed stats <= total stats)%nat /\
    (dueToday stats <= total stats)%nat.
Proof.
  destruct (getStatistics_consistent sample_clock 1700000000000 Undefined
              sample_state sample_store)
    as (stats & Hrun & Hm & Hd & _).
  - reflexivity.
  - vm_compute. split; discriminate.
  - reflexivity.
  - vm_compute. reflexivity.
  - exists stats. auto.
Defined.

(** X15.  What is due is listed: with the same filters, every item
    [getDueItems] returns is among the items [getAllItems] returns, and it
    is due at the reading of the clock. *)
Theorem due_items_are_listed
  (clock : nat -> Z) (level type : value) (s : State) (store : object) :
  valid_time (clock (ticks s)) ->
  store_of s = Some store ->
  review_store store = true ->
  exists dueItems items,
    getDueItems clock level type s = Return dueItems (ticked 1 s) /\
    getAllItems level type s = Return items s /\
    (List.length dueItems <= List.length items)%nat /\
    forall item,
      In item dueItems ->
      In item items /\ due (clock (ticks s)) item = true.
Proof.
  intros Hnow Hstore Hwf. do 2 eexists.
  split; [now apply getDueItems_run with (store := store)|].
  split; [now apply getAllItems_run with (store := store)|].
  split.
  - rewrite !(Permutation_length (sorted_by_date_perm _ _ _)).
    apply filter_length_le.
  - intros item Hi.
    apply (Permutation_in _ (sorted_by_date_perm _ _ _)) in Hi.
    apply filter_In in Hi. destruct Hi as [Hi Hd]. split; [|exact Hd].
    apply (Permutation_in _ (Permutation_sym (sorted_by_date_perm _ _ _))).
    exact Hi.
Qed.

Lemma due_items_are_listed_witness :
  exists dueItems items,
    getDueItems sample_clock Undefined Undefined sample_state =
      Return dueItems (ticked 1 sample_state) /\
    getAllItems Undefined Undefined sample_state = Return items sample_state /\
    (List.length dueItems <= List.length items)%nat.
Proof.
  destruct (due_items_are_listed sample_clock Undefined Undefined
              sample_state sample_store)
    as (dueItems & items & Hdue & Hall & Hlen & _).
  - vm_compute. split; discriminate.
  - reflexivity.
  - vm_compute. reflexivity.
  - exists dueItems, items. auto.
Defined.

(** ** Dates written and read back *)

(** X16.  A date the methods write is read back as the same instant:
    [new Date] of the string that [toISOString] gives for a time value is
    a valid date with that time value, over the whole range of dates. *)
Theorem Date_of_iso_format (t : Z) :
  valid_time t ->
  Date_of (Json (JStr (iso_format t))) = Some (Num t).
Proof.
  intros Ht. cbn [Date_of]. now rewrite Date_parse_written.
Qed.

Lemma Date_of_iso_format_witness :
  Date_of (Json (JStr (iso_format 1700000000000)))
  = Some (Num 1700000000000).
Proof.
  apply (Date_of_iso_format 1700000000000).
  unfold valid_time, maxTime. lia.
Defined.

(** ** The store stays a store of review items *)

Lemma review_item_new level type id data t0 t1 t2 :
  valid_time t0 -> valid_time t1 ->
  review_item (new_item level type id data t0 t1 t2) = true.
Proof.
  intros H0 H1. unfold new_item. cbn [review_item].
  change (obj_get _ "nextReviewDate") with (Json (JStr (iso_format t1))).
  change (obj_get _ "savedDate") with (Json (JStr (iso_format t0))).
  rewrite !valid_date_written by assumption.
  reflexivity.
Qed.

Lemma review_item_resaved data t item :
  review_item (JObj item) = true ->
  review_item (JObj (resaved data t item)) = true.
Proof.
  unfold resaved, count_of. cbn [review_item]. unfold count_of.
  now rewrite !obj_get_set_other by discriminate.
Qed.

Lemma review_item_after_review t0 n t1 item :
  review_item (JObj item) = true -> 0 <= n -> valid_time t1 ->
  review_item (JObj (after_review t0 n t1 item)) = true.
Proof.
  unfold after_review. cbn [review_item]. unfold count_of.
  intros H Hn Ht.
  rewrite obj_get_set_same, valid_date_written by exact Ht.
  rewrite !(obj_get_set_other _ "savedDate") by discriminate.
  rewrite (obj_get_set_other _ "reviewCount") by discriminate.
  rewrite obj_get_set_same.
  apply andb_prop in H. destruct H as [H _].
  apply andb_prop in H. destruct H as [_ H]. rewrite H.
  now apply Z.leb_le in Hn as ->.
Qed.

Lemma review_store_lookup store k v :
  review_store store = true -> obj_lookup k store = Some v ->
  review_item v = true.
Proof.
  induction store as [|[k' v'] store IH]; [discriminate|].
  intros H. apply review_store_cons in H. destruct H as [Hv Hs].
  cbn [obj_lookup]. destruct (String.eqb k' k); [|now apply IH].
  now intros [= <-].
Qed.

Lemma review_store_replace store k v :
  review_store store = true -> review_item v = true ->
  review_store (obj_replace k v store) = true.
Proof.
  intros Hs Hv. induction store as [|[k' v'] store IH]; [reflexivity|].
  apply review_store_cons in Hs. destruct Hs as [Hv' Hs].
  cbn [obj_replace]. unfold review_store in *.
  destruct (String.eqb k' k); cbn [forallb fst snd].
  - now rewrite Hv, Hs.
  - now rewrite Hv', IH.
Qed.

Lemma review_store_app a b :
  review_store (a ++ b) = review_store a && review_store b.
Proof. apply forallb_app. Qed.

Lemma review_store_delete store k :
  review_store store = true -> review_store (obj_delete k store) = true.
Proof.
  unfold review_store, obj_delete. rewrite !forallb_forall.
  intros H x Hx. apply filter_In in Hx. now apply H.
Qed.

Lemma saveItem_keeps clock zone level type id data s store :
  clock_in_range clock zone ->
  store_of s = Some store -> review_store store = true ->
  safe_integer id = true ->
  keeps_review_store (saveItem clock zone level type id data) s.
Proof.
  intros Hclock Hstore Hwf Hsafe.
  destruct (item_key_of_safe level type id Hsafe) as [key Hid].
  unfold keeps_review_store, saveItem, bind.
  rewrite (getAllData_store _ _ Hstore), Hid. cbn [get_member_at].
  destruct (obj_lookup key store) as [v|] eqn:Hkey.
  - pose proof (review_store_lookup _ _ _ Hwf Hkey) as Hv.
    destruct v as [| | | | |item]; try discriminate.
    rewrite (get_member_own _ _ _ _ Hkey).
    cbn [truthy set_member described ret]. rewrite new_Date_run by apply Hclock.
    cbn [toISOString ret set_member get_member].
    unfold obj_set at 1. rewrite Hkey.
    unfold saveAllData, console_log, interpolate.
    fold (resaved data (clock (ticks s)) item).
    destruct (interpolates (obj_get data "english"));
      cbn [ret throw final_state]; do 2 eexists;
      (split; [reflexivity|]); cbn [store_of storage];
      (split; [reflexivity|]);
      apply review_store_replace; auto using review_item_resaved.
  - rewrite (get_member_absent _ _ _ Hkey
               (item_key_not_inherited _ _ _ _ Hid)).
    cbn [truthy described ret]. rewrite new_Date_run by apply Hclock.
    cbn [toISOString ret].
    rewrite (calculateNextReview_run clock zone (Num 0) 1);
      [|reflexivity|apply Hclock|apply (proj2 (Hclock _)); now left].
    rewrite new_Date_run by apply Hclock.
    cbn [toISOString ret set_member get_member ticks].
    unfold obj_set. rewrite Hkey.
    unfold saveAllData, console_log, interpolate.
    fold (new_item level type id data (clock (ticks s))
            (days_later zone 1 (clock (S (ticks s))))
            (clock (S (S (ticks s))))).
    destruct (interpolates (obj_get data "english"));
      cbn [ret throw final_state]; do 2 eexists;
      (split; [reflexivity|]); cbn [store_of storage];
      (split; [reflexivity|]);
      rewrite review_store_app, Hwf; unfold review_store;
      cbn [forallb snd andb];
      (rewrite review_item_new;
       [reflexivity | apply (proj1 (Hclock _))
       | apply (proj2 (Hclock _)); now left]).
Qed.

Lemma deleteItem_keeps key s store :
  store_of s = Some store -> review_store store = true ->
  keeps_review_store (deleteItem key) s.
Proof.
  intros Hstore Hwf. unfold keeps_review_store.
  rewrite (deleteItem_run key s store Hstore).
  destruct (truthy (obj_get store key)); cbn [final_state];
    do 2 eexists.
  - split; [reflexivity|]. cbn [store_of storage].
    split; [reflexivity|]. now apply review_store_delete.
  - split; [reflexivity|]. split; [exact Hstore | exact Hwf].
Qed.

Lemma reviewItem_keeps clock zone key (remembered : bool) s store :
  clock_in_range clock zone ->
  store_of s = Some store -> review_store store = true ->
  (obj_lookup key store = None -> inherited key = false) ->
  (remembered = true ->
   forall item n,
     obj_lookup key store = Some (JObj item) -> count_of item = Some n ->
     n < exact_bound) ->
  keeps_review_store (reviewItem clock zone key remembered) s.
Proof.
  intros Hclock Hstore Hwf Hown Hexact. unfold keeps_review_store.
  destruct (obj_lookup key store) as [v|] eqn:Hkey.
  - pose proof (review_store_lookup _ _ _ Hwf Hkey) as Hv.
    destruct (review_item_inv _ Hv)
      as (item & next & saved & n & -> & _ & _ & _ & Hc & Hn).
    destruct remembered.
    + pose proof (Hexact eq_refl item n eq_refl Hc) as Hb.
      destruct (rung_cases (n + 1)) as (days & _ & Hi & Ha & _); [lia|].
      rewrite (reviewItem_remembered_run clock zone key s store item n days
                 Hstore Hkey Hc);
        [|unfold exact_bound in *; lia | exact Ha | apply Hclock
         |apply Hclock | now apply (proj2 (Hclock _))].
      cbn [final_state]. do 2 eexists. split; [reflexivity|].
      cbn [store_of storage]. split; [reflexivity|].
      apply review_store_replace; [exact Hwf|].
      apply review_item_after_review;
        [exact Hv | lia | now apply (proj2 (Hclock _))].
    + rewrite (reviewItem_forgotten_run clock zone key s store item
                 Hstore Hkey);
        [|apply Hclock | apply Hclock
         |apply (proj2 (Hclock _)); now left].
      cbn [final_state]. do 2 eexists. split; [reflexivity|].
      cbn [store_of storage]. split; [reflexivity|].
      apply review_store_replace; [exact Hwf|].
      apply review_item_after_review;
        [exact Hv | lia | apply (proj2 (Hclock _)); now left].
  - unfold reviewItem, bind.
    rewrite (getAllData_store _ _ Hstore).
    rewrite (get_member_absent _ _ _ Hkey (Hown eq_refl)).
    cbn [truthy negb]. unfold console_error, console_log.
    cbn [final_state]. do 2 eexists. split; [reflexivity|].
    split; [exact Hstore | exact Hwf].
Qed.

(** X17.  The methods that write keep the store well formed: from a store
    of review items, [saveItem], [addItem], [removeItem], [deleteItem],
    [resetAll] and [reviewItem] end (also when [saveItem] throws after
    writing) in a state whose store is a store of review items again.  The
    id of a composite key is a safe integer; for [reviewItem] the key is in
    the store or is not a name every object inherits, and a count that is
    incremented is below 2^53. *)
Theorem writes_keep_review_store
  (clock : nat -> Z) (zone : TimeZone) (s : State) (store : object) :
  clock_in_range clock zone ->
  store_of s = Some store ->
  review_store store = true ->
  (forall level type id data,
     safe_integer id = true ->
     keeps_review_store (saveItem clock zone level type id data) s /\
     keeps_review_store (addItem clock zone level type id data) s /\
     keeps_review_store (removeItem level type id) s) /\
  (forall key, keeps_review_store (deleteItem key) s) /\
  (forall confirmed, keeps_review_store (resetAll confirmed) s) /\
  (forall key remembered,
     (obj_lookup key store = None -> inherited key = false) ->
     (remembered = true ->
      forall item n,
        obj_lookup key store = Some (JObj item) ->
        count_of item = Some n -> n < exact_bound) ->
     keeps_review_store (reviewItem clock zone key remembered) s).
Proof.
  intros Hclock Hstore Hwf. repeat split.
  - now apply saveItem_keeps with (store := store).
  - now apply saveItem_keeps with (store := store).
  - destruct (item_key_of_safe level type id H) as [key Hid].
    unfold keeps_review_store, removeItem, bind. rewrite Hid.
    cbn [described ret].
    now apply deleteItem_keeps with (store := store).
  - intros key. now apply deleteItem_keeps with (store := store).
  - intros [|]; unfold keeps_review_store, resetAll, bind, console_log;
      cbn [ret final_state]; do 2 eexists.
    + split; [reflexivity|]. split; reflexivity.
    + split; [reflexivity|]. split; [exact Hstore | exact Hwf].
  - intros key remembered Hown Hexact.
    now apply reviewItem_keeps with (store := store).
Qed.

Lemma writes_keep_review_store_witness :
  keeps_review_store
    (saveItem sample_clock sample_zone "a1" "vocab" 1 []) sample_state /\
  keeps_review_store (deleteItem "a1_vocab_1") sample_state /\
  keeps_review_store
    (reviewItem sample_clock sample_zone "b2_sentence_7" true) sample_state.
Proof.
  destruct (writes_keep_review_store sample_clock sample_zone sample_state
              sample_store sample_clock_in_range eq_refl eq_refl)
    as (Hsave & Hdelete & _ & Hreview).
  split; [now apply Hsave|]. split; [apply Hdelete|].
  apply Hreview.
  - discriminate.
  - intros _ item n [= <-] [= <-]. reflexivity.
Defined.

(** ** Writing, then asking what is due *)

Lemma listed_app a b : listed (a ++ b) = listed a ++ listed b.
Proof. apply flat_map_app. Qed.

Lemma date_field_written name item t :
  obj_get item name = Json (JStr (iso_format t)) -> valid_time t ->
  date_field name item = Some t.
Proof.
  intros Hg Ht. unfold date_field. rewrite Hg. cbn [Date_of].
  now rewrite Date_parse_written.
Qed.

Lemma listed_replace_in key item store :
  obj_lookup key store <> None ->
  In (spread_with_key key item) (listed (obj_replace key (JObj item) store)).
Proof.
  induction store as [|[k v] store IH]; [now intros []|].
  cbn [obj_lookup obj_replace]. destruct (String.eqb k key) eqn:E.
  - intros _. apply String.eqb_eq in E. subst k.
    unfold listed. cbn [flat_map fst snd]. apply in_or_app. left. now left.
  - intros H. change ((k, v) :: obj_replace key (JObj item) store)
      with ([(k, v)] ++ obj_replace key (JObj item) store).
    rewrite listed_app. apply in_or_app. right. now apply IH.
Qed.

(** X18.  An item saved under a new key (of a safe integer [id]) joins the
    due items from its first review date on: [getDueItems()] after
    [saveItem] returns the due items of the old store, and the new item
    with them exactly when the date [saveItem] wrote as [nextReviewDate]
    (one day after its second reading of the clock) is at or before the
    reading of the clock of [getDueItems]. *)
Theorem saved_item_due_from_next_review
  (clock : nat -> Z) (zone : TimeZone) (level type : string) (id : Z)
  (key : string) (data : object) (s : State) (store : object) :
  clock_in_range clock zone ->
  store_of s = Some store ->
  review_store store = true ->
  item_key level type id = Some key ->
  obj_lookup key store = None ->
  interpolates (obj_get data "english") = true ->
  let next := days_later zone 1 (clock (S (ticks s))) in
  let now := clock (S (S (S (ticks s)))) in
  exists item s1 result s2,
    new_item level type id data (clock (ticks s)) next
      (clock (S (S (ticks s)))) = JObj item /\
    saveItem clock zone level type id data s = Return tt s1 /\
    store_of s1 = Some (store ++ [(key, JObj item)]) /\
    getDueItems clock Undefined Undefined s1 = Return result s2 /\
    same_page s1 s2 /\
    Permutation result
      (filter (due now) (listed store)
       ++ (if next <=? now then [spread_with_key key item] else [])).
Proof.
  intros Hclock Hstore Hwf Hid Hkey Hdata next now.
  pose proof (saveItem_new_run clock zone level type id key data s store
                Hstore Hid Hkey Hdata (proj1 (Hclock _)) (proj1 (Hclock _))
                (proj2 (Hclock _) 1 (or_introl eq_refl))
                (proj1 (Hclock _))) as Hrun.
  fold next in Hrun.
  assert (Hnew : review_item
                   (new_item level type id data (clock (ticks s)) next
                      (clock (S (S (ticks s))))) = true).
  { apply review_item_new; [apply Hclock|].
    apply (proj2 (Hclock _)). now left. }
  assert (Hnext : valid_time next)
    by (apply (proj2 (Hclock _)); now left).
  revert Hrun Hnew. unfold new_item.
  set (item := [("level", JStr level); ("type", JStr type); ("id", JNum id);
                ("data", JObj data);
                ("savedDate", JStr (iso_format (clock (ticks s))));
                ("lastReviewed", JNull); ("reviewCount", JNum 0);
                ("nextReviewDate", JStr (iso_format next));
                ("lastModified",
                 JStr (iso_format (clock (S (S (ticks s))))))]).
  intros Hrun Hnew.
  assert (Hwf1 : review_store (store ++ [(key, JObj item)]) = true).
  { rewrite review_store_app, Hwf. unfold review_store.
    cbn [forallb snd andb]. now rewrite Hnew. }
  exists item. eexists. eexists. eexists.
  split; [reflexivity|]. split; [exact Hrun|].
  split; [reflexivity|]. split.
  { apply (getDueItems_run clock Undefined Undefined _
             (store ++ [(key, JObj item)]));
      [apply Hclock | reflexivity | exact Hwf1]. }
  split; [repeat split|].
  rewrite sorted_by_date_perm. cbn [ticks]. fold now.
  unfold due_items. rewrite matching_omitted, listed_app, filter_app.
  apply Permutation_app_head.
  unfold listed. cbn [flat_map fst snd app filter].
  unfold due at 1. rewrite date_field_spread by discriminate.
  rewrite (date_field_written "nextReviewDate" item next) by
    (reflexivity || exact Hnext).
  reflexivity.
Qed.

Lemma saved_item_due_from_next_review_witness :
  exists item s1 result s2,
    new_item "c1" "vocab" 9 [("english", JStr "owl")] 1700000000000
      (1700000000000 + msPerDay) 1700000000000 = JObj item /\
    saveItem sample_clock sample_zone "c1" "vocab" 9
      [("english", JStr "owl")] sample_state = Return tt s1 /\
    store_of s1 = Some (sample_store ++ [("c1_vocab_9", JObj item)]) /\
    getDueItems sample_clock Undefined Undefined s1 = Return result s2 /\
    same_page s1 s2 /\
    Permutation result (filter (due 1700000000000) (listed sample_store)).
Proof.
  destruct (saved_item_due_from_next_review sample_clock sample_zone
              "c1" "vocab" 9 "c1_vocab_9" [("english", JStr "owl")]
              sample_state sample_store sample_clock_in_range eq_refl
              eq_refl eq_refl eq_refl eq_refl)
    as (item & s1 & result & s2 & Hi & Hs & Hst & Hd & Hp & Hr).
  exists item, s1, result, s2.
  repeat (split; [assumption|]).
  rewrite Hr. now rewrite app_nil_r.
Defined.

(** X19.  A reviewed item is due again from its new review date on:
    [getDueItems()] after [reviewItem] lists the item exactly when the rung
    of the ladder for its new count, counted in days from the second
    reading of the clock in [reviewItem], is at or before the reading of
    the clock of [getDueItems]. *)
Theorem reviewed_item_due_from_next_review
  (clock : nat -> Z) (zone : TimeZone) (key : string) (remembered : bool)
  (s : State) (store item : object) (n : Z) :
  clock_in_range clock zone ->
  store_of s = Some store ->
  review_store store = true ->
  obj_lookup key store = Some (JObj item) ->
  count_of item = Some n ->
  (remembered = true -> n < exact_bound) ->
  let now := clock (S (S (ticks s))) in
  exists days item' s1 result s2,
    rung (if remembered then n + 1 else 0) = Some days /\
    reviewItem clock zone key remembered s = Return tt s1 /\
    (exists store', store_of s1 = Some store' /\
                    obj_lookup key store' = Some (JObj item')) /\
    getDueItems clock Undefined Undefined s1 = Return result s2 /\
    (In (spread_with_key key item') result <->
     days_later zone days (clock (S (ticks s))) <= now).
Proof.
  intros Hclock Hstore Hwf Hkey Hcount Hb now.
  pose proof (review_store_lookup _ _ _ Hwf Hkey) as Hv.
  destruct (review_item_inv _ Hv)
    as (item0 & _ & _ & n0 & [= <-] & _ & _ & _ & Hc & Hn).
  assert (n0 = n) by congruence. subst n0.
  assert (Hrun : exists days,
             rung (if remembered then n + 1 else 0) = Some days /\
             In days intervals /\
             reviewItem clock zone key remembered s =
             Return tt
               (mkState
                  (Some (JObj (obj_replace key
                                 (JObj (after_review (clock (ticks s))
                                          (if remembered then n + 1 else 0)
                                          (days_later zone days
                                             (clock (S (ticks s))))
                                          item)) store)))
                  (console s ++
                   [if remembered then LogRemembered (Some days)
                    else LogForgotten (Some 1)])
                  (alerts s) (S (S (ticks s))))).
  { destruct remembered.
    - destruct (rung_cases (n + 1)) as (days & Hr & Hi & Ha & _); [lia|].
      exists days. split; [exact Hr|]. split; [exact Hi|].
      apply (reviewItem_remembered_run clock zone key s store item n days
               Hstore Hkey Hcount);
        [specialize (Hb eq_refl); unfold exact_bound in *; lia | exact Ha
        | apply Hclock | apply Hclock | now apply (proj2 (Hclock _))].
    - exists 1. split; [reflexivity|]. split; [now left|].
      apply (reviewItem_forgotten_run clock zone key s store item
               Hstore Hkey);
        [apply Hclock | apply Hclock
        | apply (proj2 (Hclock _)); now left]. }
  destruct Hrun as (days & Hr & Hdays & Hrun).
  pose proof (proj2 (Hclock (S (ticks s))) days Hdays) as Hnext.
  set (next := days_later zone days (clock (S (ticks s)))) in *.
  set (item' := after_review (clock (ticks s))
                  (if remembered then n + 1 else 0) next item) in *.
  assert (Hitem' : review_item (JObj item') = true).
  { apply review_item_after_review;
      [exact Hv | destruct remembered; lia | exact Hnext]. }
  exists days, item'. eexists. eexists. eexists.
  split; [exact Hr|]. split; [exact Hrun|]. split.
  { eexists. split; [reflexivity|].
    apply obj_lookup_replace_same. congruence. }
  split.
  { apply (getDueItems_run clock Undefined Undefined _
             (obj_replace key (JObj item') store));
      [apply Hclock | reflexivity | now apply review_store_replace]. }
  cbn [ticks]. fold now.
  assert (Hdue : due now (spread_with_key key item') = (next <=? now)).
  { unfold due. rewrite date_field_spread by discriminate.
    rewrite (date_field_written "nextReviewDate" item' next);
      [reflexivity | apply obj_get_set_same | exact Hnext]. }
  split.
  - intros Hin.
    apply (Permutation_in _ (sorted_by_date_perm _ _ _)) in Hin.
    unfold due_items in Hin. apply filter_In in Hin.
    destruct Hin as [_ Hin]. rewrite Hdue in Hin. now apply Z.leb_le.
  - intros Hle.
    apply (Permutation_in _ (Permutation_sym (sorted_by_date_perm _ _ _))).
    unfold due_items. apply filter_In. split.
    + rewrite matching_omitted. apply listed_replace_in. congruence.
    + rewrite Hdue. now apply Z.leb_le.
Qed.

Lemma reviewed_item_due_from_next_review_witness :
  exists days item' s1 result s2,
    rung 6 = Some days /\
    reviewItem sample_clock sample_zone "b2_sentence_7" true sample_state
    = Return tt s1 /\
    (exists store', store_of s1 = Some store' /\
                    obj_lookup "b2_sentence_7" store' = Some (JObj item')) /\
    getDueItems sample_clock Undefined Undefined s1 = Return result s2 /\
    (In (spread_with_key "b2_sentence_7" item') result <->
     days_later sample_zone days 1700000000000 <= 1700000000000).
Proof.
  eapply (reviewed_item_due_from_next_review sample_clock sample_zone
            "b2_sentence_7" true sample_state sample_store _ 5
            sample_clock_in_range eq_refl eq_refl eq_refl eq_refl).
  intros _. reflexivity.
Defined.
